(** * Employee task management front end: a shallow embedding of its view logic

    The repository is a React front end.  Its design-bearing logic is small:
    the dashboard's completion percentage and recent-task list, the task
    list's filter, overdue label, quick actions and delete handler, the
    user-management counters, and the role gates around action buttons.
    Each of those is embedded below as a Rocq function that follows the
    JavaScript expression it comes from, and the properties of the
    specification are then proved about these functions. *)

From Stdlib Require Import Bool List String Ascii ZArith QArith Qround Qabs Qpower.
From Stdlib Require Import SpecFloat Lia Lqa.
From Stdlib Require Import Sorted Permutation.
Import ListNotations.

Local Open Scope string_scope.
Local Open Scope list_scope.
Local Open Scope Z_scope.

(** ** Unicode case data

    [String.prototype.toLowerCase] and [toUpperCase] follow the Unicode
    default case conversion: the mappings of UnicodeData.txt, the
    unconditional and the Final_Sigma entries of SpecialCasing.txt, and the
    properties Cased and Case_Ignorable of DerivedCoreProperties.txt.  The
    tables below hold that data (Unicode 14.0) over code points, in
    compressed form: [(first, last, stride, delta)] maps every code point
    [first + k * stride] up to [last] to itself plus [delta]. *)

Module Unicode.

Definition lowerRanges : list (Z * Z * Z * Z) :=
  [
    (65, 90, 1, 32); (192, 214, 1, 32); (216, 222, 1, 32); (256, 302, 2, 1);
    (306, 310, 2, 1); (313, 327, 2, 1); (330, 374, 2, 1); (376, 376, 1, -121);
    (377, 381, 2, 1); (385, 385, 1, 210); (386, 388, 2, 1); (390, 390, 1, 206);
    (391, 391, 1, 1); (393, 394, 1, 205); (395, 395, 1, 1); (398, 398, 1, 79);
    (399, 399, 1, 202); (400, 400, 1, 203); (401, 401, 1, 1); (403, 403, 1, 205);
    (404, 404, 1, 207); (406, 406, 1, 211); (407, 407, 1, 209); (408, 408, 1, 1);
    (412, 412, 1, 211); (413, 413, 1, 213); (415, 415, 1, 214); (416, 420, 2, 1);
    (422, 422, 1, 218); (423, 423, 1, 1); (425, 425, 1, 218); (428, 428, 1, 1);
    (430, 430, 1, 218); (431, 431, 1, 1); (433, 434, 1, 217); (435, 437, 2, 1);
    (439, 439, 1, 219); (440, 440, 1, 1); (444, 444, 1, 1); (452, 452, 1, 2);
    (453, 453, 1, 1); (455, 455, 1, 2); (456, 456, 1, 1); (458, 458, 1, 2);
    (459, 475, 2, 1); (478, 494, 2, 1); (497, 497, 1, 2); (498, 500, 2, 1);
    (502, 502, 1, -97); (503, 503, 1, -56); (504, 542, 2, 1); (544, 544, 1, -130);
    (546, 562, 2, 1); (570, 570, 1, 10795); (571, 571, 1, 1); (573, 573, 1, -163);
    (574, 574, 1, 10792); (577, 577, 1, 1); (579, 579, 1, -195); (580, 580, 1, 69);
    (581, 581, 1, 71); (582, 590, 2, 1); (880, 882, 2, 1); (886, 886, 1, 1);
    (895, 895, 1, 116); (902, 902, 1, 38); (904, 906, 1, 37); (908, 908, 1, 64);
    (910, 911, 1, 63); (913, 929, 1, 32); (931, 939, 1, 32); (975, 975, 1, 8);
    (984, 1006, 2, 1); (1012, 1012, 1, -60); (1015, 1015, 1, 1); (1017, 1017, 1, -7);
    (1018, 1018, 1, 1); (1021, 1023, 1, -130); (1024, 1039, 1, 80); (1040, 1071, 1, 32);
    (1120, 1152, 2, 1); (1162, 1214, 2, 1); (1216, 1216, 1, 15); (1217, 1229, 2, 1);
    (1232, 1326, 2, 1); (1329, 1366, 1, 48); (4256, 4293, 1, 7264); (4295, 4295, 1, 7264);
    (4301, 4301, 1, 7264); (5024, 5103, 1, 38864); (5104, 5109, 1, 8);
    (7312, 7354, 1, -3008); (7357, 7359, 1, -3008); (7680, 7828, 2, 1);
    (7838, 7838, 1, -7615); (7840, 7934, 2, 1); (7944, 7951, 1, -8); (7960, 7965, 1, -8);
    (7976, 7983, 1, -8); (7992, 7999, 1, -8); (8008, 8013, 1, -8); (8025, 8031, 2, -8);
    (8040, 8047, 1, -8); (8072, 8079, 1, -8); (8088, 8095, 1, -8); (8104, 8111, 1, -8);
    (8120, 8121, 1, -8); (8122, 8123, 1, -74); (8124, 8124, 1, -9); (8136, 8139, 1, -86);
    (8140, 8140, 1, -9); (8152, 8153, 1, -8); (8154, 8155, 1, -100); (8168, 8169, 1, -8);
    (8170, 8171, 1, -112); (8172, 8172, 1, -7); (8184, 8185, 1, -128);
    (8186, 8187, 1, -126); (8188, 8188, 1, -9); (8486, 8486, 1, -7517);
    (8490, 8490, 1, -8383); (8491, 8491, 1, -8262); (8498, 8498, 1, 28);
    (8544, 8559, 1, 16); (8579, 8579, 1, 1); (9398, 9423, 1, 26); (11264, 11311, 1, 48);
    (11360, 11360, 1, 1); (11362, 11362, 1, -10743); (11363, 11363, 1, -3814);
    (11364, 11364, 1, -10727); (11367, 11371, 2, 1); (11373, 11373, 1, -10780);
    (11374, 11374, 1, -10749); (11375, 11375, 1, -10783); (11376, 11376, 1, -10782);
    (11378, 11378, 1, 1); (11381, 11381, 1, 1); (11390, 11391, 1, -10815);
    (11392, 11490, 2, 1); (11499, 11501, 2, 1); (11506, 11506, 1, 1); (42560, 42604, 2, 1);
    (42624, 42650, 2, 1); (42786, 42798, 2, 1); (42802, 42862, 2, 1); (42873, 42875, 2, 1);
    (42877, 42877, 1, -35332); (42878, 42886, 2, 1); (42891, 42891, 1, 1);
    (42893, 42893, 1, -42280); (42896, 42898, 2, 1); (42902, 42920, 2, 1);
    (42922, 42922, 1, -42308); (42923, 42923, 1, -42319); (42924, 42924, 1, -42315);
    (42925, 42925, 1, -42305); (42926, 42926, 1, -42308); (42928, 42928, 1, -42258);
    (42929, 42929, 1, -42282); (42930, 42930, 1, -42261); (42931, 42931, 1, 928);
    (42932, 42946, 2, 1); (42948, 42948, 1, -48); (42949, 42949, 1, -42307);
    (42950, 42950, 1, -35384); (42951, 42953, 2, 1); (42960, 42960, 1, 1);
    (42966, 42968, 2, 1); (42997, 42997, 1, 1); (65313, 65338, 1, 32);
    (66560, 66599, 1, 40); (66736, 66771, 1, 40); (66928, 66938, 1, 39);
    (66940, 66954, 1, 39); (66956, 66962, 1, 39); (66964, 66965, 1, 39);
    (68736, 68786, 1, 64); (71840, 71871, 1, 32); (93760, 93791, 1, 32);
    (125184, 125217, 1, 34) ].

(** Lower-case mappings to more than one code point. *)
Definition lowerSpecial : list (Z * list Z) :=
  [
    (304, [105; 775]) ].

Definition upperRanges : list (Z * Z * Z * Z) :=
  [
    (97, 122, 1, -32); (181, 181, 1, 743); (224, 246, 1, -32); (248, 254, 1, -32);
    (255, 255, 1, 121); (257, 303, 2, -1); (305, 305, 1, -232); (307, 311, 2, -1);
    (314, 328, 2, -1); (331, 375, 2, -1); (378, 382, 2, -1); (383, 383, 1, -300);
    (384, 384, 1, 195); (387, 389, 2, -1); (392, 392, 1, -1); (396, 396, 1, -1);
    (402, 402, 1, -1); (405, 405, 1, 97); (409, 409, 1, -1); (410, 410, 1, 163);
    (414, 414, 1, 130); (417, 421, 2, -1); (424, 424, 1, -1); (429, 429, 1, -1);
    (432, 432, 1, -1); (436, 438, 2, -1); (441, 441, 1, -1); (445, 445, 1, -1);
    (447, 447, 1, 56); (453, 453, 1, -1); (454, 454, 1, -2); (456, 456, 1, -1);
    (457, 457, 1, -2); (459, 459, 1, -1); (460, 460, 1, -2); (462, 476, 2, -1);
    (477, 477, 1, -79); (479, 495, 2, -1); (498, 498, 1, -1); (499, 499, 1, -2);
    (501, 501, 1, -1); (505, 543, 2, -1); (547, 563, 2, -1); (572, 572, 1, -1);
    (575, 576, 1, 10815); (578, 578, 1, -1); (583, 591, 2, -1); (592, 592, 1, 10783);
    (593, 593, 1, 10780); (594, 594, 1, 10782); (595, 595, 1, -210); (596, 596, 1, -206);
    (598, 599, 1, -205); (601, 601, 1, -202); (603, 603, 1, -203); (604, 604, 1, 42319);
    (608, 608, 1, -205); (609, 609, 1, 42315); (611, 611, 1, -207); (613, 613, 1, 42280);
    (614, 614, 1, 42308); (616, 616, 1, -209); (617, 617, 1, -211); (618, 618, 1, 42308);
    (619, 619, 1, 10743); (620, 620, 1, 42305); (623, 623, 1, -211); (625, 625, 1, 10749);
    (626, 626, 1, -213); (629, 629, 1, -214); (637, 637, 1, 10727); (640, 640, 1, -218);
    (642, 642, 1, 42307); (643, 643, 1, -218); (647, 647, 1, 42282); (648, 648, 1, -218);
    (649, 649, 1, -69); (650, 651, 1, -217); (652, 652, 1, -71); (658, 658, 1, -219);
    (669, 669, 1, 42261); (670, 670, 1, 42258); (837, 837, 1, 84); (881, 883, 2, -1);
    (887, 887, 1, -1); (891, 893, 1, 130); (940, 940, 1, -38); (941, 943, 1, -37);
    (945, 961, 1, -32); (962, 962, 1, -31); (963, 971, 1, -32); (972, 972, 1, -64);
    (973, 974, 1, -63); (976, 976, 1, -62); (977, 977, 1, -57); (981, 981, 1, -47);
    (982, 982, 1, -54); (983, 983, 1, -8); (985, 1007, 2, -1); (1008, 1008, 1, -86);
    (1009, 1009, 1, -80); (1010, 1010, 1, 7); (1011, 1011, 1, -116); (1013, 1013, 1, -96);
    (1016, 1016, 1, -1); (1019, 1019, 1, -1); (1072, 1103, 1, -32); (1104, 1119, 1, -80);
    (1121, 1153, 2, -1); (1163, 1215, 2, -1); (1218, 1230, 2, -1); (1231, 1231, 1, -15);
    (1233, 1327, 2, -1); (1377, 1414, 1, -48); (4304, 4346, 1, 3008);
    (4349, 4351, 1, 3008); (5112, 5117, 1, -8); (7296, 7296, 1, -6254);
    (7297, 7297, 1, -6253); (7298, 7298, 1, -6244); (7299, 7300, 1, -6242);
    (7301, 7301, 1, -6243); (7302, 7302, 1, -6236); (7303, 7303, 1, -6181);
    (7304, 7304, 1, 35266); (7545, 7545, 1, 35332); (7549, 7549, 1, 3814);
    (7566, 7566, 1, 35384); (7681, 7829, 2, -1); (7835, 7835, 1, -59); (7841, 7935, 2, -1);
    (7936, 7943, 1, 8); (7952, 7957, 1, 8); (7968, 7975, 1, 8); (7984, 7991, 1, 8);
    (8000, 8005, 1, 8); (8017, 8023, 2, 8); (8032, 8039, 1, 8); (8048, 8049, 1, 74);
    (8050, 8053, 1, 86); (8054, 8055, 1, 100); (8056, 8057, 1, 128); (8058, 8059, 1, 112);
    (8060, 8061, 1, 126); (8112, 8113, 1, 8); (8126, 8126, 1, -7205); (8144, 8145, 1, 8);
    (8160, 8161, 1, 8); (8165, 8165, 1, 7); (8526, 8526, 1, -28); (8560, 8575, 1, -16);
    (8580, 8580, 1, -1); (9424, 9449, 1, -26); (11312, 11359, 1, -48);
    (11361, 11361, 1, -1); (11365, 11365, 1, -10795); (11366, 11366, 1, -10792);
    (11368, 11372, 2, -1); (11379, 11379, 1, -1); (11382, 11382, 1, -1);
    (11393, 11491, 2, -1); (11500, 11502, 2, -1); (11507, 11507, 1, -1);
    (11520, 11557, 1, -7264); (11559, 11559, 1, -7264); (11565, 11565, 1, -7264);
    (42561, 42605, 2, -1); (42625, 42651, 2, -1); (42787, 42799, 2, -1);
    (42803, 42863, 2, -1); (42874, 42876, 2, -1); (42879, 42887, 2, -1);
    (42892, 42892, 1, -1); (42897, 42899, 2, -1); (42900, 42900, 1, 48);
    (42903, 42921, 2, -1); (42933, 42947, 2, -1); (42952, 42954, 2, -1);
    (42961, 42961, 1, -1); (42967, 42969, 2, -1); (42998, 42998, 1, -1);
    (43859, 43859, 1, -928); (43888, 43967, 1, -38864); (65345, 65370, 1, -32);
    (66600, 66639, 1, -40); (66776, 66811, 1, -40); (66967, 66977, 1, -39);
    (66979, 66993, 1, -39); (66995, 67001, 1, -39); (67003, 67004, 1, -39);
    (68800, 68850, 1, -64); (71872, 71903, 1, -32); (93792, 93823, 1, -32);
    (125218, 125251, 1, -34) ].

(** Upper-case mappings to more than one code point. *)
Definition upperSpecial : list (Z * list Z) :=
  [
    (223, [83; 83]); (329, [700; 78]); (496, [74; 780]); (912, [921; 776; 769]);
    (944, [933; 776; 769]); (1415, [1333; 1362]); (7830, [72; 817]); (7831, [84; 776]);
    (7832, [87; 778]); (7833, [89; 778]); (7834, [65; 702]); (8016, [933; 787]);
    (8018, [933; 787; 768]); (8020, [933; 787; 769]); (8022, [933; 787; 834]);
    (8064, [7944; 921]); (8065, [7945; 921]); (8066, [7946; 921]); (8067, [7947; 921]);
    (8068, [7948; 921]); (8069, [7949; 921]); (8070, [7950; 921]); (8071, [7951; 921]);
    (8072, [7944; 921]); (8073, [7945; 921]); (8074, [7946; 921]); (8075, [7947; 921]);
    (8076, [7948; 921]); (8077, [7949; 921]); (8078, [7950; 921]); (8079, [7951; 921]);
    (8080, [7976; 921]); (8081, [7977; 921]); (8082, [7978; 921]); (8083, [7979; 921]);
    (8084, [7980; 921]); (8085, [7981; 921]); (8086, [7982; 921]); (8087, [7983; 921]);
    (8088, [7976; 921]); (8089, [7977; 921]); (8090, [7978; 921]); (8091, [7979; 921]);
    (8092, [7980; 921]); (8093, [7981; 921]); (8094, [7982; 921]); (8095, [7983; 921]);
    (8096, [8040; 921]); (8097, [8041; 921]); (8098, [8042; 921]); (8099, [8043; 921]);
    (8100, [8044; 921]); (8101, [8045; 921]); (8102, [8046; 921]); (8103, [8047; 921]);
    (8104, [8040; 921]); (8105, [8041; 921]); (8106, [8042; 921]); (8107, [8043; 921]);
    (8108, [8044; 921]); (8109, [8045; 921]); (8110, [8046; 921]); (8111, [8047; 921]);
    (8114, [8122; 921]); (8115, [913; 921]); (8116, [902; 921]); (8118, [913; 834]);
    (8119, [913; 834; 921]); (8124, [913; 921]); (8130, [8138; 921]); (8131, [919; 921]);
    (8132, [905; 921]); (8134, [919; 834]); (8135, [919; 834; 921]); (8140, [919; 921]);
    (8146, [921; 776; 768]); (8147, [921; 776; 769]); (8150, [921; 834]);
    (8151, [921; 776; 834]); (8162, [933; 776; 768]); (8163, [933; 776; 769]);
    (8164, [929; 787]); (8166, [933; 834]); (8167, [933; 776; 834]); (8178, [8186; 921]);
    (8179, [937; 921]); (8180, [911; 921]); (8182, [937; 834]); (8183, [937; 834; 921]);
    (8188, [937; 921]); (64256, [70; 70]); (64257, [70; 73]); (64258, [70; 76]);
    (64259, [70; 70; 73]); (64260, [70; 70; 76]); (64261, [83; 84]); (64262, [83; 84]);
    (64275, [1348; 1350]); (64276, [1348; 1333]); (64277, [1348; 1339]);
    (64278, [1358; 1350]); (64279, [1348; 1341]) ].

(** The code points with the property Cased, as inclusive ranges. *)
Definition casedRanges : list (Z * Z) :=
  [
    (65, 90); (97, 122); (170, 170); (181, 181); (186, 186); (192, 214); (216, 246);
    (248, 442); (444, 447); (452, 659); (661, 696); (704, 705); (736, 740); (837, 837);
    (880, 883); (886, 887); (890, 893); (895, 895); (902, 902); (904, 906); (908, 908);
    (910, 929); (931, 1013); (1015, 1153); (1162, 1327); (1329, 1366); (1376, 1416);
    (4256, 4293); (4295, 4295); (4301, 4301); (4304, 4346); (4349, 4351); (5024, 5109);
    (5112, 5117); (7296, 7304); (7312, 7354); (7357, 7359); (7424, 7615); (7680, 7957);
    (7960, 7965); (7968, 8005); (8008, 8013); (8016, 8023); (8025, 8025); (8027, 8027);
    (8029, 8029); (8031, 8061); (8064, 8116); (8118, 8124); (8126, 8126); (8130, 8132);
    (8134, 8140); (8144, 8147); (8150, 8155); (8160, 8172); (8178, 8180); (8182, 8188);
    (8305, 8305); (8319, 8319); (8336, 8348); (8450, 8450); (8455, 8455); (8458, 8467);
    (8469, 8469); (8473, 8477); (8484, 8484); (8486, 8486); (8488, 8488); (8490, 8493);
    (8495, 8500); (8505, 8505); (8508, 8511); (8517, 8521); (8526, 8526); (8544, 8575);
    (8579, 8580); (9398, 9449); (11264, 11492); (11499, 11502); (11506, 11507);
    (11520, 11557); (11559, 11559); (11565, 11565); (42560, 42605); (42624, 42653);
    (42786, 42887); (42891, 42894); (42896, 42954); (42960, 42961); (42963, 42963);
    (42965, 42969); (42997, 42998); (43000, 43002); (43824, 43866); (43868, 43880);
    (43888, 43967); (64256, 64262); (64275, 64279); (65313, 65338); (65345, 65370);
    (66560, 66639); (66736, 66771); (66776, 66811); (66928, 66938); (66940, 66954);
    (66956, 66962); (66964, 66965); (66967, 66977); (66979, 66993); (66995, 67001);
    (67003, 67004); (67456, 67456); (67459, 67461); (67463, 67504); (67506, 67514);
    (68736, 68786); (68800, 68850); (71840, 71903); (93760, 93823); (119808, 119892);
    (119894, 119964); (119966, 119967); (119970, 119970); (119973, 119974);
    (119977, 119980); (119982, 119993); (119995, 119995); (119997, 120003);
    (120005, 120069); (120071, 120074); (120077, 120084); (120086, 120092);
    (120094, 120121); (120123, 120126); (120128, 120132); (120134, 120134);
    (120138, 120144); (120146, 120485); (120488, 120512); (120514, 120538);
    (120540, 120570); (120572, 120596); (120598, 120628); (120630, 120654);
    (120656, 120686); (120688, 120712); (120714, 120744); (120746, 120770);
    (120772, 120779); (122624, 122633); (122635, 122654); (125184, 125251);
    (127280, 127305); (127312, 127337); (127344, 127369) ].

(** The code points with the property Case_Ignorable. *)
Definition caseIgnorableRanges : list (Z * Z) :=
  [
    (39, 39); (46, 46); (58, 58); (94, 94); (96, 96); (168, 168); (173, 173); (175, 175);
    (180, 180); (183, 184); (688, 879); (884, 885); (890, 890); (900, 901); (903, 903);
    (1155, 1161); (1369, 1369); (1375, 1375); (1425, 1469); (1471, 1471); (1473, 1474);
    (1476, 1477); (1479, 1479); (1524, 1524); (1536, 1541); (1552, 1562); (1564, 1564);
    (1600, 1600); (1611, 1631); (1648, 1648); (1750, 1757); (1759, 1768); (1770, 1773);
    (1807, 1807); (1809, 1809); (1840, 1866); (1958, 1968); (2027, 2037); (2042, 2042);
    (2045, 2045); (2070, 2093); (2137, 2139); (2184, 2184); (2192, 2193); (2200, 2207);
    (2249, 2306); (2362, 2362); (2364, 2364); (2369, 2376); (2381, 2381); (2385, 2391);
    (2402, 2403); (2417, 2417); (2433, 2433); (2492, 2492); (2497, 2500); (2509, 2509);
    (2530, 2531); (2558, 2558); (2561, 2562); (2620, 2620); (2625, 2626); (2631, 2632);
    (2635, 2637); (2641, 2641); (2672, 2673); (2677, 2677); (2689, 2690); (2748, 2748);
    (2753, 2757); (2759, 2760); (2765, 2765); (2786, 2787); (2810, 2815); (2817, 2817);
    (2876, 2876); (2879, 2879); (2881, 2884); (2893, 2893); (2901, 2902); (2914, 2915);
    (2946, 2946); (3008, 3008); (3021, 3021); (3072, 3072); (3076, 3076); (3132, 3132);
    (3134, 3136); (3142, 3144); (3146, 3149); (3157, 3158); (3170, 3171); (3201, 3201);
    (3260, 3260); (3263, 3263); (3270, 3270); (3276, 3277); (3298, 3299); (3328, 3329);
    (3387, 3388); (3393, 3396); (3405, 3405); (3426, 3427); (3457, 3457); (3530, 3530);
    (3538, 3540); (3542, 3542); (3633, 3633); (3636, 3642); (3654, 3662); (3761, 3761);
    (3764, 3772); (3782, 3782); (3784, 3789); (3864, 3865); (3893, 3893); (3895, 3895);
    (3897, 3897); (3953, 3966); (3968, 3972); (3974, 3975); (3981, 3991); (3993, 4028);
    (4038, 4038); (4141, 4144); (4146, 4151); (4153, 4154); (4157, 4158); (4184, 4185);
    (4190, 4192); (4209, 4212); (4226, 4226); (4229, 4230); (4237, 4237); (4253, 4253);
    (4348, 4348); (4957, 4959); (5906, 5908); (5938, 5939); (5970, 5971); (6002, 6003);
    (6068, 6069); (6071, 6077); (6086, 6086); (6089, 6099); (6103, 6103); (6109, 6109);
    (6155, 6159); (6211, 6211); (6277, 6278); (6313, 6313); (6432, 6434); (6439, 6440);
    (6450, 6450); (6457, 6459); (6679, 6680); (6683, 6683); (6742, 6742); (6744, 6750);
    (6752, 6752); (6754, 6754); (6757, 6764); (6771, 6780); (6783, 6783); (6823, 6823);
    (6832, 6862); (6912, 6915); (6964, 6964); (6966, 6970); (6972, 6972); (6978, 6978);
    (7019, 7027); (7040, 7041); (7074, 7077); (7080, 7081); (7083, 7085); (7142, 7142);
    (7144, 7145); (7149, 7149); (7151, 7153); (7212, 7219); (7222, 7223); (7288, 7293);
    (7376, 7378); (7380, 7392); (7394, 7400); (7405, 7405); (7412, 7412); (7416, 7417);
    (7468, 7530); (7544, 7544); (7579, 7679); (8125, 8125); (8127, 8129); (8141, 8143);
    (8157, 8159); (8173, 8175); (8189, 8190); (8203, 8207); (8216, 8217); (8228, 8228);
    (8231, 8231); (8234, 8238); (8288, 8292); (8294, 8303); (8305, 8305); (8319, 8319);
    (8336, 8348); (8400, 8432); (11388, 11389); (11503, 11505); (11631, 11631);
    (11647, 11647); (11744, 11775); (11823, 11823); (12293, 12293); (12330, 12333);
    (12337, 12341); (12347, 12347); (12441, 12446); (12540, 12542); (40981, 40981);
    (42232, 42237); (42508, 42508); (42607, 42610); (42612, 42621); (42623, 42623);
    (42652, 42655); (42736, 42737); (42752, 42785); (42864, 42864); (42888, 42890);
    (42994, 42996); (43000, 43001); (43010, 43010); (43014, 43014); (43019, 43019);
    (43045, 43046); (43052, 43052); (43204, 43205); (43232, 43249); (43263, 43263);
    (43302, 43309); (43335, 43345); (43392, 43394); (43443, 43443); (43446, 43449);
    (43452, 43453); (43471, 43471); (43493, 43494); (43561, 43566); (43569, 43570);
    (43573, 43574); (43587, 43587); (43596, 43596); (43632, 43632); (43644, 43644);
    (43696, 43696); (43698, 43700); (43703, 43704); (43710, 43711); (43713, 43713);
    (43741, 43741); (43756, 43757); (43763, 43764); (43766, 43766); (43867, 43871);
    (43881, 43883); (44005, 44005); (44008, 44008); (44013, 44013); (64286, 64286);
    (64434, 64450); (65024, 65039); (65043, 65043); (65056, 65071); (65106, 65106);
    (65109, 65109); (65279, 65279); (65287, 65287); (65294, 65294); (65306, 65306);
    (65342, 65342); (65344, 65344); (65392, 65392); (65438, 65439); (65507, 65507);
    (65529, 65531); (66045, 66045); (66272, 66272); (66422, 66426); (67456, 67461);
    (67463, 67504); (67506, 67514); (68097, 68099); (68101, 68102); (68108, 68111);
    (68152, 68154); (68159, 68159); (68325, 68326); (68900, 68903); (69291, 69292);
    (69446, 69456); (69506, 69509); (69633, 69633); (69688, 69702); (69744, 69744);
    (69747, 69748); (69759, 69761); (69811, 69814); (69817, 69818); (69821, 69821);
    (69826, 69826); (69837, 69837); (69888, 69890); (69927, 69931); (69933, 69940);
    (70003, 70003); (70016, 70017); (70070, 70078); (70089, 70092); (70095, 70095);
    (70191, 70193); (70196, 70196); (70198, 70199); (70206, 70206); (70367, 70367);
    (70371, 70378); (70400, 70401); (70459, 70460); (70464, 70464); (70502, 70508);
    (70512, 70516); (70712, 70719); (70722, 70724); (70726, 70726); (70750, 70750);
    (70835, 70840); (70842, 70842); (70847, 70848); (70850, 70851); (71090, 71093);
    (71100, 71101); (71103, 71104); (71132, 71133); (71219, 71226); (71229, 71229);
    (71231, 71232); (71339, 71339); (71341, 71341); (71344, 71349); (71351, 71351);
    (71453, 71455); (71458, 71461); (71463, 71467); (71727, 71735); (71737, 71738);
    (71995, 71996); (71998, 71998); (72003, 72003); (72148, 72151); (72154, 72155);
    (72160, 72160); (72193, 72202); (72243, 72248); (72251, 72254); (72263, 72263);
    (72273, 72278); (72281, 72283); (72330, 72342); (72344, 72345); (72752, 72758);
    (72760, 72765); (72767, 72767); (72850, 72871); (72874, 72880); (72882, 72883);
    (72885, 72886); (73009, 73014); (73018, 73018); (73020, 73021); (73023, 73029);
    (73031, 73031); (73104, 73105); (73109, 73109); (73111, 73111); (73459, 73460);
    (78896, 78904); (92912, 92916); (92976, 92982); (92992, 92995); (94031, 94031);
    (94095, 94111); (94176, 94177); (94179, 94180); (110576, 110579); (110581, 110587);
    (110589, 110590); (113821, 113822); (113824, 113827); (118528, 118573);
    (118576, 118598); (119143, 119145); (119155, 119170); (119173, 119179);
    (119210, 119213); (119362, 119364); (121344, 121398); (121403, 121452);
    (121461, 121461); (121476, 121476); (121499, 121503); (121505, 121519);
    (122880, 122886); (122888, 122904); (122907, 122913); (122915, 122916);
    (122918, 122922); (123184, 123197); (123566, 123566); (123628, 123631);
    (125136, 125142); (125252, 125259); (127995, 127999); (917505, 917505);
    (917536, 917631); (917760, 917999) ].

Fixpoint inRanges (c : Z) (l : list (Z * Z)) : bool :=
  match l with
  | [] => false
  | (first, last) :: l' => ((first <=? c) && (c <=? last)) || inRanges c l'
  end.

Fixpoint simple (c : Z) (l : list (Z * Z * Z * Z)) : option Z :=
  match l with
  | [] => None
  | (first, last, stride, delta) :: l' =>
      if (first <=? c) && (c <=? last) && ((c - first) mod stride =? 0)
      then Some (c + delta) else simple c l'
  end.

Fixpoint special (c : Z) (l : list (Z * list Z)) : option (list Z) :=
  match l with
  | [] => None
  | (c', m) :: l' => if c =? c' then Some m else special c l'
  end.

Definition mapping (ranges : list (Z * Z * Z * Z)) (specials : list (Z * list Z))
           (c : Z) : list Z :=
  match special c specials with
  | Some m => m
  | None => match simple c ranges with
            | Some c' => [c']
            | None => [c]
            end
  end.

Definition cased (c : Z) : bool := inRanges c casedRanges.
Definition caseIgnorable (c : Z) : bool := inRanges c caseIgnorableRanges.

(** The lower-case and upper-case mapping of one code point, context
    apart. *)
Definition lowerCodePoint : Z -> list Z := mapping lowerRanges lowerSpecial.
Definition upperCodePoint : Z -> list Z := mapping upperRanges upperSpecial.

(** Final_Sigma: a capital sigma (U+03A3) becomes the final small sigma
    (U+03C2) when a cased letter precedes it and none follows it,
    case-ignorable code points in between being skipped. *)
Definition capitalSigma : Z := 931.
Definition finalSigma : Z := 962.

Fixpoint followedByCased (l : list Z) : bool :=
  match l with
  | [] => false
  | c :: l' => if caseIgnorable c then followedByCased l' else cased c
  end.

(** [toLowercase] of a sequence of code points; [afterCased] tells
    whether a cased letter precedes the sequence (case-ignorable code
    points skipped). *)
Fixpoint lowerFrom (afterCased : bool) (l : list Z) : list Z :=
  match l with
  | [] => []
  | c :: l' =>
      (if (c =? capitalSigma) && afterCased && negb (followedByCased l')
       then [finalSigma] else lowerCodePoint c)
      ++ lowerFrom (if caseIgnorable c then afterCased else cased c) l'
  end.

Definition toLowercase (l : list Z) : list Z := lowerFrom false l.

Definition toUppercase (l : list Z) : list Z := flat_map upperCodePoint l.

End Unicode.

(** ** JavaScript primitives used by the views *)

Module JS.

(** *** Text

    A JavaScript string is a sequence of 16-bit code units (UTF-16).  The
    records below keep texts as Rocq strings, which hold the UTF-8
    encoding of the text; [units] gives the code units of the JavaScript
    string.  A byte sequence that is not well-formed UTF-8 decodes with
    U+FFFD in place of each offending byte. *)

Definition byte (c : ascii) : Z := Z.of_N (N_of_ascii c).

(** The payload of a continuation byte. *)
Definition continuation (c : ascii) : option Z :=
  let n := byte c in
  if (128 <=? n) && (n <? 192) then Some (n - 128) else None.

Definition replacementCharacter : Z := 65533.

Definition isScalar (first last cp : Z) : bool :=
  (first <=? cp) && (cp <=? last) && negb ((55296 <=? cp) && (cp <=? 57343)).

(** The code points of a UTF-8 text. *)
Fixpoint decode (s : string) : list Z :=
  match s with
  | EmptyString => []
  | String b0 s1 =>
      let n := byte b0 in
      if n <? 128 then n :: decode s1
      else if (194 <=? n) && (n <? 224) then
        match s1 with
        | String b1 s2 =>
            match continuation b1 with
            | Some x1 => ((n - 192) * 64 + x1) :: decode s2
            | None => replacementCharacter :: decode s1
            end
        | EmptyString => [replacementCharacter]
        end
      else if (224 <=? n) && (n <? 240) then
        match s1 with
        | String b1 (String b2 s3) =>
            match continuation b1, continuation b2 with
            | Some x1, Some x2 =>
                let cp := ((n - 224) * 64 + x1) * 64 + x2 in
                if isScalar 2048 65535 cp then cp :: decode s3
                else replacementCharacter :: decode s1
            | _, _ => replacementCharacter :: decode s1
            end
        | _ => replacementCharacter :: decode s1
        end
      else if (240 <=? n) && (n <? 245) then
        match s1 with
        | String b1 (String b2 (String b3 s4)) =>
            match continuation b1, continuation b2, continuation b3 with
            | Some x1, Some x2, Some x3 =>
                let cp := (((n - 240) * 64 + x1) * 64 + x2) * 64 + x3 in
                if isScalar 65536 1114111 cp then cp :: decode s4
                else replacementCharacter :: decode s1
            | _, _, _ => replacementCharacter :: decode s1
            end
        | _ => replacementCharacter :: decode s1
        end
      else replacementCharacter :: decode s1
  end.

(** The UTF-16 code units of a code point: itself, or a surrogate pair. *)
Definition utf16 (cp : Z) : list Z :=
  if cp <? 65536 then [cp]
  else [55296 + (cp - 65536) / 1024; 56320 + (cp - 65536) mod 1024].

Definition units (s : string) : list Z := flat_map utf16 (decode s).

Definition isHighSurrogate (u : Z) : bool := (55296 <=? u) && (u <=? 56319).
Definition isLowSurrogate (u : Z) : bool := (56320 <=? u) && (u <=? 57343).

(** The code points of a sequence of code units; a surrogate without
    its partner stands for itself. *)
Fixpoint codePoints (u : list Z) : list Z :=
  match u with
  | [] => []
  | a :: u' =>
      match u' with
      | b :: u'' =>
          if isHighSurrogate a && isLowSurrogate b
          then (65536 + (a - 55296) * 1024 + (b - 56320)) :: codePoints u''
          else a :: codePoints u'
      | [] => [a]
      end
  end.

(** [String.prototype.toLowerCase] and [String.prototype.toUpperCase]. *)
Definition toLowerCase (s : list Z) : list Z :=
  flat_map utf16 (Unicode.toLowercase (codePoints s)).

Definition toUpperCase (s : list Z) : list Z :=
  flat_map utf16 (Unicode.toUppercase (codePoints s)).

(** [s.startsWith(pat)], the inner step of the substring search. *)
Fixpoint startsWith (s pat : list Z) {struct pat} : bool :=
  match pat, s with
  | [], _ => true
  | _ :: _, [] => false
  | p :: pat', c :: s' => (p =? c) && startsWith s' pat'
  end.

(** [String.prototype.includes]: [pat] occurs in [s] at some position. *)
Fixpoint includes (s pat : list Z) : bool :=
  startsWith s pat ||
  match s with
  | [] => false
  | _ :: s' => includes s' pat
  end.

(** Truthiness of an optional string ([null]/[undefined] and the empty
    string are falsy). *)
Definition truthy (v : option string) : bool :=
  match v with
  | None => false
  | Some s => negb (String.eqb s "")
  end.

(** [a === b] where [a] may be [null]/[undefined] and [b] is a string. *)
Definition strictEq (a : option string) (b : string) : bool :=
  match a with
  | None => false
  | Some s => String.eqb s b
  end.

(** [Array.prototype.sort(comparefn)].  The comparator returns a number,
    [None] standing for NaN, which the sort reads as [+0].  The sort is
    stable, so for a consistent comparator its result is fixed whatever
    the engine's algorithm: the list is built here by stable insertion. *)
Section Sort.
Context {A : Type}.
Variable comparefn : A -> A -> option Z.

Definition sortCompare (a b : A) : Z :=
  match comparefn a b with
  | Some v => v
  | None => 0
  end.

Fixpoint insert (x : A) (l : list A) : list A :=
  match l with
  | [] => [x]
  | y :: l' => if sortCompare x y <=? 0 then x :: l else y :: insert x l'
  end.

Fixpoint sort (l : list A) : list A :=
    match l with
    | [] => []
    | x :: l' => insert x (sort l')
    end.
End Sort.


(** [s.split(sep)] for a one-character separator below U+0080, on the
    encoded text: the pieces between the separators, empty pieces
    included; never an empty array. *)
Fixpoint split (sep : ascii) (s : string) : list string :=
  match s with
  | EmptyString => [EmptyString]
  | String c s' =>
      if Ascii.eqb c sep then EmptyString :: split sep s'
      else match split sep s' with
           | w :: ws => String c w :: ws
           | [] => [String c EmptyString]
           end
  end.

(** The same on code units. *)
Fixpoint splitUnits (sep : Z) (s : list Z) : list (list Z) :=
  match s with
  | [] => [[]]
  | c :: s' =>
      if c =? sep then [] :: splitUnits sep s'
      else match splitUnits sep s' with
           | w :: ws => (c :: w) :: ws
           | [] => [[c]]
           end
  end.

(** [s[0]]: the first code unit, [undefined] for the empty string. *)
Definition index0 (s : list Z) : option Z :=
  match s with
  | [] => None
  | c :: _ => Some c
  end.

(** [chars.join('')] for an array of one-unit strings and [undefined]s:
    [undefined] joins as the empty string. *)
Fixpoint joinChars (l : list (option Z)) : list Z :=
  match l with
  | [] => []
  | Some c :: l' => c :: joinChars l'
  | None :: l' => joinChars l'
  end.

(** [s.charAt(0)], [s.slice(1)] and [s.slice(0, 2)]. *)
Definition charAt0 (s : list Z) : list Z :=
  match s with
  | [] => []
  | c :: _ => [c]
  end.

Definition slice1 (s : list Z) : list Z :=
  match s with
  | [] => []
  | _ :: s' => s'
  end.

Definition slice02 (s : list Z) : list Z :=
  match s with
  | a :: b :: _ => [a; b]
  | _ => s
  end.

(** [s.replace(from, to)] with one-unit strings: only the first
    occurrence is replaced. *)
Fixpoint replaceFirst (from to : Z) (s : list Z) : list Z :=
  match s with
  | [] => []
  | c :: s' => if c =? from then to :: s' else c :: replaceFirst from to s'
  end.

(** What [a + b] renders as when each side is a string or [undefined]:
    [undefined + undefined] is the number NaN. *)
Inductive Text : Type :=
| Str (s : list Z)
| NaN.

Definition plus (a b : option (list Z)) : Text :=
  match a, b with
  | Some x, Some y => Str (x ++ y)
  | Some x, None => Str (x ++ units "undefined")
  | None, Some y => Str (units "undefined" ++ y)
  | None, None => NaN
  end.

(** [v?.f()]: optional chaining over an optional string. *)
Definition optChain (f : list Z -> list Z) (v : option (list Z)) : option (list Z) :=
  option_map f v.

(** The code unit of the space and of the underscore. *)
Definition space : Z := 32.
Definition underscore : Z := 95.

(** [s.split(' ').map(word => word[0]).join('').toUpperCase().slice(0, 2)],
    the body of the two [getInitials] functions. *)
Definition initialsOf (name : string) : list Z :=
  slice02 (toUpperCase (joinChars (map index0 (splitUnits space (units name))))).

(** [v?.charAt(0).toUpperCase() + v?.slice(1)], the text of a role or
    priority badge. *)
Definition capitalized (v : option string) : Text :=
  let s := option_map units v in
  plus (optChain (fun s => toUpperCase (charAt0 s)) s) (optChain slice1 s).

End JS.

(** ** Double-precision arithmetic

    JavaScript numbers are IEEE-754 binary64 values: the result of [/] and
    [*] is the exact quotient or product rounded to the nearest value with
    a 53-bit significand, ties to the even significand.  Finite values are
    embedded as rationals; the exponent range is not bounded here, so the
    model stands for binary64 on magnitudes in its normal range (no
    overflow to Infinity, no subnormals). *)

Module Float64.

(** Nearest integer to [n/d] (with [0 < d]), ties to even. *)
Definition rne (n d : Z) : Z :=
  let q := n / d in
  let r := n mod d in
  if 2 * r <? d then q
  else if d <? 2 * r then q + 1
  else if Z.even q then q else q + 1.

Definition pow2 (e : Z) : Q := (2 ^ e)%Q.

(** The exponent [e] of the last significand bit of [x > 0], that is
    [2^52 <= x / 2^e < 2^53].  The bit lengths of numerator and
    denominator place [x] between [2^(e0-1)] and [2^(e0+1)]. *)
Definition ulp_exp (x : Q) : Z :=
  let e0 := Z.log2 (Qnum x) - Z.log2 (Zpos (Qden x)) in
  if Qle_bool (pow2 e0) x then e0 - 52 else e0 - 53.

Definition round_pos (x : Q) : Q :=
  let e := ulp_exp x in
  let y := (x / pow2 e)%Q in
  (inject_Z (rne (Qnum y) (Zpos (Qden y))) * pow2 e)%Q.

(** Round a rational to the nearest binary64 value. *)
Definition round (x : Q) : Q :=
  match Qnum x with
  | Z0 => 0%Q
  | Zpos _ => round_pos x
  | Zneg _ => (- round_pos (- x))%Q
  end.

Definition div (a b : Q) : Q := round (a / b).
Definition mul (a b : Q) : Q := round (a * b).

(** A JSON integer literal read as a number. *)
Definition of_N (n : N) : Q := round (inject_Z (Z.of_N n)).

(** [Math.round]: the closest integer, ties towards +infinity. *)
Definition Math_round (x : Q) : Z := Qfloor (x + (1 # 2)).

(** The unit roundoff, [2^-53]. *)
Definition u64 : Q := 1 # 9007199254740992.

(** The same computation [(c / t) * 100] in the IEEE-754 specification
    of the standard library, at [prec = 53], [emax = 1024], and the
    rational it denotes; used to cross-check [div] and [mul]. *)
Definition toSF (z : Z) : spec_float := binary_normalize 53 1024 z 0 false.

Definition ofSF (f : spec_float) : option Q :=
  match f with
  | S754_zero _ => Some 0%Q
  | S754_finite s m e =>
      Some ((if s then - inject_Z (Zpos m) else inject_Z (Zpos m)) * pow2 e)%Q
  | S754_infinity _ | S754_nan => None
  end.

Definition agreesWithSF (c t : N) : bool :=
  match ofSF (SFmul 53 1024
                (SFdiv 53 1024 (toSF (Z.of_N c)) (toSF (Z.of_N t)))
                (toSF 100)) with
  | Some v => Qeq_bool v (mul (div (of_N c) (of_N t)) 100)
  | None => false
  end.

End Float64.

(** ** Observable effects of the event handlers

    A handler runs against the view's local state and leaves a trace of
    what it did to the outside: HTTP requests, toast notifications,
    console output and confirmation prompts.  The reply of the server
    and the answer of the user are inputs of the handler. *)

Module Eff.

Inductive Method : Type := GET | POST | PUT | DELETE.

(** A JSON object literal: field names with string or [null] values. *)
Definition JsObject : Type := list (string * option string).

Record Request : Type := mkRequest {
  method : Method;
  path : string;              (* relative to [`${BACKEND_URL}/api`] *)
  body : JsObject
}.

Inductive Toast : Type :=
| ToastSuccess (msg : string)
| ToastError (msg : string)
| ToastInfo (msg : string).

Inductive Event : Type :=
| Http (r : Request)
| Notify (t : Toast)
| ConsoleError (msg : string)
| ConfirmPrompt (msg : string).

(** What the [catch] clause sees: [error.response?.data?.detail], absent
    for a transport failure or a payload without detail. *)
Record ApiError : Type := mkError { detail : option string }.

Inductive Outcome (A : Type) : Type :=
| Resolved (data : A)
| Rejected (err : ApiError).
Arguments Resolved {A} data.
Arguments Rejected {A} err.

(** State-and-trace monad. *)
Definition M (S A : Type) : Type := S -> list Event -> A * S * list Event.

Definition ret {S A} (a : A) : M S A := fun s tr => (a, s, tr).

Definition bind {S A B} (c : M S A) (k : A -> M S B) : M S B :=
  fun s tr => let '(a, s', tr') := c s tr in k a s' tr'.

Definition gets {S A} (f : S -> A) : M S A := fun s tr => (f s, s, tr).

Definition modify {S} (f : S -> S) : M S unit := fun s tr => (tt, f s, tr).

Definition emit {S} (e : Event) : M S unit := fun s tr => (tt, s, tr ++ [e]).

Definition request {S} (m : Method) (p : string) (b : JsObject) : M S unit :=
  emit (Http (mkRequest m p b)).

Definition toast_success {S} (msg : string) : M S unit := emit (Notify (ToastSuccess msg)).
Definition toast_error {S} (msg : string) : M S unit := emit (Notify (ToastError msg)).
Definition console_error {S} (msg : string) : M S unit := emit (ConsoleError msg).

(** Run a handler from a state with an empty trace. *)
Definition run {S A} (c : M S A) (s : S) : S * list Event :=
  let '(_, s', tr) := c s [] in (s', tr).

(** Projections of a trace. *)
Definition requests (tr : list Event) : list Request :=
  flat_map (fun e => match e with Http r => [r] | _ => [] end) tr.

Definition toasts (tr : list Event) : list Toast :=
  flat_map (fun e => match e with Notify t => [t] | _ => [] end) tr.

(** The notifications a handler leaves when run from state [st]. *)
Definition toastsOf {S : Type} (c : M S unit) (st : S) : list Toast :=
  toasts (snd (run c st)).

End Eff.

Declare Scope eff_scope.
Delimit Scope eff_scope with eff.
Notation "x <- c ;; k" := (Eff.bind c (fun x => k))
  (at level 61, c at next level, right associativity) : eff_scope.
Notation "c ;; k" := (Eff.bind c (fun _ => k))
  (at level 61, right associativity) : eff_scope.

(** Interactive elements a view renders.  Each carries what its click
    handler is called with: [QuickAction label id updates] is a button
    whose [onClick] is [() => handleUpdateTask(id, updates)]. *)
Inductive Affordance : Type :=
| CreateTaskButton
| EditTaskItem (taskId : string)
| DeleteTaskItem (taskId : string)
| QuickAction (label taskId : string) (updates : Eff.JsObject)
| AddUserButton
| EditUserItem (userId : string)
| ViewAllTasksButton
| ManageUsersButton
| RefreshDataButton
| NavLink (label to : string).

(** ** Data model, as the client consumes it *)

Module User.
Record t : Type := mk {
  id : string;
  email : string;
  full_name : string;
  role : string;
  department : option string;
  phone : option string;
  is_active : option bool;     (* absent in the payload: [None] *)
  created_at : string
}.
End User.

Module Task.
Record t : Type := mk {
  id : string;
  title : string;
  description : option string;
  status : string;
  priority : string;
  assigned_to : option string;
  category : option string;
  due_date : option string;    (* ISO-8601 text, or absent *)
  created_at : string
}.
End Task.

Module Stats.
(** Server-side counters; the client only reads them. *)
Record t : Type := mk {
  total_employees : N;
  total_tasks : N;
  completed_tasks : N;
  pending_tasks : N;
  in_progress_tasks : N;
  overdue_tasks : N
}.
End Stats.

(** ** Dashboard view *)

Module Dashboard.

Record State : Type := mkState {
  stats : option Stats.t;
  recentTasks : list Task.t;
  loading : bool
}.

Definition setStats (v : option Stats.t) (st : State) : State :=
  mkState v (recentTasks st) (loading st).
Definition setRecentTasks (v : list Task.t) (st : State) : State :=
  mkState (stats st) v (loading st).
Definition setLoading (v : bool) (st : State) : State :=
  mkState (stats st) (recentTasks st) v.

(** [completionRate]: [stats?.total_tasks > 0] is false when [stats] is
    [null]. *)
Definition completionRate (stats : option Stats.t) : Z :=
  match stats with
  | None => 0
  | Some s =>
      if negb (Qle_bool (Float64.of_N (Stats.total_tasks s)) 0)
      then Float64.Math_round
             (Float64.mul
                (Float64.div (Float64.of_N (Stats.completed_tasks s))
                             (Float64.of_N (Stats.total_tasks s)))
                100)
      else 0
  end.

Section Clock.
(** [new Date(text)]: the time value in milliseconds, [None] for an
    invalid date (time value NaN).  Parsing belongs to the runtime. *)
Variable Date_parse : string -> option Z.

(** [(a, b) => new Date(b.created_at) - new Date(a.created_at)].  Only
    the sign of the difference matters to the sort. *)
Definition byCreatedDesc (a b : Task.t) : option Z :=
  match Date_parse (Task.created_at b), Date_parse (Task.created_at a) with
  | Some tb, Some ta => Some (tb - ta)
  | _, _ => None
  end.

(** [tasksResponse.data.sort(...)] sorts the response array in place
    and returns it; [sortedInPlace] is that array afterwards. *)
Definition sortedInPlace (data : list Task.t) : list Task.t :=
  JS.sort byCreatedDesc data.

(** [sortedTasks], the value handed to [setRecentTasks]. *)
Definition sortedTasks (data : list Task.t) : list Task.t :=
  firstn 5 (sortedInPlace data).

(** [fetchDashboardData]: both requests are issued, and the [try] body
    continues only when both have resolved ([Promise.all]). *)
Definition fetchDashboardData
           (statsResponse : Eff.Outcome Stats.t)
           (tasksResponse : Eff.Outcome (list Task.t)) : Eff.M State unit :=
  (Eff.request Eff.GET "/dashboard/stats" [] ;;
   Eff.request Eff.GET "/tasks" [] ;;
   match statsResponse, tasksResponse with
   | Eff.Resolved statsData, Eff.Resolved tasksData =>
       Eff.modify (setStats (Some statsData)) ;;
       Eff.modify (setRecentTasks (sortedTasks tasksData))
   | _, _ =>
       Eff.console_error "Error fetching dashboard data:" ;;
       Eff.toast_error "Failed to load dashboard data"
   end ;;
   Eff.modify (setLoading false))%eff.
End Clock.

(** The action buttons of the rendered dashboard. *)
Definition render (user : User.t) (st : State) : list Affordance :=
  if loading st then []
  else [ViewAllTasksButton]
       ++ (if negb (String.eqb (User.role user) "employee")
           then [ManageUsersButton] else [])
       ++ [RefreshDataButton].


(** The state the component starts in. *)
Definition initialState : State := mkState None [] true.

Definition getStatusColor (status : string) : string :=
  if String.eqb status "completed" then "bg-green-100 text-green-800 border-green-200"
  else if String.eqb status "in_progress" then "bg-blue-100 text-blue-800 border-blue-200"
  else if String.eqb status "pending" then "bg-yellow-100 text-yellow-800 border-yellow-200"
  else if String.eqb status "cancelled" then "bg-red-100 text-red-800 border-red-200"
  else "bg-gray-100 text-gray-800 border-gray-200".

Definition getPriorityColor (priority : string) : string :=
  if String.eqb priority "urgent" then "bg-red-100 text-red-800 border-red-200"
  else if String.eqb priority "high" then "bg-orange-100 text-orange-800 border-orange-200"
  else if String.eqb priority "medium" then "bg-yellow-100 text-yellow-800 border-yellow-200"
  else if String.eqb priority "low" then "bg-green-100 text-green-800 border-green-200"
  else "bg-gray-100 text-gray-800 border-gray-200".

(** The text of the status badge:
    [status?.replace('_', ' ').charAt(0).toUpperCase()
     + status?.replace('_', ' ').slice(1)]. *)
Definition statusLabel (status : option string) : JS.Text :=
  let replaced := JS.optChain (JS.replaceFirst JS.underscore JS.space)
                              (option_map JS.units status) in
  JS.plus (JS.optChain (fun s => JS.toUpperCase (JS.charAt0 s)) replaced)
          (JS.optChain JS.slice1 replaced).

(** The two badges of a recent-task row: class and text each. *)
Definition badges (task : Task.t) : (string * JS.Text) * (string * JS.Text) :=
  ((getPriorityColor (Task.priority task), JS.capitalized (Some (Task.priority task))),
   (getStatusColor (Task.status task), statusLabel (Some (Task.status task)))).

(** [stats?.field || 0] *)
Definition orZero (field : Stats.t -> N) (stats : option Stats.t) : N :=
  match stats with
  | None => 0%N
  | Some s => if N.eqb (field s) 0 then 0%N else field s
  end.

(** The counters shown: the four cards of the top row (the first one
    hidden from employees), then the three rows of the progress card. *)
Definition tiles (user : User.t) (st : State) : list (string * N) :=
  (if negb (String.eqb (User.role user) "employee")
   then [("Total Employees", orZero Stats.total_employees (stats st))] else [])
  ++ [ ("Total Tasks", orZero Stats.total_tasks (stats st));
       ("Completed", orZero Stats.completed_tasks (stats st));
       ("Overdue", orZero Stats.overdue_tasks (stats st)) ].

Definition progressRows (st : State) : list (string * N) :=
  [ ("Pending", orZero Stats.pending_tasks (stats st));
    ("In Progress", orZero Stats.in_progress_tasks (stats st));
    ("Completed", orZero Stats.completed_tasks (stats st)) ].

(** The name in the greeting: [user?.full_name?.split(' ')[0]]. *)
Definition welcomeName (user : User.t) : string :=
  match JS.split " " (User.full_name user) with
  | w :: _ => w
  | [] => EmptyString
  end.

End Dashboard.

(** ** Task list view *)

Module TaskList.

(** The draft behind the create dialog; [due_date] is a [Date] picked in
    the calendar (its time value) or [null]. *)
Record Draft : Type := mkDraft {
  draft_title : string;
  draft_description : string;
  draft_priority : string;
  draft_due_date : option Z;
  draft_assigned_to : string;
  draft_category : string
}.

Definition emptyDraft : Draft := mkDraft "" "" "medium" None "" "".

Record State : Type := mkState {
  tasks : list Task.t;
  users : list User.t;
  loading : bool;
  searchTerm : string;
  statusFilter : string;
  priorityFilter : string;
  showCreateDialog : bool;
  showEditDialog : bool;
  editingTask : option Task.t;
  newTask : Draft
}.

Definition initialState : State :=
  mkState [] [] true "" "all" "all" false false None emptyDraft.

Definition setTasks (v : list Task.t) (st : State) : State :=
  mkState v (users st) (loading st) (searchTerm st) (statusFilter st)
          (priorityFilter st) (showCreateDialog st) (showEditDialog st)
          (editingTask st) (newTask st).
Definition setUsers (v : list User.t) (st : State) : State :=
  mkState (tasks st) v (loading st) (searchTerm st) (statusFilter st)
          (priorityFilter st) (showCreateDialog st) (showEditDialog st)
          (editingTask st) (newTask st).
Definition setLoading (v : bool) (st : State) : State :=
  mkState (tasks st) (users st) v (searchTerm st) (statusFilter st)
          (priorityFilter st) (showCreateDialog st) (showEditDialog st)
          (editingTask st) (newTask st).
Definition setShowCreateDialog (v : bool) (st : State) : State :=
  mkState (tasks st) (users st) (loading st) (searchTerm st) (statusFilter st)
          (priorityFilter st) v (showEditDialog st)
          (editingTask st) (newTask st).
Definition setNewTask (v : Draft) (st : State) : State :=
  mkState (tasks st) (users st) (loading st) (searchTerm st) (statusFilter st)
          (priorityFilter st) (showCreateDialog st) (showEditDialog st)
          (editingTask st) v.

(** *** Handlers *)

Definition fetchTasks (response : Eff.Outcome (list Task.t)) : Eff.M State unit :=
  (Eff.request Eff.GET "/tasks" [] ;;
   match response with
   | Eff.Resolved data => Eff.modify (setTasks data)
   | Eff.Rejected _ =>
       Eff.console_error "Error fetching tasks:" ;;
       Eff.toast_error "Failed to load tasks"
   end ;;
   Eff.modify (setLoading false))%eff.

Definition fetchUsers (response : Eff.Outcome (list User.t)) : Eff.M State unit :=
  (Eff.request Eff.GET "/users" [] ;;
   match response with
   | Eff.Resolved data => Eff.modify (setUsers data)
   | Eff.Rejected _ => Eff.console_error "Error fetching users:"
   end)%eff.

Section Create.
(** [Date.prototype.toISOString], from the runtime. *)
Variable Date_toISOString : Z -> string.

Definition taskData (d : Draft) : Eff.JsObject :=
  [ ("title", Some (draft_title d));
    ("description", Some (draft_description d));
    ("priority", Some (draft_priority d));
    ("due_date", option_map Date_toISOString (draft_due_date d));
    ("assigned_to",
      if String.eqb (draft_assigned_to d) "" then None
      else Some (draft_assigned_to d));
    ("category", Some (draft_category d)) ].

Definition handleCreateTask (response : Eff.Outcome Task.t) : Eff.M State unit :=
  (draft <- Eff.gets newTask ;;
   current <- Eff.gets tasks ;;
   Eff.request Eff.POST "/tasks" (taskData draft) ;;
   match response with
   | Eff.Resolved data =>
       Eff.modify (setTasks (data :: current)) ;;
       Eff.modify (setShowCreateDialog false) ;;
       Eff.modify (setNewTask emptyDraft) ;;
       Eff.toast_success "Task created successfully!"
   | Eff.Rejected _ =>
       Eff.console_error "Error creating task:" ;;
       Eff.toast_error "Failed to create task"
   end)%eff.
End Create.

Definition handleUpdateTask (taskId : string) (updates : Eff.JsObject)
           (response : Eff.Outcome Task.t) : Eff.M State unit :=
  (current <- Eff.gets tasks ;;
   Eff.request Eff.PUT ("/tasks/" ++ taskId)%string updates ;;
   match response with
   | Eff.Resolved data =>
       Eff.modify (setTasks
         (map (fun task => if String.eqb (Task.id task) taskId then data else task)
              current)) ;;
       Eff.toast_success "Task updated successfully!"
   | Eff.Rejected _ =>
       Eff.console_error "Error updating task:" ;;
       Eff.toast_error "Failed to update task"
   end)%eff.

(** [confirmed] is what [window.confirm] returns. *)
Definition handleDeleteTask (taskId : string) (confirmed : bool)
           (response : Eff.Outcome unit) : Eff.M State unit :=
  (current <- Eff.gets tasks ;;
   Eff.emit (Eff.ConfirmPrompt "Are you sure you want to delete this task?") ;;
   if negb confirmed then Eff.ret tt
   else
     Eff.request Eff.DELETE ("/tasks/" ++ taskId)%string [] ;;
     match response with
     | Eff.Resolved _ =>
         Eff.modify (setTasks
           (filter (fun task => negb (String.eqb (Task.id task) taskId)) current)) ;;
         Eff.toast_success "Task deleted successfully!"
     | Eff.Rejected _ =>
         Eff.console_error "Error deleting task:" ;;
         Eff.toast_error "Failed to delete task"
     end)%eff.

(** *** Derived values *)

Section Clock.
(** [new Date(text)]: the time value in milliseconds, [None] for an
    invalid date (time value NaN).  Parsing belongs to the runtime. *)
Variable Date_parse : string -> option Z.

(** [isOverdue(dueDate)], evaluated when [new Date()] is [now]. *)
Definition isOverdue (now : Z) (dueDate : option string) : bool :=
  if negb (JS.truthy dueDate) then false
  else match dueDate with
       | Some s =>
           match Date_parse s with
           | Some d => d <? now
           | None => false          (* NaN < now *)
           end
       | None => false
       end.

(** The due-date line of a task card: whether the "(Overdue)" suffix
    is appended. *)
Definition overdueLabel (now : Z) (task : Task.t) : bool :=
  isOverdue now (Task.due_date task).
End Clock.

(** The filter predicate of [filteredTasks]. *)
Definition matchesSearch (searchTerm : string) (task : Task.t) : bool :=
  JS.includes (JS.toLowerCase (JS.units (Task.title task)))
               (JS.toLowerCase (JS.units searchTerm)) ||
  match Task.description task with
  | None => false   (* [task.description?.…] short-circuits to undefined *)
  | Some d => JS.includes (JS.toLowerCase (JS.units d))
                           (JS.toLowerCase (JS.units searchTerm))
  end.

Definition matchesStatus (statusFilter : string) (task : Task.t) : bool :=
  String.eqb statusFilter "all" || String.eqb (Task.status task) statusFilter.

Definition matchesPriority (priorityFilter : string) (task : Task.t) : bool :=
  String.eqb priorityFilter "all" || String.eqb (Task.priority task) priorityFilter.

Definition filteredTasks (tasks : list Task.t)
           (searchTerm statusFilter priorityFilter : string) : list Task.t :=
  filter (fun task =>
            matchesSearch searchTerm task &&
            matchesStatus statusFilter task &&
            matchesPriority priorityFilter task) tasks.

(** *** Rendering *)

Definition canCreate (user : User.t) : bool :=
  String.eqb (User.role user) "admin" || String.eqb (User.role user) "manager".

(** The "Quick status update" block of a card. *)
Definition quickActions (user : User.t) (task : Task.t) : list Affordance :=
  if JS.strictEq (Task.assigned_to task) (User.id user) &&
     negb (String.eqb (Task.status task) "completed")
  then (if String.eqb (Task.status task) "pending"
        then [QuickAction "Start" (Task.id task) [("status", Some "in_progress")]]
        else [])
       ++ (if String.eqb (Task.status task) "in_progress"
           then [QuickAction "Complete" (Task.id task) [("status", Some "completed")]]
           else [])
  else [].

(** One task card: the actions menu, then the quick actions. *)
Definition card (user : User.t) (task : Task.t) : list Affordance :=
  (if negb (String.eqb (User.role user) "employee") ||
      JS.strictEq (Task.assigned_to task) (User.id user)
   then EditTaskItem (Task.id task)
        :: (if negb (String.eqb (User.role user) "employee")
            then [DeleteTaskItem (Task.id task)] else [])
   else [])
  ++ quickActions user task.

Definition render (user : User.t) (st : State) : list Affordance :=
  if loading st then []
  else
    let shown := filteredTasks (tasks st) (searchTerm st)
                               (statusFilter st) (priorityFilter st) in
    (if canCreate user then [CreateTaskButton] else [])
    ++ match shown with
       | [] => if canCreate user then [CreateTaskButton] else []
       | _ :: _ => flat_map (card user) shown
       end.


(** *** Display helpers *)

Definition getStatusColor (status : string) : string :=
  if String.eqb status "completed" then "bg-green-100 text-green-800 border-green-200"
  else if String.eqb status "in_progress" then "bg-blue-100 text-blue-800 border-blue-200"
  else if String.eqb status "pending" then "bg-yellow-100 text-yellow-800 border-yellow-200"
  else if String.eqb status "cancelled" then "bg-red-100 text-red-800 border-red-200"
  else "bg-gray-100 text-gray-800 border-gray-200".

Definition getPriorityColor (priority : string) : string :=
  if String.eqb priority "urgent" then "bg-red-100 text-red-800 border-red-200"
  else if String.eqb priority "high" then "bg-orange-100 text-orange-800 border-orange-200"
  else if String.eqb priority "medium" then "bg-yellow-100 text-yellow-800 border-yellow-200"
  else if String.eqb priority "low" then "bg-green-100 text-green-800 border-green-200"
  else "bg-gray-100 text-gray-800 border-gray-200".

Definition statusLabel (status : option string) : JS.Text :=
  let replaced := JS.optChain (JS.replaceFirst JS.underscore JS.space)
                              (option_map JS.units status) in
  JS.plus (JS.optChain (fun s => JS.toUpperCase (JS.charAt0 s)) replaced)
          (JS.optChain JS.slice1 replaced).

(** The two badges of a task card: class and text each. *)
Definition badges (task : Task.t) : (string * JS.Text) * (string * JS.Text) :=
  ((getPriorityColor (Task.priority task), JS.capitalized (Some (Task.priority task))),
   (getStatusColor (Task.status task), statusLabel (Some (Task.status task)))).

(** [getUserName(userId)]: the first fetched user with that id. *)
Definition getUserName (users : list User.t) (userId : string) : string :=
  match find (fun u => String.eqb (User.id u) userId) users with
  | Some foundUser => User.full_name foundUser
  | None => "Unassigned"
  end.

(** The assignee line of a card, present when [task.assigned_to] is
    truthy. *)
Definition assigneeLine (st : State) (task : Task.t) : option string :=
  match Task.assigned_to task with
  | Some a => if String.eqb a "" then None else Some (getUserName (users st) a)
  | None => None
  end.

(** The text [formatDate] returns: the fixed text, or what the date
    library's [format(date, 'MMM dd, yyyy')] makes of [new Date(text)],
    kept here as the time value it is applied to. *)
Inductive DateText : Type :=
| NoDueDate
| Formatted (time : Z).

Section DueLine.
Variable Date_parse : string -> option Z.

(** [formatDate(dateString)]; [None]: the call throws, [format] raising
    a RangeError on an invalid date. *)
Definition formatDate (dateString : option string) : option DateText :=
  if negb (JS.truthy dateString) then Some NoDueDate
  else match dateString with
       | Some s =>
           match Date_parse s with
           | Some d => Some (Formatted d)
           | None => None
           end
       | None => Some NoDueDate
       end.

(** The due-date line of a card: its text, whether it is set in red, and
    whether " (Overdue)" follows.  The class is computed first, then the
    text, then the suffix; each of the two calls of [isOverdue] reads the
    clock for itself, at [nowClass] and at [nowSuffix].  [None]: the
    line does not render, [formatDate] having thrown. *)
Definition dueLine (nowClass nowSuffix : Z) (task : Task.t)
  : option (DateText * bool * bool) :=
  let red := isOverdue Date_parse nowClass (Task.due_date task) in
  match formatDate (Task.due_date task) with
  | Some text =>
      Some (text, red, isOverdue Date_parse nowSuffix (Task.due_date task))
  | None => None
  end.
End DueLine.

(** *** Mounting *)

(** What [fetchTasks] and [fetchUsers] do once the reply is there. *)
Definition onTasksReply (response : Eff.Outcome (list Task.t)) : Eff.M State unit :=
  (match response with
   | Eff.Resolved data => Eff.modify (setTasks data)
   | Eff.Rejected _ =>
       Eff.console_error "Error fetching tasks:" ;;
       Eff.toast_error "Failed to load tasks"
   end ;;
   Eff.modify (setLoading false))%eff.

Definition onUsersReply (response : Eff.Outcome (list User.t)) : Eff.M State unit :=
  match response with
  | Eff.Resolved data => Eff.modify (setUsers data)
  | Eff.Rejected _ => Eff.console_error "Error fetching users:"
  end.

(** The effect run when the component mounts: [fetchTasks()], then
    [fetchUsers()] unless the role is employee.  Both requests go out
    before either reply is handled; [tasksFirst] tells which reply
    arrives first. *)
Definition mount (user : User.t) (tasksFirst : bool)
           (tasksResponse : Eff.Outcome (list Task.t))
           (usersResponse : Eff.Outcome (list User.t)) : Eff.M State unit :=
  (Eff.request Eff.GET "/tasks" [] ;;
   if negb (String.eqb (User.role user) "employee")
   then Eff.request Eff.GET "/users" [] ;;
        if tasksFirst
        then onTasksReply tasksResponse ;; onUsersReply usersResponse
        else onUsersReply usersResponse ;; onTasksReply tasksResponse
   else onTasksReply tasksResponse)%eff.

End TaskList.

(** ** User management view *)

Module UserManagement.

Record NewUser : Type := mkNewUser {
  new_email : string;
  new_password : string;
  new_full_name : string;
  new_role : string;
  new_department : string;
  new_phone : string
}.

Definition emptyNewUser : NewUser := mkNewUser "" "" "" "employee" "" "".

Record State : Type := mkState {
  users : list User.t;
  loading : bool;
  searchTerm : string;
  roleFilter : string;
  showCreateDialog : bool;
  showEditDialog : bool;
  editingUser : option User.t;
  newUser : NewUser
}.

Definition initialState : State :=
  mkState [] true "" "all" false false None emptyNewUser.

Definition setUsers (v : list User.t) (st : State) : State :=
  mkState v (loading st) (searchTerm st) (roleFilter st)
          (showCreateDialog st) (showEditDialog st) (editingUser st) (newUser st).
Definition setLoading (v : bool) (st : State) : State :=
  mkState (users st) v (searchTerm st) (roleFilter st)
          (showCreateDialog st) (showEditDialog st) (editingUser st) (newUser st).
Definition setShowCreateDialog (v : bool) (st : State) : State :=
  mkState (users st) (loading st) (searchTerm st) (roleFilter st)
          v (showEditDialog st) (editingUser st) (newUser st).
Definition setShowEditDialog (v : bool) (st : State) : State :=
  mkState (users st) (loading st) (searchTerm st) (roleFilter st)
          (showCreateDialog st) v (editingUser st) (newUser st).
Definition setEditingUser (v : option User.t) (st : State) : State :=
  mkState (users st) (loading st) (searchTerm st) (roleFilter st)
          (showCreateDialog st) (showEditDialog st) v (newUser st).
Definition setNewUser (v : NewUser) (st : State) : State :=
  mkState (users st) (loading st) (searchTerm st) (roleFilter st)
          (showCreateDialog st) (showEditDialog st) (editingUser st) v.

(** *** Handlers *)

Definition fetchUsers (response : Eff.Outcome (list User.t)) : Eff.M State unit :=
  (Eff.request Eff.GET "/users" [] ;;
   match response with
   | Eff.Resolved data => Eff.modify (setUsers data)
   | Eff.Rejected _ =>
       Eff.console_error "Error fetching users:" ;;
       Eff.toast_error "Failed to load users"
   end ;;
   Eff.modify (setLoading false))%eff.

Definition registration (u : NewUser) : Eff.JsObject :=
  [ ("email", Some (new_email u));
    ("password", Some (new_password u));
    ("full_name", Some (new_full_name u));
    ("role", Some (new_role u));
    ("department", Some (new_department u));
    ("phone", Some (new_phone u)) ].

(** [error.response?.data?.detail || fallback] *)
Definition detailOr (err : Eff.ApiError) (fallback : string) : string :=
  match Eff.detail err with
  | Some d => if String.eqb d "" then fallback else d
  | None => fallback
  end.

(** The reply carries the created user as [response.data.user]. *)
Definition handleCreateUser (response : Eff.Outcome User.t) : Eff.M State unit :=
  (draft <- Eff.gets newUser ;;
   current <- Eff.gets users ;;
   Eff.request Eff.POST "/auth/register" (registration draft) ;;
   match response with
   | Eff.Resolved created =>
       Eff.modify (setUsers (created :: current)) ;;
       Eff.modify (setShowCreateDialog false) ;;
       Eff.modify (setNewUser emptyNewUser) ;;
       Eff.toast_success "User created successfully!"
   | Eff.Rejected err =>
       Eff.console_error "Error creating user:" ;;
       Eff.toast_error (detailOr err "Failed to create user")
   end)%eff.

Definition handleUpdateUser (userId : string) (updates : Eff.JsObject)
           (response : Eff.Outcome User.t) : Eff.M State unit :=
  (current <- Eff.gets users ;;
   Eff.request Eff.PUT ("/users/" ++ userId)%string updates ;;
   match response with
   | Eff.Resolved data =>
       Eff.modify (setUsers
         (map (fun user => if String.eqb (User.id user) userId then data else user)
              current)) ;;
       Eff.modify (setShowEditDialog false) ;;
       Eff.modify (setEditingUser None) ;;
       Eff.toast_success "User updated successfully!"
   | Eff.Rejected _ =>
       Eff.console_error "Error updating user:" ;;
       Eff.toast_error "Failed to update user"
   end)%eff.

(** *** Derived values *)

Definition matchesSearch (searchTerm : string) (user : User.t) : bool :=
  JS.includes (JS.toLowerCase (JS.units (User.full_name user)))
               (JS.toLowerCase (JS.units searchTerm)) ||
  JS.includes (JS.toLowerCase (JS.units (User.email user)))
               (JS.toLowerCase (JS.units searchTerm)) ||
  match User.department user with
  | None => false
  | Some d => JS.includes (JS.toLowerCase (JS.units d))
                           (JS.toLowerCase (JS.units searchTerm))
  end.

Definition matchesRole (roleFilter : string) (user : User.t) : bool :=
  String.eqb roleFilter "all" || String.eqb (User.role user) roleFilter.

Definition filteredUsers (users : list User.t) (searchTerm roleFilter : string)
  : list User.t :=
  filter (fun user => matchesSearch searchTerm user && matchesRole roleFilter user)
         users.

Record UserStats : Type := mkStats {
  total : nat;
  admins : nat;
  managers : nat;
  employees : nat;
  active : nat
}.

(** [u.is_active !== false] *)
Definition notInactive (u : User.t) : bool :=
  match User.is_active u with
  | Some false => false
  | _ => true
  end.

Definition userStats (users : list User.t) : UserStats :=
  {| total := List.length users;
     admins := List.length (filter (fun u => String.eqb (User.role u) "admin") users);
     managers := List.length (filter (fun u => String.eqb (User.role u) "manager") users);
     employees := List.length (filter (fun u => String.eqb (User.role u) "employee") users);
     active := List.length (filter notInactive users) |}.

(** *** Rendering *)

Definition isAdmin (currentUser : User.t) : bool :=
  String.eqb (User.role currentUser) "admin".

(** The actions menu of one user card. *)
Definition card (currentUser user : User.t) : list Affordance :=
  if isAdmin currentUser && negb (String.eqb (User.id currentUser) (User.id user))
  then [EditUserItem (User.id user)]
  else [].

Definition render (currentUser : User.t) (st : State) : list Affordance :=
  if loading st then []
  else
    let shown := filteredUsers (users st) (searchTerm st) (roleFilter st) in
    (if isAdmin currentUser then [AddUserButton] else [])
    ++ match shown with
       | [] => if isAdmin currentUser then [AddUserButton] else []
       | _ :: _ => flat_map (card currentUser) shown
       end.


(** *** Display helpers *)

Definition getInitials (name : string) : list Z := JS.initialsOf name.

Definition getRoleBadgeColor (role : string) : string :=
  if String.eqb role "admin" then "bg-red-100 text-red-800 border-red-200"
  else if String.eqb role "manager" then "bg-blue-100 text-blue-800 border-blue-200"
  else if String.eqb role "employee" then "bg-green-100 text-green-800 border-green-200"
  else "bg-gray-100 text-gray-800 border-gray-200".

(** *** The edit dialog *)

(** The values read from the submitted form; [FormData.get] gives
    [null] for a field the form does not carry. *)
Record EditForm : Type := mkEditForm {
  form_full_name : option string;
  form_email : option string;
  form_role : option string;
  form_department : option string;
  form_phone : option string
}.

(** [value || null] *)
Definition orNull (v : option string) : option string :=
  match v with
  | Some s => if String.eqb s "" then None else Some s
  | None => None
  end.

Definition editUpdates (f : EditForm) : Eff.JsObject :=
  [ ("full_name", form_full_name f);
    ("email", form_email f);
    ("role", form_role f);
    ("department", orNull (form_department f));
    ("phone", orNull (form_phone f)) ].

(** The submit handler of the edit form; the form is rendered only
    while [editingUser] is set. *)
Definition submitEdit (f : EditForm) (response : Eff.Outcome User.t)
  : Eff.M State unit :=
  fun st tr =>
    match editingUser st with
    | Some u => handleUpdateUser (User.id u) (editUpdates f) response st tr
    | None => (tt, st, tr)
    end.

Definition setSearchTerm (v : string) (st : State) : State :=
  mkState (users st) (loading st) v (roleFilter st)
          (showCreateDialog st) (showEditDialog st) (editingUser st) (newUser st).
Definition setRoleFilter (v : string) (st : State) : State :=
  mkState (users st) (loading st) (searchTerm st) v
          (showCreateDialog st) (showEditDialog st) (editingUser st) (newUser st).

(** Every way the state of the view changes: the fetch on mount, the
    two filters, the create dialog with its draft and its submission,
    the "Edit User" item of a listed card, and the edit dialog with its
    cancel button and its submission. *)
Inductive step (currentUser : User.t) (st : State) : State -> Prop :=
| step_fetch response :
    step currentUser st (fst (Eff.run (fetchUsers response) st))
| step_search v :
    loading st = false -> step currentUser st (setSearchTerm v st)
| step_roleFilter v :
    loading st = false -> step currentUser st (setRoleFilter v st)
| step_createDialog open :
    In AddUserButton (render currentUser st) ->
    step currentUser st (setShowCreateDialog open st)
| step_draft draft :
    In AddUserButton (render currentUser st) ->
    step currentUser st (setNewUser draft st)
| step_create response :
    In AddUserButton (render currentUser st) ->
    step currentUser st (fst (Eff.run (handleCreateUser response) st))
| step_clickEdit user :
    loading st = false ->
    In user (filteredUsers (users st) (searchTerm st) (roleFilter st)) ->
    In (EditUserItem (User.id user)) (card currentUser user) ->
    step currentUser st (setShowEditDialog true (setEditingUser (Some user) st))
| step_editDialog open :
    loading st = false -> step currentUser st (setShowEditDialog open st)
| step_cancelEdit :
    loading st = false ->
    step currentUser st (setEditingUser None (setShowEditDialog false st))
| step_submitEdit f response :
    loading st = false ->
    step currentUser st (fst (Eff.run (submitEdit f response) st)).

(** The states the view can be in. *)
Inductive reachable (currentUser : User.t) : State -> Prop :=
| reach_initial : reachable currentUser initialState
| reach_step st st' :
    reachable currentUser st -> step currentUser st st' -> reachable currentUser st'.

End UserManagement.

(** ** Navigation bar *)

Module Navigation.

Record NavItem : Type := mkItem {
  to : string;
  label : string;
  allowed : list string
}.

Definition navItems : list NavItem :=
  [ mkItem "/dashboard" "Dashboard" ["admin"; "manager"; "employee"];
    mkItem "/tasks" "Tasks" ["admin"; "manager"; "employee"];
    mkItem "/users" "User Management" ["admin"; "manager"] ].

Definition filteredNavItems (user : User.t) : list NavItem :=
  filter (fun item => existsb (String.eqb (User.role user)) (allowed item)) navItems.

Definition render (user : User.t) : list Affordance :=
  map (fun item => NavLink (label item) (to item)) (filteredNavItems user).


(** *** Display helpers *)

Definition getInitials (name : string) : list Z := JS.initialsOf name.

Definition getRoleBadgeColor (role : string) : string :=
  if String.eqb role "admin" then "bg-red-100 text-red-800 border-red-200"
  else if String.eqb role "manager" then "bg-blue-100 text-blue-800 border-blue-200"
  else if String.eqb role "employee" then "bg-green-100 text-green-800 border-green-200"
  else "bg-gray-100 text-gray-800 border-gray-200".

(** The avatar text: [getInitials(user?.full_name || 'User')]. *)
Definition avatar (user : User.t) : list Z :=
  getInitials (if String.eqb (User.full_name user) "" then "User"
               else User.full_name user).

(** The links rendered, each with whether it carries the [active] class
    ([location.pathname === item.to]). *)
Definition links (user : User.t) (pathname : string) : list (string * bool) :=
  map (fun item => (to item, String.eqb pathname (to item))) (filteredNavItems user).

End Navigation.


(** ** Login view *)

Module Login.

(** [formData]: an object with the properties [email] and [password],
    and whatever other property a change event names.  The view only
    reads properties of it, so the object is kept as its lookup. *)
Definition FormData : Type := string -> option string.

(** [obj[key]] *)
Definition get (key : string) (obj : FormData) : option string := obj key.

(** [{...obj, [key]: value}] *)
Definition put (key value : string) (obj : FormData) : FormData :=
  fun k => if String.eqb k key then Some value else obj k.

Record State : Type := mkState {
  formData : FormData;
  loading : bool;
  error : string;
  showPassword : bool
}.

(** [{ email: '', password: '' }] *)
Definition initialState : State :=
  mkState (put "password" "" (put "email" "" (fun _ => None))) false "" false.

Definition setFormData (v : FormData) (st : State) : State :=
  mkState v (loading st) (error st) (showPassword st).
Definition setLoading (v : bool) (st : State) : State :=
  mkState (formData st) v (error st) (showPassword st).
Definition setError (v : string) (st : State) : State :=
  mkState (formData st) (loading st) v (showPassword st).

(** [handleChange(e)] with [e.target.name] and [e.target.value]. *)
Definition handleChange (name value : string) (st : State) : State :=
  setFormData (put name value (formData st)) st.

(** What the auth context's [login] resolves to. *)
Inductive LoginResult : Type :=
| LoginSucceeded
| LoginFailed (error : string).

(** [handleSubmit]; the call of [login] itself belongs to the auth
    context, its result is an input here. *)
Definition handleSubmit (result : LoginResult) : Eff.M State unit :=
  (Eff.modify (setLoading true) ;;
   Eff.modify (setError "") ;;
   match result with
   | LoginSucceeded => Eff.toast_success "Welcome back! Login successful."
   | LoginFailed e =>
       Eff.modify (setError e) ;;
       Eff.toast_error e
   end ;;
   Eff.modify (setLoading false))%eff.

(** What the view renders: a redirect when a user is signed in, else
    the form with its alert (shown when [error] is truthy) and its submit
    button (disabled while [loading]). *)
Inductive View : Type :=
| RedirectToDashboard
| Form (alert : option string) (email password : option string)
       (submitDisabled : bool).

Definition render (user : option User.t) (st : State) : View :=
  match user with
  | Some _ => RedirectToDashboard
  | None =>
      Form (if String.eqb (error st) "" then None else Some (error st))
           (get "email" (formData st)) (get "password" (formData st))
           (loading st)
  end.

End Login.

(** ** Sample data

    A small team and a few tasks, used to evaluate the views on concrete
    input. *)

Module Sample.

(** Time values of the dates that occur in the sample. *)
Definition Date_parse (s : string) : option Z :=
  if String.eqb s "2024-03-01T09:00:00.000Z" then Some 1709283600000
  else if String.eqb s "2024-03-02T09:00:00.000Z" then Some 1709370000000
  else if String.eqb s "2024-03-03T09:00:00.000Z" then Some 1709456400000
  else if String.eqb s "2024-03-04T09:00:00.000Z" then Some 1709542800000
  else if String.eqb s "2024-03-05T09:00:00.000Z" then Some 1709629200000
  else if String.eqb s "2024-03-06T09:00:00.000Z" then Some 1709715600000
  else if String.eqb s "2024-03-07T09:00:00.000Z" then Some 1709802000000
  else None.

Definition admin : User.t :=
  User.mk "u1" "admin@company.com" "Ada Admin" "admin" (Some "IT") None (Some true)
          "2024-03-01T09:00:00.000Z".

Definition manager : User.t :=
  User.mk "u2" "manager@company.com" "Max Manager" "manager" None None None
          "2024-03-01T09:00:00.000Z".

Definition employee : User.t :=
  User.mk "u3" "employee@company.com" "Eve Employee" "employee" (Some "Sales")
          None (Some false) "2024-03-02T09:00:00.000Z".

Definition users : list User.t := [admin; manager; employee].

Definition task (id title status created : string)
           (assignee due : option string) : Task.t :=
  Task.mk id title None status "medium" assignee None due created.

Definition report : Task.t :=
  task "t1" "Write report" "completed" "2024-03-03T09:00:00.000Z"
       (Some "u3") (Some "2024-03-04T09:00:00.000Z").

Definition audit : Task.t :=
  task "t2" "Audit accounts" "pending" "2024-03-01T09:00:00.000Z" (Some "u3") None.

Definition tasks : list Task.t :=
  [ report; audit;
    task "t3" "Plan sprint" "in_progress" "2024-03-07T09:00:00.000Z" (Some "u3") None;
    task "t4" "Fix login" "pending" "2024-03-02T09:00:00.000Z" None None;
    task "t5" "Order laptops" "cancelled" "2024-03-05T09:00:00.000Z" None None;
    task "t6" "Hire intern" "pending" "2024-03-04T09:00:00.000Z" (Some "u2") None;
    task "t7" "Update handbook" "pending" "2024-03-06T09:00:00.000Z" None None ].

(** A task with a title outside the letters [A]..[Z]. *)
Definition school : Task.t :=
  task "t10" "ÉCOLE budget" "pending" "2024-03-01T09:00:00.000Z" None None.

Definition taskListState : TaskList.State :=
  TaskList.mkState tasks users false "" "all" "all" false false None TaskList.emptyDraft.

Definition userManagementState : UserManagement.State :=
  UserManagement.mkState users false "" "all" false false None
                         UserManagement.emptyNewUser.

Definition dashboardState : Dashboard.State :=
  Dashboard.mkState (Some (Stats.mk 3 40 23 10 7 0)) [] false.

End Sample.

(** ** The specification's own wording, for comparison with the code *)

Module Spec.

(** Texts written with the characters below U+0080 only. *)
Definition asciiChar (c : ascii) : bool := (N_of_ascii c <? 128)%N.

Fixpoint asciiText (s : string) : bool :=
  match s with
  | EmptyString => true
  | String c s' => asciiChar c && asciiText s'
  end.

Definition asciiField (v : option string) : bool :=
  match v with
  | None => true
  | Some s => asciiText s
  end.

(** The character codes of a text. *)
Definition codes (s : string) : list Z :=
  map (fun c => Z.of_N (N_of_ascii c)) (list_ascii_of_string s).

(** The fields the searches read are written in such characters. *)
Definition asciiTask (task : Task.t) : bool :=
  asciiText (Task.title task) && asciiField (Task.description task).

Definition asciiUser (user : User.t) : bool :=
  asciiText (User.full_name user) && asciiText (User.email user) &&
  asciiField (User.department user).

(** Two characters that are the same letter in either case: equal, or a
    capital [A]..[Z] and the small letter 32 places after it. *)
Definition sameLetter (a b : ascii) : Prop :=
  let x := Z.of_N (N_of_ascii a) in
  let y := Z.of_N (N_of_ascii b) in
  x = y \/ (65 <= x <= 90 /\ y = x + 32) \/ (65 <= y <= 90 /\ x = y + 32).

(** Two texts that are equal up to letter case. *)
Fixpoint sameText (a b : string) : Prop :=
  match a, b with
  | EmptyString, EmptyString => True
  | String x a', String y b' => sameLetter x y /\ sameText a' b'
  | _, _ => False
  end.

(** "Case-insensitive substring match": some stretch of [s] equals
    [term] up to letter case. *)
Definition ciSubstring (term s : string) : Prop :=
  exists pre mid suf,
    s = (pre ++ mid ++ suf)%string /\ sameText term mid.

(** The small letter of a capital [A]..[Z] and the capital of a small
    [a]..[z], by their codes; every other code is left as it is. *)
Definition smallLetter (x : Z) : Z :=
  if (65 <=? x) && (x <=? 90) then x + 32 else x.

Definition capitalLetter (x : Z) : Z :=
  if (97 <=? x) && (x <=? 122) then x - 32 else x.

(** A text with its first character turned into a capital. *)
Definition capitalFirst (s : list Z) : list Z :=
  match s with
  | [] => []
  | c :: s' => capitalLetter c :: s'
  end.

(** A filter is either the no-op ["all"] or an exact match. *)
Definition exactOrAll (choice value : string) : Prop :=
  choice = "all" \/ value = choice.

(** The conjunction of the three predicates of the task filter. *)
Definition taskMatches (term statusChoice priorityChoice : string)
           (task : Task.t) : Prop :=
  (ciSubstring term (Task.title task) \/
   exists d, Task.description task = Some d /\ ciSubstring term d) /\
  exactOrAll statusChoice (Task.status task) /\
  exactOrAll priorityChoice (Task.priority task).

(** Counting by scanning a collection. *)
Fixpoint countWhere {A : Type} (p : A -> bool) (l : list A) : nat :=
  match l with
  | [] => O
  | x :: l' => if p x then S (countWhere p l') else countWhere p l'
  end.

Definition hasRole (r : string) (u : User.t) : bool := String.eqb (User.role u) r.

(** "is_active is not explicitly false" *)
Definition notExplicitlyInactive (u : User.t) : bool :=
  match User.is_active u with
  | Some b => b
  | None => true
  end.

(** "Ordered by created_at descending", for tasks whose creation dates
    the runtime can read. *)
Definition validDates (parse : string -> option Z) (l : list Task.t) : Prop :=
  Forall (fun t => parse (Task.created_at t) <> None) l.

Definition timeOf (parse : string -> option Z) (t : Task.t) : Z :=
  match parse (Task.created_at t) with
  | Some v => v
  | None => 0
  end.

Definition notOlder (parse : string -> option Z) (a b : Task.t) : Prop :=
  timeOf parse b <= timeOf parse a.

Definition descending (parse : string -> option Z) (l : list Task.t) : Prop :=
  StronglySorted (notOlder parse) l.

(** round(100 * completed / total) over the exact quotient, with the two
    usual tie rules. *)
Definition roundHalfUp (n d : Z) : Z := (2 * n + d) / (2 * d).
Definition roundHalfEven (n d : Z) : Z := Float64.rne n d.

(** The code units that start a word, a word being a maximal run of
    code units other than the space: [atStart] tells whether the next
    one would start a word. *)
Fixpoint wordStartsFrom (atStart : bool) (s : list Z) : list Z :=
  match s with
  | [] => []
  | c :: s' =>
      if c =? 32 then wordStartsFrom true s'
      else if atStart then c :: wordStartsFrom false s'
           else wordStartsFrom false s'
  end.

Definition wordStarts (s : list Z) : list Z := wordStartsFrom true s.

(** A text made of spaces only. *)
Definition blank (s : list Z) : bool := forallb (Z.eqb 32) s.

(** No character of the string is the given one. *)
Fixpoint lacks (c : ascii) (s : string) : bool :=
  match s with
  | EmptyString => true
  | String x s' => negb (Ascii.eqb x c) && lacks c s'
  end.

(** The three roles of the data model. *)
Definition knownRole (r : string) : Prop :=
  r = "admin" \/ r = "manager" \/ r = "employee".

(** The vocabularies of the data model. *)
Definition statuses : list string := ["pending"; "in_progress"; "completed"; "cancelled"].
Definition priorities : list string := ["low"; "medium"; "high"; "urgent"].
Definition roles : list string := ["admin"; "manager"; "employee"].

Definition gray : string := "bg-gray-100 text-gray-800 border-gray-200".

(** The task was created at the time value [k]. *)
Definition createdAt (parse : string -> option Z) (k : Z) (t : Task.t) : bool :=
  Z.eqb (timeOf parse t) k.

(** The user being edited, if any, is not the current user, and the
    current user is an admin. *)
Definition editingOther (currentUser : User.t) (st : UserManagement.State) : Prop :=
  forall u, UserManagement.editingUser st = Some u ->
            User.role currentUser = "admin" /\ User.id u <> User.id currentUser.

End Spec.

(** * Properties *)

(** ** Strings *)

Lemma startsWith_spec (s pat : list Z) :
  JS.startsWith s pat = true <-> exists suf, s = pat ++ suf.
Proof.
  revert s; induction pat as [|p pat IH]; intros s; simpl.
  - split; [intros _; now exists s | reflexivity].
  - destruct s as [|c s]; simpl.
    + split; [discriminate | intros [suf H]; discriminate].
    + rewrite andb_true_iff, Z.eqb_eq, IH. split.
      * intros [-> [suf ->]]. now exists suf.
      * intros [suf H]. injection H as -> ->. split; [reflexivity | now exists suf].
Qed.

Lemma includes_spec (s pat : list Z) :
  JS.includes s pat = true <-> exists pre suf, s = pre ++ pat ++ suf.
Proof.
  induction s as [|c s IH]; simpl.
  - rewrite orb_false_r, startsWith_spec. split.
    + intros [suf H]. now exists [], suf.
    + intros [pre [suf H]]. destruct pre; [now exists suf | discriminate].
  - rewrite orb_true_iff, startsWith_spec, IH. split.
    + intros [[suf H] | [pre [suf H]]].
      * now exists [], suf.
      * exists (c :: pre), suf. simpl. now rewrite H.
    + intros [pre [suf H]]. destruct pre as [|c' pre]; simpl in H.
      * left. now exists suf.
      * right. injection H as _ H. now exists pre, suf.
Qed.

Lemma includes_empty (s : list Z) : JS.includes s [] = true.
Proof. destruct s; reflexivity. Qed.

(** *** Texts below U+0080

    On such a text the code units are the character codes, and the case
    mappings of the Unicode tables are the shifts between [A]..[Z] and
    [a]..[z]. *)

Lemma below_128 (P : Z -> Prop) (check : Z -> bool) :
  (forall x, check x = true -> P x) ->
  forallb check (map Z.of_nat (seq 0 128)) = true ->
  forall x, 0 <= x < 128 -> P x.
Proof.
  intros Hcheck Hall x Hx. apply Hcheck.
  rewrite forallb_forall in Hall. apply Hall.
  apply in_map_iff. exists (Z.to_nat x). split; [lia |].
  apply in_seq. lia.
Qed.

Lemma lowerCodePoint_ascii (x : Z) :
  0 <= x < 128 -> Unicode.lowerCodePoint x = [Spec.smallLetter x].
Proof.
  revert x.
  apply (below_128 (fun x => Unicode.lowerCodePoint x = [Spec.smallLetter x])
                   (fun x => match Unicode.lowerCodePoint x with
                               | [y] => y =? Spec.smallLetter x
                               | _ => false
                               end)).
  - intros y H. destruct (Unicode.lowerCodePoint y) as [|z [|? ?]]; try discriminate.
    apply Z.eqb_eq in H. now subst.
  - vm_compute. reflexivity.
Qed.

Lemma upperCodePoint_ascii (x : Z) :
  0 <= x < 128 -> Unicode.upperCodePoint x = [Spec.capitalLetter x].
Proof.
  revert x.
  apply (below_128 (fun x => Unicode.upperCodePoint x = [Spec.capitalLetter x])
                   (fun x => match Unicode.upperCodePoint x with
                               | [y] => y =? Spec.capitalLetter x
                               | _ => false
                               end)).
  - intros y H. destruct (Unicode.upperCodePoint y) as [|z [|? ?]]; try discriminate.
    apply Z.eqb_eq in H. now subst.
  - vm_compute. reflexivity.
Qed.

Lemma codes_below_128 (s : string) :
  Spec.asciiText s = true -> Forall (fun x => 0 <= x < 128) (Spec.codes s).
Proof.
  unfold Spec.codes. induction s as [|c s IH]; simpl; [constructor |].
  rewrite andb_true_iff. intros [Hc Hs]. constructor; [| now apply IH].
  unfold Spec.asciiChar in Hc. apply N.ltb_lt in Hc. lia.
Qed.

Lemma decode_ascii (s : string) :
  Spec.asciiText s = true -> JS.decode s = Spec.codes s.
Proof.
  unfold Spec.codes. induction s as [|c s IH]; [reflexivity |].
  cbn [Spec.asciiText]. rewrite andb_true_iff. intros [Hc Hs].
  cbn [JS.decode list_ascii_of_string map]. unfold JS.byte at 1.
  unfold Spec.asciiChar in Hc. apply N.ltb_lt in Hc.
  destruct (Z.ltb_spec (Z.of_N (N_of_ascii c)) 128) as [_ | H]; [| lia].
  unfold JS.byte. now rewrite (IH Hs).
Qed.

Lemma utf16_below_128 (l : list Z) :
  Forall (fun x => 0 <= x < 256) l -> flat_map JS.utf16 l = l.
Proof.
  induction 1 as [|x l Hx _ IH]; [reflexivity |].
  cbn [flat_map]. rewrite IH. unfold JS.utf16.
  destruct (Z.ltb_spec x 65536); [reflexivity | lia].
Qed.

Lemma units_ascii (s : string) :
  Spec.asciiText s = true -> JS.units s = Spec.codes s.
Proof.
  intros H. unfold JS.units. rewrite (decode_ascii s H).
  apply utf16_below_128. eapply Forall_impl; [| apply (codes_below_128 s H)].
  simpl. intros. lia.
Qed.

Lemma codePoints_cons (x : Z) (l : list Z) :
  JS.isHighSurrogate x = false -> JS.codePoints (x :: l) = x :: JS.codePoints l.
Proof.
  intros H. destruct l as [|y l]; [reflexivity |].
  change (JS.codePoints (x :: y :: l))
    with (if JS.isHighSurrogate x && JS.isLowSurrogate y
          then (65536 + (x - 55296) * 1024 + (y - 56320)) :: JS.codePoints l
          else x :: JS.codePoints (y :: l)).
  now rewrite H.
Qed.

Lemma codePoints_below_128 (l : list Z) :
  Forall (fun x => 0 <= x < 128) l -> JS.codePoints l = l.
Proof.
  induction 1 as [|x l Hx _ IH]; [reflexivity |].
  rewrite codePoints_cons, IH; [reflexivity |].
  unfold JS.isHighSurrogate. destruct (Z.leb_spec 55296 x); [lia | reflexivity].
Qed.

Lemma lowerFrom_below_128 (afterCased : bool) (l : list Z) :
  Forall (fun x => 0 <= x < 128) l ->
  Unicode.lowerFrom afterCased l = map Spec.smallLetter l.
Proof.
  intros H. revert afterCased. induction H as [|x l Hx _ IH]; intros b; [reflexivity |].
  cbn [Unicode.lowerFrom map]. unfold Unicode.capitalSigma.
  destruct (Z.eqb_spec x 931); [lia |]. simpl andb. cbv iota.
  rewrite (lowerCodePoint_ascii x Hx), IH. reflexivity.
Qed.

Lemma smallLetter_range (x : Z) : 0 <= x < 128 -> 0 <= Spec.smallLetter x < 256.
Proof.
  unfold Spec.smallLetter. destruct ((65 <=? x) && (x <=? 90)); lia.
Qed.

Lemma capitalLetter_range (x : Z) : 0 <= x < 128 -> 0 <= Spec.capitalLetter x < 128.
Proof.
  unfold Spec.capitalLetter.
  destruct (Z.leb_spec 97 x), (Z.leb_spec x 122); simpl; lia.
Qed.

Lemma toLowerCase_ascii (l : list Z) :
  Forall (fun x => 0 <= x < 128) l -> JS.toLowerCase l = map Spec.smallLetter l.
Proof.
  intros H. unfold JS.toLowerCase, Unicode.toLowercase.
  rewrite (codePoints_below_128 l H), (lowerFrom_below_128 false l H).
  apply utf16_below_128. apply Forall_map.
  eapply Forall_impl; [| exact H]. apply smallLetter_range.
Qed.

Lemma toUpperCase_ascii (l : list Z) :
  Forall (fun x => 0 <= x < 128) l -> JS.toUpperCase l = map Spec.capitalLetter l.
Proof.
  intros H. unfold JS.toUpperCase, Unicode.toUppercase.
  rewrite (codePoints_below_128 l H).
  assert (E : flat_map Unicode.upperCodePoint l = map Spec.capitalLetter l).
  { induction H as [|x l Hx _ IH]; simpl; [reflexivity |].
    now rewrite (upperCodePoint_ascii x Hx), IH. }
  rewrite E. apply utf16_below_128. apply Forall_map.
  eapply Forall_impl; [| exact H]. intros x Hx.
  pose proof (capitalLetter_range x Hx). lia.
Qed.

(** *** Equality up to letter case *)

Lemma codes_app (a b : string) :
  Spec.codes (a ++ b) = Spec.codes a ++ Spec.codes b.
Proof.
  unfold Spec.codes. induction a as [|c a IH]; simpl; [reflexivity | now rewrite IH].
Qed.

Lemma smallLetter_same (a b : ascii) :
  Spec.smallLetter (Z.of_N (N_of_ascii a)) = Spec.smallLetter (Z.of_N (N_of_ascii b)) <->
  Spec.sameLetter a b.
Proof.
  unfold Spec.sameLetter, Spec.smallLetter.
  set (x := Z.of_N (N_of_ascii a)). set (y := Z.of_N (N_of_ascii b)).
  destruct (Z.leb_spec 65 x), (Z.leb_spec x 90), (Z.leb_spec 65 y), (Z.leb_spec y 90);
    simpl; lia.
Qed.

Lemma sameText_codes (a b : string) :
  map Spec.smallLetter (Spec.codes a) = map Spec.smallLetter (Spec.codes b) <->
  Spec.sameText a b.
Proof.
  unfold Spec.codes. revert b. induction a as [|x a IH]; intros [|y b]; simpl;
    try (split; [discriminate | tauto]); [tauto |].
  rewrite <- IH, <- smallLetter_same. split.
  - intros H. injection H as H1 H2. now split.
  - intros [H1 H2]. now rewrite H1, H2.
Qed.

Lemma codes_split (s : string) (l1 l2 : list Z) :
  map Spec.smallLetter (Spec.codes s) = l1 ++ l2 ->
  exists s1 s2, s = (s1 ++ s2)%string /\
                map Spec.smallLetter (Spec.codes s1) = l1 /\
                map Spec.smallLetter (Spec.codes s2) = l2.
Proof.
  revert s. induction l1 as [|x l1 IH]; intros s H.
  - now exists ""%string, s.
  - destruct s as [|c s]; [discriminate |].
    unfold Spec.codes in H. simpl in H. injection H as Hc Hs.
    destruct (IH s Hs) as [s1 [s2 [-> [H1 H2]]]].
    exists (String c s1), s2. unfold Spec.codes in *. simpl. now rewrite Hc, H1.
Qed.

(** Lower-casing both sides and searching is, on texts below U+0080, a
    case-insensitive substring search. *)
Lemma includes_lower_spec (s term : string) :
  Spec.asciiText s = true -> Spec.asciiText term = true ->
  (JS.includes (JS.toLowerCase (JS.units s)) (JS.toLowerCase (JS.units term)) = true <->
   Spec.ciSubstring term s).
Proof.
  intros Hs Ht.
  rewrite (units_ascii s Hs), (units_ascii term Ht).
  rewrite (toLowerCase_ascii _ (codes_below_128 s Hs)),
          (toLowerCase_ascii _ (codes_below_128 term Ht)).
  rewrite includes_spec. unfold Spec.ciSubstring. split.
  - intros [pre [suf H]].
    destruct (codes_split _ _ _ H) as [s1 [r [-> [H1 Hr]]]].
    destruct (codes_split _ _ _ Hr) as [s2 [s3 [-> [H2 H3]]]].
    exists s1, s2, s3. split; [reflexivity |]. now apply sameText_codes.
  - intros [pre [mid [suf [-> H]]]]. apply sameText_codes in H.
    exists (map Spec.smallLetter (Spec.codes pre)), (map Spec.smallLetter (Spec.codes suf)).
    now rewrite !codes_app, !map_app, H.
Qed.

Lemma eqb_all_or (choice value : string) :
  (String.eqb choice "all" || String.eqb value choice)%bool = true <->
  Spec.exactOrAll choice value.
Proof.
  unfold Spec.exactOrAll. now rewrite orb_true_iff, !String.eqb_eq.
Qed.

Lemma matchesSearch_spec (term : string) (task : Task.t) :
  Spec.asciiText term = true -> Spec.asciiTask task = true ->
  (TaskList.matchesSearch term task = true <->
   (Spec.ciSubstring term (Task.title task) \/
    exists d, Task.description task = Some d /\ Spec.ciSubstring term d)).
Proof.
  intros Ht Hk. unfold Spec.asciiTask in Hk. apply andb_true_iff in Hk.
  destruct Hk as [Htitle Hdesc].
  unfold TaskList.matchesSearch.
  rewrite orb_true_iff, (includes_lower_spec _ _ Htitle Ht).
  destruct (Task.description task) as [d|]; simpl in Hdesc.
  - rewrite (includes_lower_spec _ _ Hdesc Ht). split; intros [H | H]; auto.
    + right. now exists d.
    + destruct H as [d' [Hd H]]. injection Hd as ->. now right.
  - split; intros [H | H]; auto; [discriminate | now destruct H as [d [Hd _]]].
Qed.

Lemma matchesSearch_empty (task : Task.t) : TaskList.matchesSearch "" task = true.
Proof.
  unfold TaskList.matchesSearch.
  change (JS.toLowerCase (JS.units "")) with (@nil Z).
  now rewrite includes_empty.
Qed.

(** C2 (amended).  The filtered task list is the sub-list, in the
    original order, of the tasks that pass three independent tests: the
    lower-cased search term occurs in the lower-cased title or
    description, the status equals the status filter, the priority equals
    the priority filter, a filter set to "all" accepting every task.  For
    a search term and tasks written below U+0080 the first test is the
    case-insensitive substring match of the specification.  With the
    status filter at "all" the result is the list filtered by search and
    priority alone. *)
Theorem filteredTasks_conjunction
        (tasks : list Task.t) (term statusChoice priorityChoice : string) :
  (forall task,
      In task (TaskList.filteredTasks tasks term statusChoice priorityChoice) <->
      In task tasks /\
      TaskList.matchesSearch term task = true /\
      Spec.exactOrAll statusChoice (Task.status task) /\
      Spec.exactOrAll priorityChoice (Task.priority task)) /\
  (Spec.asciiText term = true ->
   forall task, Spec.asciiTask task = true ->
     (In task (TaskList.filteredTasks tasks term statusChoice priorityChoice) <->
      In task tasks /\ Spec.taskMatches term statusChoice priorityChoice task)) /\
  (exists keep,
      TaskList.filteredTasks tasks term statusChoice priorityChoice = filter keep tasks /\
      (Spec.asciiText term = true ->
       forall task, Spec.asciiTask task = true ->
         (keep task = true <->
          Spec.taskMatches term statusChoice priorityChoice task))) /\
  TaskList.filteredTasks tasks term "all" priorityChoice =
    filter (fun task => TaskList.matchesSearch term task &&
                        TaskList.matchesPriority priorityChoice task) tasks /\
  TaskList.filteredTasks tasks term statusChoice "all" =
    filter (fun task => TaskList.matchesSearch term task &&
                        TaskList.matchesStatus statusChoice task) tasks /\
  TaskList.filteredTasks tasks "" "all" "all" = tasks.
Proof.
  assert (Hcode : forall task,
             (TaskList.matchesSearch term task &&
              TaskList.matchesStatus statusChoice task &&
              TaskList.matchesPriority priorityChoice task)%bool = true <->
             TaskList.matchesSearch term task = true /\
             Spec.exactOrAll statusChoice (Task.status task) /\
             Spec.exactOrAll priorityChoice (Task.priority task)).
  { intros task. unfold TaskList.matchesStatus, TaskList.matchesPriority.
    now rewrite !andb_true_iff, !eqb_all_or, and_assoc. }
  assert (Hkeep : Spec.asciiText term = true ->
             forall task, Spec.asciiTask task = true ->
             ((TaskList.matchesSearch term task &&
               TaskList.matchesStatus statusChoice task &&
               TaskList.matchesPriority priorityChoice task)%bool = true <->
              Spec.taskMatches term statusChoice priorityChoice task)).
  { intros Hterm task Htask. rewrite Hcode. unfold Spec.taskMatches.
    now rewrite (matchesSearch_spec term task Hterm Htask). }
  split; [| split; [| split; [| split; [| split]]]].
  - intros task. unfold TaskList.filteredTasks. now rewrite filter_In, Hcode.
  - intros Hterm task Htask. unfold TaskList.filteredTasks.
    now rewrite filter_In, (Hkeep Hterm task Htask).
  - eexists. split; [reflexivity | exact Hkeep].
  - unfold TaskList.filteredTasks. apply filter_ext. intros task.
    unfold TaskList.matchesStatus. simpl. now rewrite andb_true_r.
  - unfold TaskList.filteredTasks. apply filter_ext. intros task.
    unfold TaskList.matchesPriority at 1. simpl. now rewrite andb_true_r.
  - unfold TaskList.filteredTasks.
    induction tasks as [|t l IH]; [reflexivity |].
    cbn [filter]. rewrite matchesSearch_empty. simpl. now rewrite IH.
Qed.

(** On the sample: the search ignores letter case, also outside the
    letters [A]..[Z], and the filters combine. *)
Lemma filteredTasks_sample :
  map Task.id (TaskList.filteredTasks Sample.tasks "REPORT" "all" "all") = ["t1"]%string /\
  map Task.id (TaskList.filteredTasks Sample.tasks "" "pending" "all")
    = ["t2"; "t4"; "t6"; "t7"]%string /\
  map Task.id (TaskList.filteredTasks Sample.tasks "i" "pending" "medium")
    = ["t2"; "t4"; "t6"]%string /\
  TaskList.filteredTasks Sample.tasks "i" "pending" "urgent" = [] /\
  map Task.id (TaskList.filteredTasks (Sample.school :: Sample.tasks) "école" "all" "all")
    = ["t10"]%string.
Proof. vm_compute. repeat split. Qed.

(** C2, as worded, fails outside the letters [A]..[Z]: lower-casing
    depends on the context.  The capital sigma that ends the search term
    "ΑΣ" becomes a final sigma, the one inside the title "ΑΣΑ" does not,
    so the task is not listed although its title begins with the search
    term as typed. *)
Lemma search_misses_final_sigma :
  let term := "ΑΣ"%string in
  let task := Sample.task "t9" "ΑΣΑ" "pending" "2024-03-01T09:00:00.000Z" None None in
  Task.title task = (term ++ "Α")%string /\
  Spec.taskMatches term "all" "all" task /\
  In task [task] /\
  TaskList.filteredTasks [task] term "all" "all" = [] /\
  JS.toLowerCase (JS.units term) = [945; 962] /\
  JS.toLowerCase (JS.units (Task.title task)) = [945; 963; 945].
Proof.
  intros term task.
  split; [reflexivity |]. split; [| split; [now left |]].
  - split; [| split; now left].
    left. exists ""%string, term, "Α"%string. split; [reflexivity |].
    unfold term. simpl. unfold Spec.sameLetter. simpl. intuition lia.
  - split; [vm_compute; reflexivity |]. split; vm_compute; reflexivity.
Qed.


(** ** Overdue label *)

Section Overdue.
Variable Date_parse : string -> option Z.

Lemma isOverdue_present (now d : Z) (s : string) :
  s <> ""%string -> Date_parse s = Some d ->
  TaskList.isOverdue Date_parse now (Some s) = (d <? now).
Proof.
  intros Hs Hd. unfold TaskList.isOverdue. simpl.
  apply String.eqb_neq in Hs. rewrite Hs. simpl. now rewrite Hd.
Qed.
End Overdue.

(** C3.  For a task that has a due date (a non-empty text that the runtime
    reads as the time [due]) and any current time [now], the overdue label
    is shown exactly when [due < now]; the status of the task plays no
    part: replacing it, by "completed" or "cancelled" or anything else,
    leaves the label as it is. *)
Theorem overdue_iff_due_before_now
        (Date_parse : string -> option Z) (now due : Z) (task : Task.t) (s : string) :
  Task.due_date task = Some s -> s <> ""%string -> Date_parse s = Some due ->
  (TaskList.overdueLabel Date_parse now task = true <-> due < now) /\
  forall status',
    TaskList.overdueLabel Date_parse now
      (Task.mk (Task.id task) (Task.title task) (Task.description task) status'
               (Task.priority task) (Task.assigned_to task) (Task.category task)
               (Task.due_date task) (Task.created_at task))
    = TaskList.overdueLabel Date_parse now task.
Proof.
  intros Hdue Hs Hparse. split.
  - unfold TaskList.overdueLabel. rewrite Hdue.
    rewrite (isOverdue_present Date_parse now due s Hs Hparse).
    apply Z.ltb_lt.
  - intros status'. reflexivity.
Qed.

(** The sample report is completed and was due on 4 March; on 7 March
    it is labelled overdue. *)
Lemma overdue_iff_due_before_now_witness :
  TaskList.overdueLabel Sample.Date_parse 1709802000000 Sample.report = true.
Proof.
  apply (proj1 (overdue_iff_due_before_now Sample.Date_parse 1709802000000
                  1709542800000 Sample.report "2024-03-04T09:00:00.000Z"
                  eq_refl ltac:(discriminate) eq_refl)).
  reflexivity.
Defined.

(** C10.  A task without a due date is never labelled overdue, whatever
    the current time and however the runtime parses dates. *)
Theorem overdue_absent_due_date
        (Date_parse : string -> option Z) (now : Z) (task : Task.t) :
  Task.due_date task = None ->
  TaskList.isOverdue Date_parse now (Task.due_date task) = false /\
  TaskList.overdueLabel Date_parse now task = false.
Proof.
  intros H. unfold TaskList.overdueLabel. rewrite H. split; reflexivity.
Qed.

Lemma overdue_absent_due_date_witness :
  TaskList.overdueLabel Sample.Date_parse 1709802000000 Sample.audit = false.
Proof.
  apply (proj2 (overdue_absent_due_date Sample.Date_parse 1709802000000
                  Sample.audit eq_refl)).
Defined.

(** ** User counters *)

Lemma length_filter_countWhere {A : Type} (p : A -> bool) (l : list A) :
  List.length (filter p l) = Spec.countWhere p l.
Proof.
  induction l as [|x l IH]; simpl; [reflexivity |].
  destruct (p x); simpl; now rewrite IH.
Qed.

Lemma notInactive_spec (u : User.t) :
  UserManagement.notInactive u = Spec.notExplicitlyInactive u.
Proof.
  unfold UserManagement.notInactive, Spec.notExplicitlyInactive.
  now destruct (User.is_active u) as [[|]|].
Qed.

Lemma countWhere_ext {A : Type} (p q : A -> bool) (l : list A) :
  (forall x, p x = q x) -> Spec.countWhere p l = Spec.countWhere q l.
Proof.
  intros H. induction l as [|x l IH]; simpl; [reflexivity |].
  now rewrite H, IH.
Qed.

(** C9.  The counters of the user-management view: total is the length of
    the fetched collection, each role counter is the number of users whose
    role is exactly that role, and the active counter is the number of
    users whose [is_active] is not explicitly false, so that a user
    without the field counts as active. *)
Theorem userStats_counts (users : list User.t) :
  let st := UserManagement.userStats users in
  UserManagement.total st = List.length users /\
  UserManagement.admins st = Spec.countWhere (Spec.hasRole "admin") users /\
  UserManagement.managers st = Spec.countWhere (Spec.hasRole "manager") users /\
  UserManagement.employees st = Spec.countWhere (Spec.hasRole "employee") users /\
  UserManagement.active st = Spec.countWhere Spec.notExplicitlyInactive users /\
  (forall u, User.is_active u = None -> Spec.notExplicitlyInactive u = true) /\
  (forall u, Spec.notExplicitlyInactive u = false <-> User.is_active u = Some false).
Proof.
  simpl. rewrite !length_filter_countWhere.
  split; [reflexivity |]. split; [reflexivity |]. split; [reflexivity |].
  split; [reflexivity |]. split; [apply countWhere_ext, notInactive_spec |].
  split; intros u; unfold Spec.notExplicitlyInactive.
  - now intros ->.
  - destruct (User.is_active u) as [[|]|]; split; congruence.
Qed.

(** On the sample: three users, one per role; the employee is explicitly
    inactive, the manager has no [is_active] field and counts as active. *)
Lemma userStats_sample :
  UserManagement.userStats Sample.users = UserManagement.mkStats 3 1 1 1 2.
Proof. reflexivity. Qed.


(** ** Event handlers *)

(** Unfold a handler down to its state and trace. *)
Ltac run_handler :=
  unfold Eff.run, Eff.bind, Eff.request, Eff.toast_error, Eff.toast_success,
    Eff.console_error, Eff.emit, Eff.modify, Eff.gets, Eff.ret; simpl.

(** C6.  Deleting a task asks for confirmation first.  When the user
    declines, the handler stops there: the local state is unchanged and
    the only thing added to the trace is the prompt itself, so no DELETE
    request is issued and nothing is notified.  In general the task list
    of the resulting state differs from the one before only if the user
    confirmed and the request succeeded; in that case exactly the tasks
    with the given id are dropped, after one DELETE request for that id.
    A confirmed request that fails leaves the task list as it was. *)
Theorem delete_requires_confirmation
        (taskId : string) (st : TaskList.State) (tr0 : list Eff.Event)
        (response : Eff.Outcome unit) :
  TaskList.handleDeleteTask taskId false response st tr0 =
    (tt, st, tr0 ++ [Eff.ConfirmPrompt "Are you sure you want to delete this task?"]) /\
  Eff.requests (snd (Eff.run (TaskList.handleDeleteTask taskId false response) st)) = [] /\
  (forall confirmed,
      TaskList.tasks (fst (Eff.run (TaskList.handleDeleteTask taskId confirmed response) st))
        <> TaskList.tasks st ->
      confirmed = true /\ exists u, response = Eff.Resolved u) /\
  (forall u,
      let '(st', tr) := Eff.run (TaskList.handleDeleteTask taskId true (Eff.Resolved u)) st in
      TaskList.tasks st' =
        filter (fun task => negb (String.eqb (Task.id task) taskId)) (TaskList.tasks st) /\
      Eff.requests tr = [Eff.mkRequest Eff.DELETE ("/tasks/" ++ taskId)%string []]) /\
  (forall err,
      let '(st', tr) := Eff.run (TaskList.handleDeleteTask taskId true (Eff.Rejected err)) st in
      st' = st /\
      Eff.requests tr = [Eff.mkRequest Eff.DELETE ("/tasks/" ++ taskId)%string []]).
Proof.
  split; [reflexivity |]. split; [reflexivity |]. split; [| split].
  - intros [|] H.
    + split; [reflexivity |]. destruct response as [u | err].
      * now exists u.
      * exfalso. apply H. reflexivity.
    + exfalso. apply H. reflexivity.
  - intros u. unfold TaskList.handleDeleteTask. run_handler. now split.
  - intros err. unfold TaskList.handleDeleteTask. run_handler. now split.
Qed.

(** Declining the prompt on the sample task list leaves all seven tasks
    and sends nothing; confirming, with a successful reply, removes the
    task. *)
Lemma delete_requires_confirmation_witness :
  Eff.run (TaskList.handleDeleteTask "t1" false (Eff.Resolved tt)) Sample.taskListState
    = (Sample.taskListState,
       [Eff.ConfirmPrompt "Are you sure you want to delete this task?"]) /\
  map Task.id (TaskList.tasks (fst (Eff.run
      (TaskList.handleDeleteTask "t1" true (Eff.Resolved tt)) Sample.taskListState)))
    = ["t2"; "t3"; "t4"; "t5"; "t6"; "t7"]%string.
Proof.
  destruct (delete_requires_confirmation "t1" Sample.taskListState [] (Eff.Resolved tt))
    as [Hdecline [_ [_ [Hconfirm _]]]].
  split.
  - unfold Eff.run. now rewrite Hdecline.
  - specialize (Hconfirm tt).
    destruct (Eff.run _ _) as [st' tr]. destruct Hconfirm as [Ht _].
    cbn [fst]. rewrite Ht. reflexivity.
Defined.

(** ** Quick actions *)

Lemma strictEq_true (a : option string) (b : string) :
  JS.strictEq a b = true <-> a = Some b.
Proof.
  destruct a as [s|]; simpl.
  - rewrite String.eqb_eq. split; [now intros -> | now intros [= ->]].
  - split; discriminate.
Qed.

Lemma in_quickActions (user : User.t) (task : Task.t) (a : Affordance) :
  In a (TaskList.quickActions user task) ->
  Task.assigned_to task = Some (User.id user) /\
  ((Task.status task = "pending" /\
    a = QuickAction "Start" (Task.id task) [("status", Some "in_progress")]) \/
   (Task.status task = "in_progress" /\
    a = QuickAction "Complete" (Task.id task) [("status", Some "completed")])).
Proof.
  unfold TaskList.quickActions.
  destruct (JS.strictEq (Task.assigned_to task) (User.id user)) eqn:Ha; simpl;
    [| intros []].
  apply strictEq_true in Ha.
  destruct (String.eqb (Task.status task) "completed"); simpl; [intros [] |].
  intros H. split; [assumption |]. apply in_app_or in H. destruct H as [H | H].
  - destruct (String.eqb (Task.status task) "pending") eqn:E; [| destruct H].
    apply String.eqb_eq in E. destruct H as [<- | []]. now left.
  - destruct (String.eqb (Task.status task) "in_progress") eqn:E; [| destruct H].
    apply String.eqb_eq in E. destruct H as [<- | []]. now right.
Qed.

Lemma quickAction_in_card (user : User.t) (task : Task.t) (l i : string) (u : Eff.JsObject) :
  In (QuickAction l i u) (TaskList.card user task) ->
  In (QuickAction l i u) (TaskList.quickActions user task).
Proof.
  unfold TaskList.card. intros H. apply in_app_or in H. destruct H as [H | H]; [| exact H].
  exfalso.
  destruct (negb (String.eqb (User.role user) "employee") ||
            JS.strictEq (Task.assigned_to task) (User.id user))%bool; [| exact H].
  destruct H as [H | H]; [discriminate |].
  destruct (negb (String.eqb (User.role user) "employee")); [| exact H].
  destruct H as [H | []]. discriminate.
Qed.

(** C5.  The quick actions of a task card.  Every quick action offered is
    either "Start" on a pending task, whose click sends the status
    [in_progress], or "Complete" on a task in progress, whose click sends
    the status [completed]; it is offered only when the task is assigned
    to the current user.  A completed task has no quick action, and a
    user who is not the assignee is offered none.  Every quick action in
    the rendered task list comes from the card of a listed task, and its
    click issues one PUT request for that task carrying that status. *)
Theorem quickActions_transitions (user : User.t) (task : Task.t) :
  (forall a, In a (TaskList.quickActions user task) ->
      Task.assigned_to task = Some (User.id user) /\
      ((Task.status task = "pending" /\
        a = QuickAction "Start" (Task.id task) [("status", Some "in_progress")]) \/
       (Task.status task = "in_progress" /\
        a = QuickAction "Complete" (Task.id task) [("status", Some "completed")]))) /\
  (Task.status task = "completed" -> TaskList.quickActions user task = []) /\
  (Task.assigned_to task <> Some (User.id user) -> TaskList.quickActions user task = []) /\
  (forall st label taskId updates,
      In (QuickAction label taskId updates) (TaskList.render user st) ->
      exists shown, In shown (TaskList.tasks st) /\
                    In (QuickAction label taskId updates)
                       (TaskList.quickActions user shown)) /\
  (forall label taskId updates response st,
      In (QuickAction label taskId updates) (TaskList.quickActions user task) ->
      Eff.requests (snd (Eff.run (TaskList.handleUpdateTask taskId updates response) st)) =
        [Eff.mkRequest Eff.PUT ("/tasks/" ++ Task.id task)%string updates] /\
      exists newStatus, updates = [("status", Some newStatus)] /\
        ((Task.status task = "pending" /\ newStatus = "in_progress") \/
         (Task.status task = "in_progress" /\ newStatus = "completed"))).
Proof.
  split; [apply in_quickActions |]. split; [| split; [| split]].
  - intros H. unfold TaskList.quickActions. rewrite H. simpl. now rewrite andb_false_r.
  - intros H. unfold TaskList.quickActions.
    destruct (JS.strictEq (Task.assigned_to task) (User.id user)) eqn:E; [| reflexivity].
    apply strictEq_true in E. contradiction.
  - intros st label taskId updates. unfold TaskList.render.
    destruct (TaskList.loading st); [intros [] |].
    intros H. apply in_app_or in H. destruct H as [H | H].
    { destruct (TaskList.canCreate user); [| destruct H].
      destruct H as [H | []]. discriminate. }
    destruct (TaskList.filteredTasks _ _ _ _) as [|t l] eqn:E.
    { destruct (TaskList.canCreate user); [| destruct H].
      destruct H as [H | []]. discriminate. }
    rewrite <- E in H. apply in_flat_map in H. destruct H as [shown [Hin Hcard]].
    exists shown. split.
    + unfold TaskList.filteredTasks in Hin. apply filter_In in Hin. tauto.
    + now apply quickAction_in_card.
  - intros label taskId updates response st H.
    apply in_quickActions in H. destruct H as [_ [[Hs H] | [Hs H]]];
      injection H as -> -> ->.
    + split.
      * destruct response; reflexivity.
      * exists "in_progress"%string. split; [reflexivity | now left].
    + split.
      * destruct response; reflexivity.
      * exists "completed"%string. split; [reflexivity | now right].
Qed.

(** For the sample employee the pending audit offers "Start" and nothing
    else, and the completed report offers nothing; the admin, who is not
    the assignee, is offered nothing. *)
Lemma quickActions_transitions_witness :
  TaskList.quickActions Sample.employee Sample.audit
    = [QuickAction "Start" "t2" [("status", Some "in_progress")]]%string /\
  TaskList.quickActions Sample.employee Sample.report = [] /\
  TaskList.quickActions Sample.admin Sample.audit = [] /\
  Eff.requests (snd (Eff.run
     (TaskList.handleUpdateTask "t2" [("status", Some "in_progress")]
        (Eff.Resolved Sample.audit)) Sample.taskListState))
    = [Eff.mkRequest Eff.PUT "/tasks/t2" [("status", Some "in_progress")]]%string.
Proof.
  split; [reflexivity |].
  split; [exact (proj1 (proj2 (quickActions_transitions Sample.employee Sample.report))
                   eq_refl) |].
  split; [apply (proj1 (proj2 (proj2 (quickActions_transitions Sample.admin Sample.audit))));
          discriminate |].
  apply (proj2 (proj2 (proj2 (proj2
           (quickActions_transitions Sample.employee Sample.audit))))
           "Start"%string "t2"%string [("status", Some "in_progress")]%string
           (Eff.Resolved Sample.audit) Sample.taskListState).
  simpl. now left.
Defined.

(** ** Role gates *)

Lemma employee_cannot_create (user : User.t) :
  User.role user = "employee" -> TaskList.canCreate user = false.
Proof. unfold TaskList.canCreate. now intros ->. Qed.

Lemma employee_card (user : User.t) (task : Task.t) (taskId : string) :
  User.role user = "employee" ->
  ~ In (DeleteTaskItem taskId) (TaskList.card user task) /\
  ~ In CreateTaskButton (TaskList.card user task).
Proof.
  intros Hr. unfold TaskList.card. rewrite Hr. simpl.
  split; intros H; apply in_app_or in H; destruct H as [H | H].
  - destruct (JS.strictEq (Task.assigned_to task) (User.id user)); [| exact H].
    destruct H as [H | []]. discriminate.
  - apply in_quickActions in H. destruct H as [_ [[_ H] | [_ H]]]; discriminate.
  - destruct (JS.strictEq (Task.assigned_to task) (User.id user)); [| exact H].
    destruct H as [H | []]. discriminate.
  - apply in_quickActions in H. destruct H as [_ [[_ H] | [_ H]]]; discriminate.
Qed.

Lemma employee_task_list (user : User.t) (st : TaskList.State) :
  User.role user = "employee" ->
  ~ In CreateTaskButton (TaskList.render user st) /\
  forall taskId, ~ In (DeleteTaskItem taskId) (TaskList.render user st).
Proof.
  intros Hr. unfold TaskList.render.
  destruct (TaskList.loading st); [split; [| intros ?]; intros [] |].
  rewrite (employee_cannot_create user Hr). simpl.
  destruct (TaskList.filteredTasks _ _ _ _) as [|t l] eqn:E.
  - split; [| intros ?]; intros [].
  - rewrite <- E. split; [| intros taskId]; intros H;
      apply in_flat_map in H; destruct H as [task [_ H]].
    + now apply (proj2 (employee_card user task ""%string Hr)) in H.
    + now apply (proj1 (employee_card user task taskId Hr)) in H.
Qed.

Lemma admin_task_list (admin : User.t) (st : TaskList.State) :
  User.role admin = "admin" -> TaskList.loading st = false ->
  In CreateTaskButton (TaskList.render admin st) /\
  forall task,
    In task (TaskList.filteredTasks (TaskList.tasks st) (TaskList.searchTerm st)
               (TaskList.statusFilter st) (TaskList.priorityFilter st)) ->
    In (DeleteTaskItem (Task.id task)) (TaskList.render admin st).
Proof.
  intros Hr Hl. unfold TaskList.render. rewrite Hl.
  unfold TaskList.canCreate. rewrite Hr. simpl. split; [now left |].
  intros task Hin. right.
  destruct (TaskList.filteredTasks _ _ _ _) as [|t l] eqn:E; [destruct Hin |].
  rewrite <- E in *. apply in_flat_map. exists task. split; [assumption |].
  unfold TaskList.card. rewrite Hr. simpl. right. now left.
Qed.

Lemma admin_user_management (admin : User.t) (st : UserManagement.State) :
  User.role admin = "admin" -> UserManagement.loading st = false ->
  In AddUserButton (UserManagement.render admin st) /\
  forall u,
    In u (UserManagement.filteredUsers (UserManagement.users st)
            (UserManagement.searchTerm st) (UserManagement.roleFilter st)) ->
    (In (EditUserItem (User.id u)) (UserManagement.render admin st) <->
     User.id u <> User.id admin).
Proof.
  intros Hr Hl. unfold UserManagement.render. rewrite Hl.
  unfold UserManagement.isAdmin. rewrite Hr. simpl. split; [now left |].
  intros u Hin.
  destruct (UserManagement.filteredUsers _ _ _) as [|u0 l] eqn:E; [destruct Hin |].
  rewrite <- E in *. split.
  - intros [H | H]; [discriminate |].
    apply in_flat_map in H. destruct H as [u' [_ H]].
    unfold UserManagement.card, UserManagement.isAdmin in H. rewrite Hr in H. simpl in H.
    destruct (String.eqb (User.id admin) (User.id u')) eqn:Eid; simpl in H; [destruct H |].
    destruct H as [H | []]. injection H as H. apply String.eqb_neq in Eid. congruence.
  - intros Hne. right. apply in_flat_map. exists u. split; [assumption |].
    unfold UserManagement.card, UserManagement.isAdmin. rewrite Hr. simpl.
    assert (Eid : String.eqb (User.id admin) (User.id u) = false)
      by (apply String.eqb_neq; congruence).
    rewrite Eid. now left.
Qed.

(** C4.  Role gates of the three views.  In a session whose role is
    employee, whatever the state of the view, the task list renders no
    "Create Task" button and no "Delete" item, the user-management view
    no "Add User" button and no edit item, the dashboard no "Manage
    Users" button, and the navigation bar no link to user management.
    In a session whose role is admin, once the view has loaded, the task
    list renders "Create Task" and a "Delete" item for every listed task,
    the dashboard renders "Manage Users", and the user-management view
    renders "Add User" and, for a listed user, the edit item exactly when
    that user is not the admin. *)
Theorem role_gated_affordances :
  (forall user, User.role user = "employee" ->
      (forall st, ~ In CreateTaskButton (TaskList.render user st) /\
                  forall taskId, ~ In (DeleteTaskItem taskId) (TaskList.render user st)) /\
      (forall st, ~ In AddUserButton (UserManagement.render user st) /\
                  forall userId, ~ In (EditUserItem userId) (UserManagement.render user st)) /\
      (forall st, ~ In ManageUsersButton (Dashboard.render user st)) /\
      ~ In (NavLink "User Management" "/users") (Navigation.render user)) /\
  (forall admin, User.role admin = "admin" ->
      (forall st, TaskList.loading st = false ->
          In CreateTaskButton (TaskList.render admin st) /\
          forall task,
            In task (TaskList.filteredTasks (TaskList.tasks st) (TaskList.searchTerm st)
                       (TaskList.statusFilter st) (TaskList.priorityFilter st)) ->
            In (DeleteTaskItem (Task.id task)) (TaskList.render admin st)) /\
      (forall st, UserManagement.loading st = false ->
          In AddUserButton (UserManagement.render admin st) /\
          forall u,
            In u (UserManagement.filteredUsers (UserManagement.users st)
                    (UserManagement.searchTerm st) (UserManagement.roleFilter st)) ->
            (In (EditUserItem (User.id u)) (UserManagement.render admin st) <->
             User.id u <> User.id admin)) /\
      (forall st, Dashboard.loading st = false ->
          In ManageUsersButton (Dashboard.render admin st))).
Proof.
  split.
  - intros user Hr. split; [| split; [| split]].
    + intros st. now apply employee_task_list.
    + intros st. unfold UserManagement.render, UserManagement.isAdmin.
      destruct (UserManagement.loading st); [split; [| intros ?]; intros [] |].
      rewrite Hr. simpl.
      destruct (UserManagement.filteredUsers _ _ _) as [|u l] eqn:E;
        [split; [| intros ?]; intros [] |].
      rewrite <- E.
      split; [| intros userId]; intros H; apply in_flat_map in H;
        destruct H as [u' [_ H]];
        unfold UserManagement.card, UserManagement.isAdmin in H;
        rewrite Hr in H; destruct H.
    + intros st. unfold Dashboard.render. destruct (Dashboard.loading st); [intros [] |].
      rewrite Hr. simpl. intros [H | [H | []]]; discriminate.
    + unfold Navigation.render, Navigation.filteredNavItems. rewrite Hr. simpl.
      intros [H | [H | []]]; discriminate.
  - intros admin Hr. split; [| split].
    + intros st Hl. now apply admin_task_list.
    + intros st Hl. now apply admin_user_management.
    + intros st Hl. unfold Dashboard.render. rewrite Hl, Hr. simpl. right. now left.
Qed.

(** The sample admin sees every gated action, and an edit item for the
    employee but none for the admin's own entry; the sample employee sees
    none of the gated actions. *)
Lemma role_gated_affordances_witness :
  (In CreateTaskButton (TaskList.render Sample.admin Sample.taskListState) /\
   In (DeleteTaskItem "t1") (TaskList.render Sample.admin Sample.taskListState)) /\
  (In AddUserButton (UserManagement.render Sample.admin Sample.userManagementState) /\
   In (EditUserItem "u3") (UserManagement.render Sample.admin Sample.userManagementState) /\
   ~ In (EditUserItem "u1") (UserManagement.render Sample.admin Sample.userManagementState)) /\
  In ManageUsersButton (Dashboard.render Sample.admin Sample.dashboardState) /\
  ~ In CreateTaskButton (TaskList.render Sample.employee Sample.taskListState) /\
  ~ In (DeleteTaskItem "t1") (TaskList.render Sample.employee Sample.taskListState) /\
  ~ In AddUserButton (UserManagement.render Sample.employee Sample.userManagementState) /\
  ~ In ManageUsersButton (Dashboard.render Sample.employee Sample.dashboardState).
Proof.
  destruct role_gated_affordances as [Hemp Hadm].
  destruct (Hadm Sample.admin eq_refl) as [Htl [Hum Hdash]].
  destruct (Htl Sample.taskListState eq_refl) as [Hcreate Hdelete].
  destruct (Hum Sample.userManagementState eq_refl) as [Hadd Hedit].
  destruct (Hemp Sample.employee eq_refl) as [Etl [Eum [Edash _]]].
  split; [split; [exact Hcreate |] |].
  { apply (Hdelete Sample.report). simpl. now left. }
  split; [split; [exact Hadd | split] |].
  { apply (Hedit Sample.employee); [simpl; tauto | discriminate]. }
  { intros H. apply (Hedit Sample.admin) in H; [now apply H | simpl; tauto]. }
  split; [exact (Hdash Sample.dashboardState eq_refl) |].
  split; [exact (proj1 (Etl Sample.taskListState)) |].
  split; [exact (proj2 (Etl Sample.taskListState) "t1"%string) |].
  split; [exact (proj1 (Eum Sample.userManagementState)) |].
  exact (Edash Sample.dashboardState).
Defined.

(** ** Failed API calls *)

(** C8, as worded, fails on task creation: the API reports a detail, and
    the one notification shown carries the fixed text instead. *)
Lemma failed_create_task_ignores_detail :
  let err := Eff.mkError (Some "Title must not be empty") in
  let shown := Eff.toastsOf (TaskList.handleCreateTask (fun _ => ""%string)
                                                       (Eff.Rejected err))
                            TaskList.initialState in
  Eff.detail err = Some "Title must not be empty"%string /\
  shown = [Eff.ToastError "Failed to create task"] /\
  ~ In (Eff.ToastError "Title must not be empty") shown.
Proof.
  simpl. split; [reflexivity |]. split; [reflexivity |].
  intros [H | []]. discriminate.
Qed.

(** The auxiliary user fetch of the task list only writes to the console
    when it fails. *)
Lemma task_list_fetchUsers_failure (err : Eff.ApiError) (st : TaskList.State) :
  Eff.run (TaskList.fetchUsers (Eff.Rejected err)) st =
    (st, [Eff.Http (Eff.mkRequest Eff.GET "/users" []);
          Eff.ConsoleError "Error fetching users:"]).
Proof. reflexivity. Qed.

(** C8 (amended).  A failed call of the dashboard fetch, of the task
    list's task fetch, create, update and delete, and of the user
    management's user fetch, create and update leaves exactly one
    notification, an error.  Its text is the detail of the API's error
    payload only for user creation, and only when that detail is present
    and not empty; in every other case it is a fixed message naming the
    operation. *)
Theorem failed_call_notifies (err : Eff.ApiError) :
  (forall parse st tasksResponse,
      Eff.toastsOf (Dashboard.fetchDashboardData parse (Eff.Rejected err) tasksResponse) st
        = [Eff.ToastError "Failed to load dashboard data"]) /\
  (forall parse st statsResponse,
      Eff.toastsOf (Dashboard.fetchDashboardData parse statsResponse (Eff.Rejected err)) st
        = [Eff.ToastError "Failed to load dashboard data"]) /\
  (forall st, Eff.toastsOf (TaskList.fetchTasks (Eff.Rejected err)) st
                = [Eff.ToastError "Failed to load tasks"]) /\
  (forall toISO st, Eff.toastsOf (TaskList.handleCreateTask toISO (Eff.Rejected err)) st
                      = [Eff.ToastError "Failed to create task"]) /\
  (forall taskId updates st,
      Eff.toastsOf (TaskList.handleUpdateTask taskId updates (Eff.Rejected err)) st
        = [Eff.ToastError "Failed to update task"]) /\
  (forall taskId st,
      Eff.toastsOf (TaskList.handleDeleteTask taskId true (Eff.Rejected err)) st
        = [Eff.ToastError "Failed to delete task"]) /\
  (forall st, Eff.toastsOf (UserManagement.fetchUsers (Eff.Rejected err)) st
                = [Eff.ToastError "Failed to load users"]) /\
  (forall userId updates st,
      Eff.toastsOf (UserManagement.handleUpdateUser userId updates (Eff.Rejected err)) st
        = [Eff.ToastError "Failed to update user"]) /\
  (forall st,
      Eff.toastsOf (UserManagement.handleCreateUser (Eff.Rejected err)) st =
        [Eff.ToastError
           match Eff.detail err with
           | Some d => if String.eqb d "" then "Failed to create user"%string else d
           | None => "Failed to create user"%string
           end]).
Proof.
  split; [intros parse st [data | e]; reflexivity |].
  split; [intros parse st [data | e]; reflexivity |].
  repeat split.
Qed.

(** ** Recent tasks *)

Section RecentTasks.
Variable Date_parse : string -> option Z.

Let cmp := Dashboard.byCreatedDesc Date_parse.
Let valid (t : Task.t) : Prop := Date_parse (Task.created_at t) <> None.

Lemma sortCompare_valid (a b : Task.t) :
  valid a -> valid b ->
  JS.sortCompare cmp a b = Spec.timeOf Date_parse b - Spec.timeOf Date_parse a.
Proof.
  unfold valid, JS.sortCompare, cmp, Dashboard.byCreatedDesc, Spec.timeOf.
  destruct (Date_parse (Task.created_at a)), (Date_parse (Task.created_at b));
    intros Ha Hb; congruence.
Qed.

Lemma insert_perm (x : Task.t) (l : list Task.t) :
  Permutation (JS.insert cmp x l) (x :: l).
Proof.
  induction l as [|y l IH]; simpl; [reflexivity |].
  destruct (JS.sortCompare cmp x y <=? 0); [reflexivity |].
  rewrite IH. apply perm_swap.
Qed.

Lemma sort_perm (l : list Task.t) : Permutation (JS.sort cmp l) l.
Proof.
  induction l as [|x l IH]; simpl; [reflexivity |].
  rewrite insert_perm. now constructor.
Qed.

Lemma sort_valid (l : list Task.t) :
  Spec.validDates Date_parse l -> Spec.validDates Date_parse (JS.sort cmp l).
Proof.
  unfold Spec.validDates. intros H.
  apply (Permutation_Forall (Permutation_sym (sort_perm l)) H).
Qed.

Lemma insert_descending (x : Task.t) (l : list Task.t) :
  valid x -> Spec.validDates Date_parse l ->
  Spec.descending Date_parse l ->
  Spec.descending Date_parse (JS.insert cmp x l).
Proof.
  intros Hx Hv Hs. induction Hs as [|y l Hs IH Hy]; simpl.
  - constructor; constructor.
  - inversion Hv as [|? ? Hvy Hvl]; subst.
    rewrite (sortCompare_valid x y Hx Hvy).
    destruct (Z.leb_spec (Spec.timeOf Date_parse y - Spec.timeOf Date_parse x) 0) as [Hle | Hgt].
    + constructor; [now constructor |].
      constructor; [unfold Spec.notOlder; lia |].
      eapply Forall_impl; [| exact Hy]. unfold Spec.notOlder. intros z Hz. lia.
    + constructor; [now apply IH |].
      apply (Permutation_Forall (Permutation_sym (insert_perm x l))).
      constructor; [unfold Spec.notOlder; lia | exact Hy].
Qed.

Lemma sort_descending (l : list Task.t) :
  Spec.validDates Date_parse l -> Spec.descending Date_parse (JS.sort cmp l).
Proof.
  induction l as [|x l IH]; simpl; intros Hv.
  - constructor.
  - inversion Hv as [|? ? Hx Hl]; subst.
    apply insert_descending; [exact Hx | now apply sort_valid | now apply IH].
Qed.

(** Sorting again changes nothing: on a descending list every insertion
    lands at the front. *)
Lemma sort_fixed (l : list Task.t) :
  Spec.validDates Date_parse l -> Spec.descending Date_parse l ->
  JS.sort cmp l = l.
Proof.
  intros Hv Hs. induction Hs as [|x l Hs IH Hx]; simpl; [reflexivity |].
  inversion Hv as [|? ? Hvx Hvl]; subst. rewrite (IH Hvl).
  destruct l as [|y l']; simpl; [reflexivity |].
  inversion Hvl as [|? ? Hvy _]; subst.
  rewrite (sortCompare_valid x y Hvx Hvy).
  inversion Hx as [|? ? Hxy _]; subst. unfold Spec.notOlder in Hxy.
  destruct (Z.leb_spec (Spec.timeOf Date_parse y - Spec.timeOf Date_parse x) 0);
    [reflexivity | lia].
Qed.

Lemma firstn_descending (n : nat) (l : list Task.t) :
  Spec.descending Date_parse l -> Spec.descending Date_parse (firstn n l).
Proof.
  intros Hs. revert n. induction Hs as [|x l Hs IH Hx]; intros [|n]; simpl;
    try constructor.
  - apply IH.
  - apply Forall_forall. intros y Hy.
    apply (proj1 (Forall_forall _ _) Hx). revert Hy. clear.
    revert n; induction l as [|z l IH]; intros [|n]; simpl; try tauto.
    intros [-> | H]; [now left | right; eauto].
Qed.

Lemma firstn_valid (n : nat) (l : list Task.t) :
  Spec.validDates Date_parse l -> Spec.validDates Date_parse (firstn n l).
Proof.
  unfold Spec.validDates. intros H. revert n.
  induction H as [|x l Hx Hl IH]; intros [|n]; simpl; constructor; auto.
Qed.

End RecentTasks.

Lemma sorted_firstn_skipn {A : Type} (R : A -> A -> Prop) (n : nat) (l : list A) :
  StronglySorted R l ->
  forall a b, In a (firstn n l) -> In b (skipn n l) -> R a b.
Proof.
  intros Hs. revert n. induction Hs as [|x l Hs IH Hx]; intros [|n] a b; simpl;
    try tauto.
  intros [<- | Ha] Hb.
  - apply (proj1 (Forall_forall _ _) Hx).
    rewrite <- (firstn_skipn n l). apply in_or_app. now right.
  - now apply (IH n).
Qed.

(** C7.  The recent tasks of the dashboard are the first five entries of
    the fetched tasks sorted by creation time, newest first.  There are
    at most five of them (exactly five when at least five tasks were
    fetched).  When every creation date is readable, the result is in
    descending order of [created_at], it is a prefix of a rearrangement
    of the fetched tasks, and no task left out is newer than a task kept.
    The derivation is idempotent: applied to its own result, or applied a
    second time to the response array (which the first call sorted in
    place), it yields the same list. *)
Theorem recentTasks_top5 (Date_parse : string -> option Z) (data : list Task.t) :
  (List.length (Dashboard.sortedTasks Date_parse data) <= 5)%nat /\
  List.length (Dashboard.sortedTasks Date_parse data) = Nat.min 5 (List.length data) /\
  (Spec.validDates Date_parse data ->
   Spec.descending Date_parse (Dashboard.sortedTasks Date_parse data) /\
   Permutation (Dashboard.sortedTasks Date_parse data
                ++ skipn 5 (Dashboard.sortedInPlace Date_parse data)) data /\
   (forall kept dropped,
       In kept (Dashboard.sortedTasks Date_parse data) ->
       In dropped (skipn 5 (Dashboard.sortedInPlace Date_parse data)) ->
       Spec.timeOf Date_parse dropped <= Spec.timeOf Date_parse kept) /\
   Dashboard.sortedTasks Date_parse (Dashboard.sortedTasks Date_parse data)
     = Dashboard.sortedTasks Date_parse data /\
   Dashboard.sortedTasks Date_parse (Dashboard.sortedInPlace Date_parse data)
     = Dashboard.sortedTasks Date_parse data).
Proof.
  unfold Dashboard.sortedTasks, Dashboard.sortedInPlace.
  assert (Hlen : List.length (firstn 5 (JS.sort (Dashboard.byCreatedDesc Date_parse) data))
                 = Nat.min 5 (List.length data)).
  { rewrite length_firstn.
    now rewrite (Permutation_length (sort_perm Date_parse data)). }
  split; [rewrite Hlen; apply Nat.le_min_l |]. split; [exact Hlen |].
  intros Hv.
  pose proof (sort_descending Date_parse data Hv) as Hs.
  pose proof (sort_valid Date_parse data Hv) as Hvs.
  split; [now apply firstn_descending |].
  split; [rewrite firstn_skipn; apply sort_perm |].
  split; [intros kept dropped Hk Hd;
          exact (sorted_firstn_skipn _ 5 _ Hs kept dropped Hk Hd) |].
  split.
  - rewrite (sort_fixed Date_parse (firstn 5 _)).
    + apply firstn_firstn.
    + now apply firstn_valid.
    + now apply firstn_descending.
  - now rewrite (sort_fixed Date_parse _ Hvs Hs).
Qed.

(** The seven sample tasks were created on seven successive days: the
    five newest come out, newest first, and deriving again from that
    result changes nothing. *)
Lemma recentTasks_top5_witness :
  map Task.id (Dashboard.sortedTasks Sample.Date_parse Sample.tasks)
    = ["t3"; "t7"; "t5"; "t6"; "t1"]%string /\
  Spec.descending Sample.Date_parse
    (Dashboard.sortedTasks Sample.Date_parse Sample.tasks) /\
  Dashboard.sortedTasks Sample.Date_parse
    (Dashboard.sortedTasks Sample.Date_parse Sample.tasks)
    = Dashboard.sortedTasks Sample.Date_parse Sample.tasks.
Proof.
  assert (Hv : Spec.validDates Sample.Date_parse Sample.tasks)
    by (repeat constructor; discriminate).
  pose proof (proj2 (proj2 (recentTasks_top5 Sample.Date_parse Sample.tasks)) Hv)
    as [Hd [_ [_ [Hi _]]]].
  split; [reflexivity |]. split; [exact Hd | exact Hi].
Defined.

(** ** Completion rate *)

(** *** Rounding to binary64 *)

Lemma rne_error (n d : Z) : 0 < d -> 2 * Z.abs (Float64.rne n d * d - n) <= d.
Proof.
  intros Hd. unfold Float64.rne.
  pose proof (Z.div_mod n d ltac:(lia)) as E.
  pose proof (Z.mod_pos_bound n d Hd) as B.
  set (q := n / d) in *. set (r := n mod d) in *.
  destruct (Z.ltb_spec (2 * r) d); [lia |].
  destruct (Z.ltb_spec d (2 * r)); [lia |].
  destruct (Z.even q); lia.
Qed.

Lemma rne_exact (n d k : Z) : 0 < d -> n = k * d -> Float64.rne n d = k.
Proof.
  intros Hd ->. unfold Float64.rne.
  rewrite Z.div_mul, Z.mod_mul by lia.
  destruct (Z.ltb_spec (2 * 0) d); [reflexivity | lia].
Qed.

Lemma rne_Q_error (y : Q) :
  (Qabs (inject_Z (Float64.rne (Qnum y) (Zpos (Qden y))) - y) <= 1 # 2)%Q.
Proof.
  pose proof (rne_error (Qnum y) (Zpos (Qden y)) ltac:(lia)) as H.
  set (m := Float64.rne _ _) in *.
  apply Qabs_Qle_condition. destruct y as [n d]. cbn [Qnum Qden] in *.
  unfold Qle, Qminus, Qplus, Qopp, inject_Z. cbn [Qnum Qden]. lia.
Qed.

Lemma pow2_pos (e : Z) : (0 < Float64.pow2 e)%Q.
Proof. apply Qpower_0_lt. reflexivity. Qed.

Lemma pow2_add (a b : Z) : (Float64.pow2 (a + b) == Float64.pow2 a * Float64.pow2 b)%Q.
Proof. apply Qpower_plus. discriminate. Qed.

Lemma pow2_Z (n : Z) : 0 <= n -> (Float64.pow2 n == inject_Z (2 ^ n))%Q.
Proof. intros H. unfold Float64.pow2. now rewrite (Zpower_Qpower 2 n H). Qed.

(** A positive rational lies above half the power of two given by the
    bit lengths of its numerator and denominator. *)
Lemma log2_lower (x : Q) :
  (0 < x)%Q ->
  (Float64.pow2 (Z.log2 (Qnum x) - Z.log2 (Zpos (Qden x))) < 2 * x)%Q.
Proof.
  intros Hx. destruct x as [n d]. cbn [Qnum Qden].
  assert (Hn : 0 < n) by (unfold Qlt in Hx; simpl in Hx; lia).
  pose proof (Z.log2_nonneg n) as Ha. pose proof (Z.log2_nonneg (Zpos d)) as Hb.
  destruct (Z.log2_spec n Hn) as [Hn1 _].
  destruct (Z.log2_spec (Zpos d) ltac:(lia)) as [_ Hd2].
  set (a := Z.log2 n) in *. set (b := Z.log2 (Zpos d)) in *.
  (* 2^a <= n, d < 2^(b+1):  2^(a-b) = 2^a / 2^b < 2 n / d *)
  unfold Float64.pow2. rewrite Qpower_minus by discriminate.
  fold (Float64.pow2 a). fold (Float64.pow2 b).
  rewrite (pow2_Z a Ha), (pow2_Z b Hb).
  rewrite Z.pow_succ_r in Hd2 by exact Hb.
  assert (Hpb : 0 < 2 ^ b) by (apply Z.pow_pos_nonneg; lia).
  apply Qlt_shift_div_r; [unfold Qlt; simpl; lia |].
  unfold Qlt, Qmult, inject_Z. cbn [Qnum Qden]. nia.
Qed.

Lemma ulp_exp_lower (x : Q) :
  (0 < x)%Q -> (Float64.pow2 52 <= x / Float64.pow2 (Float64.ulp_exp x))%Q.
Proof.
  intros Hx. pose proof (log2_lower x Hx) as Hlow.
  unfold Float64.ulp_exp.
  set (e0 := Z.log2 (Qnum x) - Z.log2 (Zpos (Qden x))) in *.
  assert (H53 : (Float64.pow2 53 == 2 * Float64.pow2 52)%Q) by reflexivity.
  pose proof (pow2_pos e0) as HA. pose proof (pow2_pos 52) as HB.
  pose proof (pow2_pos 53) as HC.
  destruct (Qle_bool (Float64.pow2 e0) x) eqn:E.
  - apply Qle_bool_iff in E.
    apply Qle_shift_div_l; [apply pow2_pos |].
    unfold Float64.pow2 at 2. rewrite Qpower_minus by discriminate.
    fold (Float64.pow2 e0). fold (Float64.pow2 52).
    set (A := Float64.pow2 e0) in *. set (B := Float64.pow2 52) in *.
    setoid_replace (B * (A / B))%Q with A by (field; lra).
    exact E.
  - apply Qle_shift_div_l; [apply pow2_pos |].
    unfold Float64.pow2 at 2. rewrite Qpower_minus by discriminate.
    fold (Float64.pow2 e0). fold (Float64.pow2 53).
    set (A := Float64.pow2 e0) in *. set (B := Float64.pow2 52) in *.
    set (C := Float64.pow2 53) in *.
    setoid_replace (B * (A / C))%Q with (A * (1 # 2))%Q
      by (rewrite H53; field; lra).
    lra.
Qed.

Lemma log2_upper (x : Q) :
  (0 < x)%Q ->
  (x < 2 * Float64.pow2 (Z.log2 (Qnum x) - Z.log2 (Zpos (Qden x))))%Q.
Proof.
  intros Hx. destruct x as [n d]. cbn [Qnum Qden].
  assert (Hn : 0 < n) by (unfold Qlt in Hx; simpl in Hx; lia).
  pose proof (Z.log2_nonneg n) as Ha. pose proof (Z.log2_nonneg (Zpos d)) as Hb.
  destruct (Z.log2_spec n Hn) as [_ Hn2].
  destruct (Z.log2_spec (Zpos d) ltac:(lia)) as [Hd1 _].
  set (a := Z.log2 n) in *. set (b := Z.log2 (Zpos d)) in *.
  unfold Float64.pow2. rewrite Qpower_minus by discriminate.
  fold (Float64.pow2 a). fold (Float64.pow2 b).
  rewrite (pow2_Z a Ha), (pow2_Z b Hb).
  rewrite Z.pow_succ_r in Hn2 by exact Ha.
  assert (Hpb : 0 < 2 ^ b) by (apply Z.pow_pos_nonneg; lia).
  assert (Hpa : 0 < 2 ^ a) by (apply Z.pow_pos_nonneg; lia).
  setoid_replace (2 * (inject_Z (2 ^ a) / inject_Z (2 ^ b)))%Q
    with (2 * inject_Z (2 ^ a) / inject_Z (2 ^ b))%Q
    by (field; intros H; unfold Qeq in H; simpl in H; lia).
  apply Qlt_shift_div_l; [unfold Qlt; simpl; lia |].
  unfold Qlt, Qmult, inject_Z. cbn [Qnum Qden]. nia.
Qed.

(** The exponent chosen by [ulp_exp] leaves a 53-bit significand. *)
Lemma significand_range (x : Q) :
  (0 < x)%Q ->
  (Float64.pow2 52 <= x / Float64.pow2 (Float64.ulp_exp x) < Float64.pow2 53)%Q.
Proof.
  intros Hx. split; [now apply ulp_exp_lower |].
  pose proof (log2_upper x Hx) as Hup.
  unfold Float64.ulp_exp.
  set (e0 := Z.log2 (Qnum x) - Z.log2 (Zpos (Qden x))) in *.
  assert (H53 : (Float64.pow2 53 == 2 * Float64.pow2 52)%Q) by reflexivity.
  pose proof (pow2_pos e0) as HA. pose proof (pow2_pos 52) as HB.
  pose proof (pow2_pos 53) as HC.
  destruct (Qle_bool (Float64.pow2 e0) x) eqn:E.
  - apply Qlt_shift_div_r; [apply pow2_pos |].
    unfold Float64.pow2 at 2. rewrite Qpower_minus by discriminate.
    fold (Float64.pow2 e0). fold (Float64.pow2 52).
    set (A := Float64.pow2 e0) in *. set (B := Float64.pow2 52) in *.
    set (C := Float64.pow2 53) in *.
    setoid_replace (C * (A / B))%Q with (2 * A)%Q by (rewrite H53; field; lra).
    exact Hup.
  - assert (Hlt : (x < Float64.pow2 e0)%Q).
    { apply Qnot_le_lt. intros H. apply Qle_bool_iff in H. congruence. }
    apply Qlt_shift_div_r; [apply pow2_pos |].
    unfold Float64.pow2 at 2. rewrite Qpower_minus by discriminate.
    fold (Float64.pow2 e0). fold (Float64.pow2 53).
    set (A := Float64.pow2 e0) in *. set (C := Float64.pow2 53) in *.
    setoid_replace (C * (A / C))%Q with A by (field; lra).
    exact Hlt.
Qed.

Lemma round_pos_error (x : Q) :
  (0 < x)%Q -> (Qabs (Float64.round_pos x - x) <= x * Float64.u64)%Q.
Proof.
  intros Hx. pose proof (ulp_exp_lower x Hx) as Hy.
  unfold Float64.round_pos.
  set (P := Float64.pow2 (Float64.ulp_exp x)) in *.
  assert (HP : (0 < P)%Q) by apply pow2_pos.
  set (y := (x / P)%Q) in *.
  pose proof (rne_Q_error y) as Hm.
  set (m := inject_Z (Float64.rne (Qnum y) (Zpos (Qden y)))) in *.
  assert (Exy : (x == y * P)%Q) by (unfold y; field; lra).
  setoid_replace (m * P - x)%Q with ((m - y) * P)%Q by (rewrite Exy; ring).
  rewrite Qabs_Qmult, (Qabs_pos P) by lra.
  rewrite Exy.
  assert (H52 : (Float64.pow2 52 * Float64.u64 == 1 # 2)%Q) by reflexivity.
  assert (Hhalf : ((1 # 2) <= y * Float64.u64)%Q).
  { rewrite <- H52. apply Qmult_le_compat_r; [exact Hy | discriminate]. }
  setoid_replace (y * P * Float64.u64)%Q with (y * Float64.u64 * P)%Q by ring.
  apply Qmult_le_compat_r; [lra | lra].
Qed.

Lemma round_error (x : Q) :
  (0 <= x)%Q -> (Qabs (Float64.round x - x) <= x * Float64.u64)%Q.
Proof.
  intros Hx. unfold Float64.round. destruct x as [n d]. cbn [Qnum].
  destruct n as [|p|p].
  - apply Qabs_Qle_condition. unfold Qle, Qminus, Qplus, Qopp, Qmult, Float64.u64; simpl; lia.
  - apply round_pos_error. reflexivity.
  - exfalso. unfold Qle in Hx. simpl in Hx. lia.
Qed.

Lemma rne_Q_exact (y : Q) (k : Z) :
  (y == inject_Z k)%Q -> Float64.rne (Qnum y) (Zpos (Qden y)) = k.
Proof.
  intros H. apply rne_exact; [lia |].
  unfold Qeq, inject_Z in H. cbn [Qnum Qden] in H. lia.
Qed.

(** Integers below 2^53 are binary64 values. *)
Lemma round_small_integer (n : Z) :
  0 <= n < 2 ^ 53 -> (Float64.round (inject_Z n) == inject_Z n)%Q.
Proof.
  intros [H0 H53]. unfold Float64.round. cbn [Qnum inject_Z].
  destruct n as [|p|p]; [reflexivity | | lia].
  change (Z.pos p # 1) with (inject_Z (Z.pos p)).
  set (n := Z.pos p) in *. assert (Hn : 0 < n) by (unfold n; lia).
  destruct (Z.log2_spec n Hn) as [Hlo _].
  assert (Ha : 0 <= Z.log2 n <= 52).
  { split; [apply Z.log2_nonneg |]. apply Z.lt_succ_r.
    apply (Z.log2_lt_pow2 n 53); lia. }
  assert (Ee : Float64.ulp_exp (inject_Z n) = Z.log2 n - 52).
  { unfold Float64.ulp_exp. cbn [Qnum Qden inject_Z].
    change (Z.log2 1) with 0. rewrite Z.sub_0_r.
    assert (E : Qle_bool (Float64.pow2 (Z.log2 n)) (inject_Z n) = true).
    { apply Qle_bool_iff. rewrite pow2_Z by lia. rewrite <- Zle_Qle. exact Hlo. }
    now rewrite E. }
  unfold Float64.round_pos. rewrite Ee.
  set (a := Z.log2 n) in *.
  assert (Einv : (Float64.pow2 (52 - a) * Float64.pow2 (a - 52) == 1)%Q).
  { rewrite <- pow2_add. now replace (52 - a + (a - 52)) with 0 by lia. }
  pose proof (pow2_pos (a - 52)) as HP. pose proof (pow2_pos (52 - a)) as HR.
  assert (Ey : (inject_Z n / Float64.pow2 (a - 52) == inject_Z (n * 2 ^ (52 - a)))%Q).
  { rewrite inject_Z_mult, <- pow2_Z by lia.
    set (P := Float64.pow2 (a - 52)) in *. set (R := Float64.pow2 (52 - a)) in *.
    apply Qmult_inj_r with (z := P); [lra |].
    setoid_replace (inject_Z n / P * P)%Q with (inject_Z n) by (field; lra).
    setoid_replace (inject_Z n * R * P)%Q with (inject_Z n * (R * P))%Q by ring.
    rewrite Einv. ring. }
  rewrite (rne_Q_exact _ _ Ey).
  rewrite inject_Z_mult, <- pow2_Z by lia.
  set (P := Float64.pow2 (a - 52)) in *. set (R := Float64.pow2 (52 - a)) in *.
  setoid_replace (inject_Z n * R * P)%Q with (inject_Z n * (R * P))%Q by ring.
  rewrite Einv. ring.
Qed.

Lemma completion_bounds (c t : Z) :
  0 < t < 2 ^ 53 -> 0 <= c < 2 ^ 44 ->
  let r := Float64.Math_round
             (Float64.mul (Float64.div (Float64.round (inject_Z c))
                                       (Float64.round (inject_Z t))) 100) in
  2 * r * t < 200 * c + t + 1 /\ 200 * c + t - 1 < 2 * (r + 1) * t.
Proof.
  intros Ht Hc r.
  pose proof (round_small_integer c ltac:(lia)) as Ec.
  pose proof (round_small_integer t ltac:(lia)) as Et.
  unfold Float64.Math_round, Float64.mul, Float64.div in r.
  set (z1 := (Float64.round (inject_Z c) / Float64.round (inject_Z t))%Q) in *.
  set (q := Float64.round z1) in *.
  set (z2 := (q * 100)%Q) in *.
  set (p := Float64.round z2) in *.
  assert (HT : (0 < inject_Z t)%Q) by (change 0%Q with (inject_Z 0); rewrite <- Zlt_Qlt; lia).
  assert (HC0 : (0 <= inject_Z c)%Q) by (change 0%Q with (inject_Z 0); rewrite <- Zle_Qle; lia).
  assert (HC1 : (inject_Z c <= inject_Z (2 ^ 44 - 1))%Q) by (rewrite <- Zle_Qle; lia).
  assert (Ez1 : (z1 * inject_Z t == inject_Z c)%Q).
  { unfold z1. rewrite Ec, Et. field. lra. }
  assert (Hz1 : (0 <= z1)%Q).
  { unfold z1. rewrite Ec, Et. apply Qle_shift_div_l; lra. }
  pose proof (round_error z1 Hz1) as H1. fold q in H1.
  apply Qabs_Qle_condition in H1. unfold Float64.u64 in H1.
  assert (Hq : (0 <= q)%Q) by lra.
  assert (Hz2 : (0 <= z2)%Q) by (unfold z2; lra).
  pose proof (round_error z2 Hz2) as H2. fold p in H2.
  apply Qabs_Qle_condition in H2. unfold Float64.u64, z2 in H2.
  pose proof (Qfloor_le (p + (1 # 2))) as Hr1.
  pose proof (Qlt_floor (p + (1 # 2))) as Hr2.
  fold r in Hr1, Hr2. rewrite inject_Z_plus in Hr2.
  set (R := inject_Z r) in *. set (T := inject_Z t) in *. set (C := inject_Z c) in *.
  change (inject_Z 1) with 1%Q in Hr2.
  change (inject_Z (2 ^ 44 - 1)) with (17592186044415 # 1)%Q in HC1.
  assert (Hup : (2 * R * T < 200 * C + T + 1)%Q).
  { assert (Hlin : (R <= 100 * (1 + (1 # 9007199254740992)) * (1 + (1 # 9007199254740992)) * z1 + (1 # 2))%Q) by lra.
    assert (Hmul : (R * T <= (100 * (1 + (1 # 9007199254740992)) * (1 + (1 # 9007199254740992)) * z1 + (1 # 2)) * T)%Q)
      by (apply Qmult_le_compat_r; lra).
    setoid_replace ((100 * (1 + (1 # 9007199254740992)) * (1 + (1 # 9007199254740992)) * z1 + (1 # 2)) * T)%Q
      with (100 * (1 + (1 # 9007199254740992)) * (1 + (1 # 9007199254740992)) * (z1 * T) + (1 # 2) * T)%Q
      in Hmul by ring.
    rewrite Ez1 in Hmul. lra. }
  assert (Hlo : (200 * C + T - 1 < 2 * (R + 1) * T)%Q).
  { assert (Hlin : (100 * (1 - (1 # 9007199254740992)) * (1 - (1 # 9007199254740992)) * z1 + (1 # 2) < R + 1)%Q) by lra.
    assert (Hmul : ((100 * (1 - (1 # 9007199254740992)) * (1 - (1 # 9007199254740992)) * z1 + (1 # 2)) * T < (R + 1) * T)%Q)
      by (apply Qmult_lt_compat_r; lra).
    setoid_replace ((100 * (1 - (1 # 9007199254740992)) * (1 - (1 # 9007199254740992)) * z1 + (1 # 2)) * T)%Q
      with (100 * (1 - (1 # 9007199254740992)) * (1 - (1 # 9007199254740992)) * (z1 * T) + (1 # 2) * T)%Q
      in Hmul by ring.
    rewrite Ez1 in Hmul. lra. }
  unfold R, T, C in Hup, Hlo. split.
  - rewrite Zlt_Qlt. rewrite !inject_Z_plus, !inject_Z_mult. exact Hup.
  - rewrite Zlt_Qlt. unfold Z.sub. rewrite !inject_Z_plus, !inject_Z_mult, !inject_Z_plus.
    exact Hlo.
Qed.

(** The rational model computes what the standard library's IEEE-754
    specification computes, on every pair [completed <= total <= 100]. *)
Lemma float_model_agrees :
  forallb (fun t => forallb (fun c => Float64.agreesWithSF (N.of_nat c) (N.of_nat t))
                            (seq 0 (S t)))
          (seq 1 100) = true.
Proof. vm_compute. reflexivity. Qed.

Lemma float_model_agrees_at_tie : Float64.agreesWithSF 23 40 = true.
Proof. vm_compute. reflexivity. Qed.

Lemma completionRate_unfold (s : Stats.t) :
  (0 < Stats.total_tasks s)%N -> (Stats.total_tasks s < 2 ^ 53)%N ->
  Dashboard.completionRate (Some s) =
    Float64.Math_round
      (Float64.mul (Float64.div (Float64.round (inject_Z (Z.of_N (Stats.completed_tasks s))))
                                (Float64.round (inject_Z (Z.of_N (Stats.total_tasks s)))))
                   100).
Proof.
  intros H0 H53. unfold Dashboard.completionRate, Float64.of_N.
  assert (E : Qle_bool (Float64.round (inject_Z (Z.of_N (Stats.total_tasks s)))) 0 = false).
  { apply not_true_is_false. intros H. apply Qle_bool_iff in H.
    rewrite round_small_integer in H by lia.
    change 0%Q with (inject_Z 0) in H. rewrite <- Zle_Qle in H. lia. }
  now rewrite E.
Qed.

(** C1, as worded, fails at a tie: 23 of 40 tasks is 57.5 percent, which
    rounds to 58 under round-half-up and under round-half-even, and also
    when [100 * 23 / 40] is evaluated in double precision in that order;
    the double-precision product [(23 / 40) * 100] is just below 57.5 and
    the dashboard shows 57. *)
Lemma completionRate_tie_rounds_down :
  let stats := Stats.mk 3 40 23 10 7 0 in
  Dashboard.completionRate (Some stats) = 57 /\
  Spec.roundHalfUp (100 * 23) 40 = 58 /\
  Spec.roundHalfEven (100 * 23) 40 = 58 /\
  Float64.Math_round
    (Float64.div (Float64.mul 100 (Float64.of_N 23)) (Float64.of_N 40)) = 58 /\
  Dashboard.completionRate (Some stats) <> Spec.roundHalfUp (100 * 23) 40.
Proof. vm_compute. repeat split; congruence. Qed.

(** C1 (amended).  The displayed completion rate is 0 when the statistics
    are absent or [total_tasks] is 0.  When [total_tasks > 0] (counters
    below 2^53 and 2^44) it is [Math.round] of the double-precision value
    [(completed / total) * 100], which is an integer within one half of
    [100 * completed / total]: it is the round-half-up value of the exact
    quotient, except that when the exact quotient lies halfway between
    two integers the integer below may be shown instead.  In particular
    {total:0} gives 0, {total:10, completed:3} gives 30 and {total:3,
    completed:1} gives 33. *)
Theorem completionRate_nearest :
  Dashboard.completionRate None = 0 /\
  (forall s, Stats.total_tasks s = 0%N -> Dashboard.completionRate (Some s) = 0) /\
  (forall s,
      let t := Z.of_N (Stats.total_tasks s) in
      let c := Z.of_N (Stats.completed_tasks s) in
      let r := Dashboard.completionRate (Some s) in
      0 < t < 2 ^ 53 -> c < 2 ^ 44 ->
      2 * Z.abs (r * t - 100 * c) <= t /\
      (r = Spec.roundHalfUp (100 * c) t \/
       ((200 * c + t) mod (2 * t) = 0 /\ r = Spec.roundHalfUp (100 * c) t - 1))) /\
  (forall e p i o, Dashboard.completionRate (Some (Stats.mk e 0 0 p i o)) = 0) /\
  (forall e p i o, Dashboard.completionRate (Some (Stats.mk e 10 3 p i o)) = 30) /\
  (forall e p i o, Dashboard.completionRate (Some (Stats.mk e 3 1 p i o)) = 33).
Proof.
  split; [reflexivity |]. split; [| split; [| repeat split]].
  - intros s H. unfold Dashboard.completionRate. now rewrite H.
  - intros s t c r Ht Hc.
    assert (Hc0 : 0 <= c) by apply N2Z.is_nonneg.
    pose proof (completion_bounds c t Ht (conj Hc0 Hc)) as [Hup Hlo].
    unfold r. rewrite completionRate_unfold by (fold t; lia).
    fold t c. set (m := Float64.Math_round _) in *.
    unfold Spec.roundHalfUp.
    assert (Hdiv : 2 * (100 * c) + t = 2 * t * ((2 * (100 * c) + t) / (2 * t))
                                       + (2 * (100 * c) + t) mod (2 * t))
      by (apply Z.div_mod; lia).
    pose proof (Z.mod_pos_bound (2 * (100 * c) + t) (2 * t) ltac:(lia)) as Hmod.
    replace (200 * c + t) with (2 * (100 * c) + t) by lia.
    set (k := (2 * (100 * c) + t) / (2 * t)) in *.
    set (w := (2 * (100 * c) + t) mod (2 * t)) in *.
    split; [lia |].
    assert (Hm : m = k \/ m = k - 1) by nia.
    destruct Hm as [-> | ->]; [now left | right].
    split; [nia | reflexivity].
Qed.

(** With 23 of 40 tasks completed the dashboard shows 57: within one half
    of 57.5, and one below the round-half-up value because 57.5 is a
    tie. *)
Lemma completionRate_nearest_witness :
  let r := Dashboard.completionRate (Dashboard.stats Sample.dashboardState) in
  r = 57 /\
  2 * Z.abs (r * 40 - 100 * 23) <= 40 /\
  (r = Spec.roundHalfUp (100 * 23) 40 \/
   ((200 * 23 + 40) mod (2 * 40) = 0 /\ r = Spec.roundHalfUp (100 * 23) 40 - 1)).
Proof.
  split; [vm_compute; reflexivity |].
  apply (proj1 (proj2 (proj2 completionRate_nearest)) (Stats.mk 3 40 23 10 7 0)).
  - split; reflexivity.
  - reflexivity.
Defined.


(** * Further properties of the views *)

(** ** Initials and badge texts *)

Lemma slice02_firstn (s : list Z) : JS.slice02 s = firstn 2 s.
Proof. destruct s as [|a [|b s]]; reflexivity. Qed.

Lemma slice02_length (s : list Z) : (List.length (JS.slice02 s) <= 2)%nat.
Proof. destruct s as [|a [|b s]]; simpl; lia. Qed.

Lemma slice02_empty (s : list Z) : JS.slice02 s = [] <-> s = [].
Proof. destruct s as [|a [|b s]]; simpl; split; congruence. Qed.

Lemma splitUnits_nonempty (sep : Z) (s : list Z) : JS.splitUnits sep s <> [].
Proof.
  destruct s as [|c s]; simpl; [discriminate |].
  destruct (c =? sep); [discriminate |].
  destruct (JS.splitUnits sep s); discriminate.
Qed.

(** The pipeline split / first code units / join picks the code units
    that start a word. *)
Lemma firsts_wordStarts (s : list Z) :
  JS.joinChars (map JS.index0 (JS.splitUnits JS.space s)) = Spec.wordStartsFrom true s /\
  JS.joinChars (map JS.index0 (tl (JS.splitUnits JS.space s))) = Spec.wordStartsFrom false s.
Proof.
  unfold JS.space.
  induction s as [|c s [IH1 IH2]]; simpl; [split; reflexivity |].
  destruct (c =? 32); simpl; [split; exact IH1 |].
  destruct (JS.splitUnits 32 s) as [|w ws] eqn:E.
  - now destruct (splitUnits_nonempty 32 s).
  - simpl in *. split; [now rewrite IH2 | exact IH2].
Qed.

Lemma wordStarts_empty (s : list Z) :
  Spec.wordStartsFrom true s = [] <-> Spec.blank s = true.
Proof.
  unfold Spec.blank. induction s as [|c s IH]; [simpl; tauto |].
  cbn [forallb Spec.wordStartsFrom].
  rewrite (Z.eqb_sym 32 c). destruct (c =? 32); simpl; [exact IH |].
  split; discriminate.
Qed.

Lemma wordStartsFrom_Forall (P : Z -> Prop) (atStart : bool) (s : list Z) :
  Forall P s -> Forall P (Spec.wordStartsFrom atStart s).
Proof.
  intros H. revert atStart. induction H as [|c s Hc _ IH]; intros b; simpl; [constructor |].
  destruct (c =? 32); [apply IH |]. destruct b; [constructor; [exact Hc |] |]; apply IH.
Qed.

Lemma special_in (c : Z) (l : list (Z * list Z)) (m : list Z) :
  Unicode.special c l = Some m -> In m (map snd l).
Proof.
  induction l as [|[c' m'] l IH]; simpl; [discriminate |].
  destruct (c =? c'); [intros [= ->]; now left | intros H; right; now apply IH].
Qed.

(** No code point upper-cases to nothing. *)
Lemma upperCodePoint_nonempty (c : Z) : Unicode.upperCodePoint c <> [].
Proof.
  unfold Unicode.upperCodePoint, Unicode.mapping.
  destruct (Unicode.special c Unicode.upperSpecial) as [m |] eqn:E.
  - apply special_in in E.
    assert (H : forallb (fun m => negb (Nat.eqb (List.length m) 0))
                        (map snd Unicode.upperSpecial) = true)
      by (vm_compute; reflexivity).
    rewrite forallb_forall in H. specialize (H m E). now destruct m.
  - destruct (Unicode.simple c Unicode.upperRanges); discriminate.
Qed.

Lemma toUpperCase_empty (s : list Z) : JS.toUpperCase s = [] <-> s = [].
Proof.
  split; [| intros ->; reflexivity].
  unfold JS.toUpperCase, Unicode.toUppercase. intros H.
  destruct (JS.codePoints s) as [|cp rest] eqn:E.
  - destruct s as [|a [|b s]]; [reflexivity | discriminate |].
    change (JS.codePoints (a :: b :: s))
      with (if JS.isHighSurrogate a && JS.isLowSurrogate b
            then (65536 + (a - 55296) * 1024 + (b - 56320)) :: JS.codePoints s
            else a :: JS.codePoints (b :: s)) in E.
    destruct (JS.isHighSurrogate a && JS.isLowSurrogate b); discriminate.
  - exfalso. cbn [flat_map] in H.
    destruct (Unicode.upperCodePoint cp) as [|x m] eqn:Ex;
      [now apply (upperCodePoint_nonempty cp) |].
    cbn [app flat_map] in H. unfold JS.utf16 in H.
    destruct (x <? 65536); discriminate.
Qed.

(** X1.  [getInitials], the same function in the navigation bar and in
    the user-management view: the result is made of the first code units
    of the words of the name (runs of code units other than the space, so
    that leading, trailing and repeated spaces do not count), upper-cased,
    cut after two code units.  It has at most two code units and is empty
    exactly when the name has no character other than the space.  For a
    name written below U+0080 the result is the first two word starts
    with the small letters [a]..[z] turned into capitals and nothing else
    changed. *)
Theorem getInitials_word_starts (name : string) :
  UserManagement.getInitials name
    = JS.slice02 (JS.toUpperCase (Spec.wordStarts (JS.units name))) /\
  Navigation.getInitials name = UserManagement.getInitials name /\
  (List.length (UserManagement.getInitials name) <= 2)%nat /\
  (UserManagement.getInitials name = [] <-> Spec.blank (JS.units name) = true) /\
  UserManagement.getInitials (" " ++ name) = UserManagement.getInitials name /\
  (Spec.asciiText name = true ->
   UserManagement.getInitials name
     = map Spec.capitalLetter (firstn 2 (Spec.wordStarts (Spec.codes name)))).
Proof.
  unfold UserManagement.getInitials, Navigation.getInitials, JS.initialsOf, Spec.wordStarts.
  rewrite (proj1 (firsts_wordStarts (JS.units name))).
  split; [reflexivity |]. split; [reflexivity |].
  split; [apply slice02_length |].
  split; [now rewrite slice02_empty, toUpperCase_empty, wordStarts_empty |].
  split.
  { change (JS.units (" " ++ name)) with (32 :: JS.units name).
    now rewrite (proj1 (firsts_wordStarts (32 :: JS.units name))). }
  intros H. rewrite (units_ascii name H), slice02_firstn.
  rewrite toUpperCase_ascii
    by (apply wordStartsFrom_Forall, codes_below_128, H).
  apply firstn_map.
Qed.

(** The sample admin, "Ada Admin", gets "AA"; small letters become
    capitals, also outside [a]..[z]; a sharp s, whose capital is "SS",
    fills both places; and of a character outside the basic plane only
    the first half is taken. *)
Lemma getInitials_word_starts_witness :
  UserManagement.getInitials (User.full_name Sample.admin) = JS.units "AA" /\
  UserManagement.getInitials " john  doe " = JS.units "JD" /\
  UserManagement.getInitials "émile zola" = JS.units "ÉZ" /\
  UserManagement.getInitials "ßeta" = JS.units "SS" /\
  UserManagement.getInitials "😀 smith" = [55357; 83].
Proof.
  split.
  - exact (eq_trans
             (proj2 (proj2 (proj2 (proj2 (proj2
                (getInitials_word_starts (User.full_name Sample.admin)))))) eq_refl)
             eq_refl).
  - split; [vm_compute; reflexivity |]. split; [vm_compute; reflexivity |].
    split; vm_compute; reflexivity.
Defined.

(** ** Badges *)

Lemma asciiText_app (a b : string) :
  Spec.asciiText (a ++ b) = (Spec.asciiText a && Spec.asciiText b)%bool.
Proof.
  induction a as [|c a IH]; simpl; [reflexivity |]. now rewrite IH, andb_assoc.
Qed.

Lemma codes_length (s : string) : List.length (Spec.codes s) = String.length s.
Proof.
  unfold Spec.codes. induction s as [|c s IH]; simpl; [reflexivity |]. now rewrite IH.
Qed.

Lemma replaceFirst_length (a b : Z) (s : list Z) :
  List.length (JS.replaceFirst a b s) = List.length s.
Proof.
  induction s as [|c s IH]; simpl; [reflexivity |].
  destruct (c =? a); simpl; [reflexivity | now rewrite IH].
Qed.

Lemma replaceFirst_below_128 (s : list Z) :
  Forall (fun x => 0 <= x < 128) s ->
  Forall (fun x => 0 <= x < 128) (JS.replaceFirst JS.underscore JS.space s).
Proof.
  induction 1 as [|c s Hc Hs IH]; simpl; [constructor |].
  destruct (c =? JS.underscore); constructor; try assumption.
  unfold JS.space. lia.
Qed.

Lemma code_underscore (c : ascii) :
  Ascii.eqb c "_" = (Z.of_N (N_of_ascii c) =? JS.underscore).
Proof.
  destruct (Ascii.eqb_spec c "_") as [-> | Hne]; [reflexivity |].
  symmetry. apply Z.eqb_neq. intros H. apply Hne.
  rewrite <- (ascii_N_embedding c).
  replace (N_of_ascii c) with 95%N by (unfold JS.underscore in H; lia).
  reflexivity.
Qed.

Lemma replaceFirst_absent (s : string) :
  Spec.lacks "_" s = true ->
  JS.replaceFirst JS.underscore JS.space (Spec.codes s) = Spec.codes s.
Proof.
  unfold Spec.codes.
  induction s as [|c s IH];
    cbn [list_ascii_of_string map JS.replaceFirst Spec.lacks]; [reflexivity |].
  rewrite <- code_underscore.
  destruct (Ascii.eqb c "_"); simpl; [discriminate | intros H; now rewrite IH].
Qed.

Lemma replaceFirst_first (pre suf : string) :
  Spec.lacks "_" pre = true ->
  JS.replaceFirst JS.underscore JS.space (Spec.codes (pre ++ "_" ++ suf))
  = Spec.codes (pre ++ " " ++ suf).
Proof.
  unfold Spec.codes.
  change ("_" ++ suf)%string with (String "_" suf).
  change (" " ++ suf)%string with (String " " suf).
  induction pre as [|c pre IH];
    cbn [append list_ascii_of_string map JS.replaceFirst Spec.lacks].
  - reflexivity.
  - rewrite <- code_underscore.
    destruct (Ascii.eqb c "_"); simpl; [discriminate | intros H; now rewrite IH].
Qed.

(** On a text below U+0080, [v.charAt(0).toUpperCase() + v.slice(1)]
    turns a small first letter into its capital and changes nothing
    else. *)
Lemma capitalize_ascii (s : list Z) :
  Forall (fun x => 0 <= x < 128) s ->
  JS.toUpperCase (JS.charAt0 s) ++ JS.slice1 s = Spec.capitalFirst s.
Proof.
  intros H. destruct H as [|c s Hc Hs]; [reflexivity |].
  simpl JS.charAt0. rewrite toUpperCase_ascii by (constructor; [exact Hc | constructor]).
  reflexivity.
Qed.

Lemma capitalFirst_length (s : list Z) :
  List.length (Spec.capitalFirst s) = List.length s.
Proof. destruct s; reflexivity. Qed.

Lemma capitalized_ascii (s : string) :
  Spec.asciiText s = true ->
  JS.capitalized (Some s) = JS.Str (Spec.capitalFirst (Spec.codes s)).
Proof.
  intros H. unfold JS.capitalized, JS.optChain, JS.plus. cbn [option_map].
  rewrite (units_ascii s H). f_equal. apply capitalize_ascii, codes_below_128, H.
Qed.

Lemma statusLabel_ascii (s : string) :
  Spec.asciiText s = true ->
  TaskList.statusLabel (Some s)
  = JS.Str (Spec.capitalFirst (JS.replaceFirst JS.underscore JS.space (Spec.codes s))).
Proof.
  intros H. unfold TaskList.statusLabel, JS.optChain, JS.plus. cbn [option_map].
  rewrite (units_ascii s H). f_equal.
  apply capitalize_ascii, replaceFirst_below_128, codes_below_128, H.
Qed.

(** X2.  The text of a badge.  For a present value written below U+0080
    the priority and role badges show the value with a small first letter
    turned into its capital and nothing else changed; the status badge
    does the same after replacing the first underscore, and only the
    first, by a space; the text has the length of the value.  For an
    absent value both sides of the [+] are [undefined] and the badge
    shows NaN.  The dashboard and the task list build the same badges for
    a task. *)
Theorem badge_texts :
  (forall s, Spec.asciiText s = true ->
     JS.capitalized (Some s) = JS.Str (Spec.capitalFirst (Spec.codes s))) /\
  (forall s, Spec.asciiText s = true ->
     TaskList.statusLabel (Some s)
     = JS.Str (Spec.capitalFirst
                 (JS.replaceFirst JS.underscore JS.space (Spec.codes s)))) /\
  (forall s, Spec.asciiText s = true ->
     exists t u,
       JS.capitalized (Some s) = JS.Str t /\ List.length t = String.length s /\
       TaskList.statusLabel (Some s) = JS.Str u /\ List.length u = String.length s) /\
  (forall pre suf,
      Spec.asciiText pre = true -> Spec.asciiText suf = true ->
      Spec.lacks "_" pre = true ->
      TaskList.statusLabel (Some (pre ++ "_" ++ suf)%string)
        = JS.capitalized (Some (pre ++ " " ++ suf)%string)) /\
  (forall s, Spec.asciiText s = true -> Spec.lacks "_" s = true ->
             TaskList.statusLabel (Some s) = JS.capitalized (Some s)) /\
  JS.capitalized None = JS.NaN /\
  TaskList.statusLabel None = JS.NaN /\
  (forall task, Dashboard.badges task = TaskList.badges task) /\
  map (fun s => TaskList.statusLabel (Some s)) Spec.statuses
    = map (fun s => JS.Str (JS.units s))
          ["Pending"; "In progress"; "Completed"; "Cancelled"]%string /\
  map (fun p => JS.capitalized (Some p)) Spec.priorities
    = map (fun s => JS.Str (JS.units s)) ["Low"; "Medium"; "High"; "Urgent"]%string.
Proof.
  split; [exact capitalized_ascii |].
  split; [exact statusLabel_ascii |].
  split.
  { intros s H. eexists. eexists.
    split; [apply (capitalized_ascii s H) |].
    split; [now rewrite capitalFirst_length, codes_length |].
    split; [apply (statusLabel_ascii s H) |].
    now rewrite capitalFirst_length, replaceFirst_length, codes_length. }
  split.
  { intros pre suf Hp Hs H.
    rewrite statusLabel_ascii, capitalized_ascii, (replaceFirst_first pre suf H);
      [reflexivity | |]; rewrite !asciiText_app, Hp, Hs; reflexivity. }
  split.
  { intros s Hs H.
    now rewrite (statusLabel_ascii s Hs), (capitalized_ascii s Hs), (replaceFirst_absent s H). }
  split; [reflexivity |]. split; [reflexivity |]. split; [reflexivity |].
  split; vm_compute; reflexivity.
Qed.

(** Outside the letters [a]..[z] the capital can be longer than the
    letter: the badge of a value that begins with a sharp s begins with
    "SS". *)
Lemma capitalized_samples :
  JS.capitalized (Some "élan"%string) = JS.Str (JS.units "Élan") /\
  JS.capitalized (Some "ßeta"%string) = JS.Str (JS.units "SSeta") /\
  TaskList.statusLabel (Some "in_progress_now"%string)
    = JS.Str (JS.units "In progress_now").
Proof.
  split; [vm_compute; reflexivity |]. split; vm_compute; reflexivity.
Qed.

(** ** Badge colours *)

Ltac cases_eqb :=
  repeat match goal with
         | |- context [String.eqb ?x ?y] => destruct (String.eqb_spec x y); subst
         | H : context [String.eqb ?x ?y] |- _ => destruct (String.eqb_spec x y); subst
         end.

(** X3.  Badge colours.  The dashboard and the task list colour a status
    and a priority alike, and the navigation bar and the user-management
    view colour a role alike.  Within each vocabulary the classes are
    pairwise distinct: a value of the vocabulary shares its class with no
    other string.  A string gets the gray class exactly when it is not in
    the vocabulary. *)
Theorem badge_colours :
  (forall s, Dashboard.getStatusColor s = TaskList.getStatusColor s) /\
  (forall p, Dashboard.getPriorityColor p = TaskList.getPriorityColor p) /\
  (forall r, Navigation.getRoleBadgeColor r = UserManagement.getRoleBadgeColor r) /\
  (forall a b, In a Spec.statuses ->
               TaskList.getStatusColor a = TaskList.getStatusColor b -> a = b) /\
  (forall a b, In a Spec.priorities ->
               TaskList.getPriorityColor a = TaskList.getPriorityColor b -> a = b) /\
  (forall a b, In a Spec.roles ->
               UserManagement.getRoleBadgeColor a = UserManagement.getRoleBadgeColor b ->
               a = b) /\
  (forall s, TaskList.getStatusColor s = Spec.gray <-> ~ In s Spec.statuses) /\
  (forall p, TaskList.getPriorityColor p = Spec.gray <-> ~ In p Spec.priorities) /\
  (forall r, UserManagement.getRoleBadgeColor r = Spec.gray <-> ~ In r Spec.roles).
Proof.
  split; [reflexivity |]. split; [reflexivity |]. split; [reflexivity |].
  split; [| split; [| split; [| split; [| split]]]].
  - intros a b Ha. unfold TaskList.getStatusColor.
    simpl in Ha. destruct Ha as [<- | [<- | [<- | [<- | []]]]]; simpl;
      cases_eqb; congruence.
  - intros a b Ha. unfold TaskList.getPriorityColor.
    simpl in Ha. destruct Ha as [<- | [<- | [<- | [<- | []]]]]; simpl;
      cases_eqb; congruence.
  - intros a b Ha. unfold UserManagement.getRoleBadgeColor.
    simpl in Ha. destruct Ha as [<- | [<- | [<- | []]]]; simpl;
      cases_eqb; congruence.
  - intros s. unfold TaskList.getStatusColor, Spec.gray. simpl.
    cases_eqb; split; intros H; try discriminate; try tauto;
      try (exfalso; apply H; tauto).
    intros [E | [E | [E | [E | []]]]]; congruence.
  - intros p. unfold TaskList.getPriorityColor, Spec.gray. simpl.
    cases_eqb; split; intros H; try discriminate; try tauto;
      try (exfalso; apply H; tauto).
    intros [E | [E | [E | [E | []]]]]; congruence.
  - intros r. unfold UserManagement.getRoleBadgeColor, Spec.gray. simpl.
    cases_eqb; split; intros H; try discriminate; try tauto;
      try (exfalso; apply H; tauto).
    intros [E | [E | [E | []]]]; congruence.
Qed.

(** ** Assignee names *)

Lemma getUserName_first (users pre suf : list User.t) (u : User.t) (userId : string) :
  users = pre ++ u :: suf ->
  User.id u = userId ->
  (forall v, In v pre -> User.id v <> userId) ->
  TaskList.getUserName users userId = User.full_name u.
Proof.
  intros -> Hu Hpre. unfold TaskList.getUserName.
  induction pre as [|v pre IH]; simpl.
  - subst userId. now rewrite String.eqb_refl.
  - assert (Hv : String.eqb (User.id v) userId = false)
      by (apply String.eqb_neq, Hpre; now left).
    rewrite Hv. apply IH. intros w Hw. apply Hpre. now right.
Qed.

Lemma getUserName_none (users : list User.t) (userId : string) :
  (forall v, In v users -> User.id v <> userId) ->
  TaskList.getUserName users userId = "Unassigned"%string.
Proof.
  intros H. unfold TaskList.getUserName.
  induction users as [|v users IH]; simpl; [reflexivity |].
  assert (Hv : String.eqb (User.id v) userId = false)
    by (apply String.eqb_neq, H; now left).
  rewrite Hv. apply IH. intros w Hw. apply H. now right.
Qed.

(** X4.  [getUserName] looks the id up in the fetched users: when some
    user has the id, the name returned is the full name of the first
    such user; when none has, it is "Unassigned".  In particular, with
    no users fetched every assignee reads "Unassigned", and a card
    without assignee (absent or empty [assigned_to]) has no assignee
    line at all. *)
Theorem getUserName_lookup (users : list User.t) (userId : string) :
  (forall pre u suf,
      users = pre ++ u :: suf -> User.id u = userId ->
      (forall v, In v pre -> User.id v <> userId) ->
      TaskList.getUserName users userId = User.full_name u) /\
  ((forall v, In v users -> User.id v <> userId) ->
   TaskList.getUserName users userId = "Unassigned"%string) /\
  ((exists u, In u users /\ User.id u = userId) ->
   exists u, In u users /\ User.id u = userId /\
             TaskList.getUserName users userId = User.full_name u) /\
  TaskList.getUserName [] userId = "Unassigned"%string /\
  (forall st task,
      TaskList.assigneeLine st task = None <->
      Task.assigned_to task = None \/ Task.assigned_to task = Some ""%string) /\
  (forall st task a,
      Task.assigned_to task = Some a -> a <> ""%string ->
      TaskList.assigneeLine st task
        = Some (TaskList.getUserName (TaskList.users st) a)).
Proof.
  split; [intros pre u suf; apply getUserName_first |].
  split; [apply getUserName_none |].
  split.
  { intros [u [Hin Hid]]. unfold TaskList.getUserName.
    induction users as [|v users IH]; [destruct Hin |]. simpl.
    destruct (String.eqb_spec (User.id v) userId) as [E | E].
    - exists v. split; [now left | now split].
    - destruct Hin as [-> | Hin]; [contradiction |].
      destruct (IH Hin) as [w [Hw [Hwid Hname]]].
      exists w. split; [now right | now split]. }
  split; [reflexivity |]. split.
  - intros st task. unfold TaskList.assigneeLine.
    destruct (Task.assigned_to task) as [a|]; [| tauto].
    destruct (String.eqb_spec a "") as [-> | Ha].
    + tauto.
    + split; [discriminate |]. intros [H | H]; congruence.
  - intros st task a Ha Hne. unfold TaskList.assigneeLine. rewrite Ha.
    apply String.eqb_neq in Hne. now rewrite Hne.
Qed.

Lemma getUserName_lookup_witness :
  TaskList.getUserName Sample.users "u3" = "Eve Employee"%string /\
  TaskList.getUserName Sample.users "u9" = "Unassigned"%string.
Proof.
  destruct (getUserName_lookup Sample.users "u3") as [Hfound _].
  destruct (getUserName_lookup Sample.users "u9") as [_ [Hnone _]].
  split.
  - apply (Hfound [Sample.admin; Sample.manager] Sample.employee [] eq_refl eq_refl).
    intros v [<- | [<- | []]]; discriminate.
  - apply Hnone. intros v [<- | [<- | [<- | []]]]; discriminate.
Defined.

(** ** Creating, updating and deleting tasks *)

Lemma filteredTasks_cons (t : Task.t) (l : list Task.t) (term sf pf : string) :
  TaskList.filteredTasks (t :: l) term sf pf =
    if (TaskList.matchesSearch term t && TaskList.matchesStatus sf t &&
        TaskList.matchesPriority pf t)%bool
    then t :: TaskList.filteredTasks l term sf pf
    else TaskList.filteredTasks l term sf pf.
Proof. reflexivity. Qed.

Lemma filteredTasks_defaults (l : list Task.t) :
  TaskList.filteredTasks l "" "all" "all" = l.
Proof.
  unfold TaskList.filteredTasks.
  induction l as [|t l IH]; simpl; [reflexivity |].
  unfold TaskList.matchesSearch at 1. simpl.
  rewrite includes_empty. simpl. now rewrite IH.
Qed.

(** X5.  A successful task creation sends one POST /tasks carrying the
    draft, puts the created task in front of the local task list, closes
    the dialog, resets the draft (priority back to "medium") and shows
    one success notification; filters, users and the loading flag are
    untouched.  In the request an empty assignee and an absent due date
    are sent as [null].  The created task heads the listing when it
    passes the current filters (always, with the filters at their
    defaults) and is not listed when it does not.  A failed creation
    changes nothing in the local state: the dialog stays open with the
    draft as typed. *)
Theorem create_task_prepends
        (toISO : Z -> string) (created : Task.t) (st : TaskList.State) :
  let '(st', tr) := Eff.run (TaskList.handleCreateTask toISO (Eff.Resolved created)) st in
  let listing := fun s => TaskList.filteredTasks (TaskList.tasks s) (TaskList.searchTerm s)
                            (TaskList.statusFilter s) (TaskList.priorityFilter s) in
  let passes := (TaskList.matchesSearch (TaskList.searchTerm st) created &&
                 TaskList.matchesStatus (TaskList.statusFilter st) created &&
                 TaskList.matchesPriority (TaskList.priorityFilter st) created)%bool in
  TaskList.tasks st' = created :: TaskList.tasks st /\
  TaskList.showCreateDialog st' = false /\
  TaskList.newTask st' = TaskList.emptyDraft /\
  (TaskList.users st' = TaskList.users st /\
   TaskList.loading st' = TaskList.loading st /\
   TaskList.searchTerm st' = TaskList.searchTerm st /\
   TaskList.statusFilter st' = TaskList.statusFilter st /\
   TaskList.priorityFilter st' = TaskList.priorityFilter st) /\
  Eff.requests tr
    = [Eff.mkRequest Eff.POST "/tasks" (TaskList.taskData toISO (TaskList.newTask st))] /\
  Eff.toasts tr = [Eff.ToastSuccess "Task created successfully!"] /\
  (TaskList.draft_assigned_to (TaskList.newTask st) = ""%string ->
   In ("assigned_to"%string, None) (TaskList.taskData toISO (TaskList.newTask st))) /\
  (TaskList.draft_due_date (TaskList.newTask st) = None ->
   In ("due_date"%string, None) (TaskList.taskData toISO (TaskList.newTask st))) /\
  map fst (TaskList.taskData toISO (TaskList.newTask st))
    = ["title"; "description"; "priority"; "due_date"; "assigned_to"; "category"]%string /\
  (passes = true -> listing st' = created :: listing st) /\
  (passes = false -> listing st' = listing st) /\
  (TaskList.searchTerm st = ""%string -> TaskList.statusFilter st = "all"%string ->
   TaskList.priorityFilter st = "all"%string ->
   listing st' = created :: TaskList.tasks st) /\
  forall err,
    fst (Eff.run (TaskList.handleCreateTask toISO (Eff.Rejected err)) st) = st.
Proof.
  unfold TaskList.handleCreateTask. run_handler.
  split; [reflexivity |]. split; [reflexivity |]. split; [reflexivity |].
  split; [repeat split |]. split; [reflexivity |]. split; [reflexivity |].
  split.
  { intros H. unfold TaskList.taskData. rewrite H. simpl. tauto. }
  split.
  { intros H. unfold TaskList.taskData. rewrite H. simpl. tauto. }
  split; [reflexivity |].
  split; [intros H; unfold TaskList.filteredTasks; simpl; now rewrite H |].
  split; [intros H; unfold TaskList.filteredTasks; simpl; now rewrite H |].
  split.
  { intros -> -> ->. apply (filteredTasks_defaults (created :: TaskList.tasks st)). }
  intros err. reflexivity.
Qed.

(** The scenario of a report created unassigned with high priority, on
    the sample task list with the filters at their defaults. *)
Lemma create_task_prepends_witness :
  let created := Task.mk "t8" "Write report" None "pending" "high" None None None
                         "2024-03-08T09:00:00.000Z" in
  let st' := fst (Eff.run (TaskList.handleCreateTask (fun _ => ""%string)
                             (Eff.Resolved created)) Sample.taskListState) in
  TaskList.filteredTasks (TaskList.tasks st') (TaskList.searchTerm st')
     (TaskList.statusFilter st') (TaskList.priorityFilter st')
    = created :: Sample.tasks /\
  TaskList.badges created
    = (("bg-orange-100 text-orange-800 border-orange-200"%string,
        JS.Str (JS.units "High")),
       ("bg-yellow-100 text-yellow-800 border-yellow-200"%string,
        JS.Str (JS.units "Pending"))).
Proof.
  intros created st'. split; [| vm_compute; reflexivity].
  pose proof (create_task_prepends (fun _ => ""%string) created Sample.taskListState) as H.
  unfold st'. destruct (Eff.run _ _) as [s tr]. cbn [fst].
  destruct H as [_ [_ [_ [_ [_ [_ [_ [_ [_ [_ [_ [H _]]]]]]]]]]]].
  exact (H eq_refl eq_refl eq_refl).
Defined.

Lemma map_replace_fixed {A : Type} (f : A -> A) (l : list A) :
  (forall x, In x l -> f x = x) -> map f l = l.
Proof.
  induction l as [|x l IH]; simpl; intros H; [reflexivity |].
  rewrite H by now left. rewrite IH; [reflexivity |]. intros y Hy. apply H. now right.
Qed.

(** X6.  A successful task update sends one PUT /tasks/{id} with the
    given changes and merges the reply into the local list by id: the
    list keeps its length and order, every task with that id is replaced
    by the task of the reply, every other task stays.  When no local
    task has the id the list is unchanged (the success notification is
    shown all the same).  When the reply carries the id it was asked
    for, the ids of the list are unchanged.  Merging the same reply
    twice is the same as merging it once.  A failed update leaves the
    local state as it was. *)
Theorem update_task_merges_by_id
        (taskId : string) (updates : Eff.JsObject) (data : Task.t) (st : TaskList.State) :
  let '(st', tr) := Eff.run (TaskList.handleUpdateTask taskId updates (Eff.Resolved data)) st in
  List.length (TaskList.tasks st') = List.length (TaskList.tasks st) /\
  (forall n, nth_error (TaskList.tasks st') n =
             option_map (fun t => if String.eqb (Task.id t) taskId then data else t)
                        (nth_error (TaskList.tasks st) n)) /\
  (forall t, In t (TaskList.tasks st) -> Task.id t <> taskId -> In t (TaskList.tasks st')) /\
  (forall t, In t (TaskList.tasks st') -> t = data \/ (In t (TaskList.tasks st) /\ Task.id t <> taskId)) /\
  ((forall t, In t (TaskList.tasks st) -> Task.id t <> taskId) ->
   TaskList.tasks st' = TaskList.tasks st) /\
  (Task.id data = taskId ->
   map Task.id (TaskList.tasks st') = map Task.id (TaskList.tasks st)) /\
  fst (Eff.run (TaskList.handleUpdateTask taskId updates (Eff.Resolved data)) st') = st' /\
  Eff.requests tr = [Eff.mkRequest Eff.PUT ("/tasks/" ++ taskId)%string updates] /\
  Eff.toasts tr = [Eff.ToastSuccess "Task updated successfully!"] /\
  forall err,
    fst (Eff.run (TaskList.handleUpdateTask taskId updates (Eff.Rejected err)) st) = st.
Proof.
  unfold TaskList.handleUpdateTask. run_handler.
  set (f := fun task : Task.t => if String.eqb (Task.id task) taskId then data else task).
  split; [apply length_map |].
  split; [intros n; apply nth_error_map |].
  split.
  { intros t Hin Hne. apply in_map_iff. exists t. split; [| exact Hin].
    unfold f. apply String.eqb_neq in Hne. now rewrite Hne. }
  split.
  { intros t Hin. apply in_map_iff in Hin. destruct Hin as [x [Hx Hin]].
    unfold f in Hx. destruct (String.eqb_spec (Task.id x) taskId) as [E | E].
    - left. congruence.
    - right. subst x. now split. }
  split.
  { intros H. apply map_replace_fixed. intros x Hx. unfold f.
    specialize (H x Hx). apply String.eqb_neq in H. now rewrite H. }
  split.
  { intros Hid. rewrite map_map. apply map_ext. intros t. unfold f.
    destruct (String.eqb_spec (Task.id t) taskId); congruence. }
  split.
  { unfold TaskList.setTasks. simpl. f_equal. rewrite map_map.
    apply map_ext. intros t. unfold f.
    destruct (String.eqb (Task.id t) taskId) eqn:E; [| now rewrite E].
    now destruct (String.eqb (Task.id data) taskId). }
  split; [reflexivity |]. split; [reflexivity |].
  intros err. reflexivity.
Qed.

(** The sample audit comes back from the server in progress: it takes
    the place of the pending audit, second in the list. *)
Lemma update_task_merges_by_id_witness :
  let started := Sample.task "t2" "Audit accounts" "in_progress"
                             "2024-03-01T09:00:00.000Z" (Some "u3"%string) None in
  let st' := fst (Eff.run (TaskList.handleUpdateTask "t2" [("status", Some "in_progress")]%string
                             (Eff.Resolved started)) Sample.taskListState) in
  map Task.id (TaskList.tasks st') = map Task.id Sample.tasks /\
  nth_error (TaskList.tasks st') 1 = Some started.
Proof.
  intros started st'.
  pose proof (update_task_merges_by_id "t2" [("status", Some "in_progress")]%string
                started Sample.taskListState) as H.
  unfold st'. destruct (Eff.run _ _) as [s tr]. cbn [fst].
  destruct H as [_ [Hnth [_ [_ [_ [Hids _]]]]]].
  split; [exact (Hids eq_refl) | exact (Hnth 1%nat)].
Defined.

(** X7.  The quick actions follow the task through its states.  For the
    assignee a pending task offers exactly "Start" and a task in
    progress exactly "Complete"; a task in any other status (completed,
    cancelled, anything else) offers nothing.  When the server answers
    the click with the task in its next status, that task replaces the
    old one in the list and offers the next action: after "Start",
    "Complete"; after "Complete", nothing. *)
Theorem quick_action_progression (user : User.t) (task : Task.t) :
  (Task.assigned_to task = Some (User.id user) -> Task.status task = "pending"%string ->
   TaskList.quickActions user task
     = [QuickAction "Start" (Task.id task) [("status", Some "in_progress")]]%string) /\
  (Task.assigned_to task = Some (User.id user) -> Task.status task = "in_progress"%string ->
   TaskList.quickActions user task
     = [QuickAction "Complete" (Task.id task) [("status", Some "completed")]]%string) /\
  (Task.status task <> "pending"%string -> Task.status task <> "in_progress"%string ->
   TaskList.quickActions user task = []) /\
  (forall st label updates data,
      In task (TaskList.tasks st) ->
      In (QuickAction label (Task.id task) updates) (TaskList.quickActions user task) ->
      Task.id data = Task.id task ->
      Task.assigned_to data = Task.assigned_to task ->
      In ("status"%string, Some (Task.status data)) updates ->
      let st' := fst (Eff.run (TaskList.handleUpdateTask (Task.id task) updates
                                 (Eff.Resolved data)) st) in
      In data (TaskList.tasks st') /\
      (forall t, In t (TaskList.tasks st') -> Task.id t = Task.id task -> t = data) /\
      ((Task.status task = "pending"%string /\
        TaskList.quickActions user data
          = [QuickAction "Complete" (Task.id task) [("status", Some "completed")]]%string) \/
       (Task.status task = "in_progress"%string /\
        TaskList.quickActions user data = []))).
Proof.
  split; [| split; [| split]].
  - intros Ha Hs. unfold TaskList.quickActions. rewrite Ha, Hs. simpl.
    now rewrite String.eqb_refl.
  - intros Ha Hs. unfold TaskList.quickActions. rewrite Ha, Hs. simpl.
    now rewrite String.eqb_refl.
  - intros Hp Hi. unfold TaskList.quickActions.
    apply String.eqb_neq in Hp, Hi. rewrite Hp, Hi.
    now destruct (_ && _)%bool.
  - intros st label updates data Hin Hqa Hid Has Hst st'.
    apply in_quickActions in Hqa. destruct Hqa as [Hassigned Hcase].
    assert (Hdata : In data (TaskList.tasks st')).
    { unfold st', TaskList.handleUpdateTask. run_handler.
      apply in_map_iff. exists task. split; [| exact Hin].
      now rewrite String.eqb_refl. }
    assert (Honly : forall t, In t (TaskList.tasks st') -> Task.id t = Task.id task -> t = data).
    { unfold st', TaskList.handleUpdateTask. run_handler.
      intros t Ht Htid. apply in_map_iff in Ht. destruct Ht as [x [Hx _]].
      destruct (String.eqb_spec (Task.id x) (Task.id task)); congruence. }
    split; [exact Hdata |]. split; [exact Honly |].
    unfold TaskList.quickActions. rewrite Has, Hassigned, Hid. simpl.
    rewrite String.eqb_refl. simpl.
    destruct Hcase as [[Hs Ha] | [Hs Ha]]; injection Ha as _ Hu; subst updates;
      destruct Hst as [Hst | []]; injection Hst as Hst; rewrite <- Hst; simpl.
    + left. now split.
    + right. now split.
Qed.

(** The sample employee starts the audit; the server returns it in
    progress, and its card then offers "Complete". *)
Lemma quick_action_progression_witness :
  let started := Sample.task "t2" "Audit accounts" "in_progress"
                             "2024-03-01T09:00:00.000Z" (Some "u3"%string) None in
  TaskList.quickActions Sample.employee Sample.audit
    = [QuickAction "Start" "t2" [("status", Some "in_progress")]]%string /\
  TaskList.quickActions Sample.employee started
    = [QuickAction "Complete" "t2" [("status", Some "completed")]]%string.
Proof.
  intros started.
  destruct (quick_action_progression Sample.employee Sample.audit) as [Hstart _].
  destruct (quick_action_progression Sample.employee started) as [_ [Hcomplete _]].
  split; [exact (Hstart eq_refl eq_refl) | exact (Hcomplete eq_refl eq_refl)].
Defined.

(** Which task an affordance of the task list refers to. *)
Lemma card_affordance_ids (user : User.t) (task : Task.t) (a : Affordance) :
  In a (TaskList.card user task) ->
  a = EditTaskItem (Task.id task) \/ a = DeleteTaskItem (Task.id task) \/
  exists label updates, a = QuickAction label (Task.id task) updates.
Proof.
  unfold TaskList.card. intros H. apply in_app_or in H. destruct H as [H | H].
  - destruct (_ || _)%bool; [| destruct H].
    destruct H as [<- | H]; [now left |].
    destruct (negb _); [| destruct H]. destruct H as [<- | []]. right. now left.
  - apply in_quickActions in H. destruct H as [_ [[_ ->] | [_ ->]]]; right; right; eauto.
Qed.

Lemma filter_idem {A : Type} (p : A -> bool) (l : list A) :
  filter p (filter p l) = filter p l.
Proof.
  induction l as [|x l IH]; simpl; [reflexivity |].
  destruct (p x) eqn:E; simpl; [now rewrite E, IH | exact IH].
Qed.

Lemma filter_filter_comm {A : Type} (p q : A -> bool) (l : list A) :
  filter p (filter q l) = filter q (filter p l).
Proof.
  induction l as [|x l IH]; simpl; [reflexivity |].
  destruct (p x) eqn:Ep, (q x) eqn:Eq; simpl; rewrite ?Ep, ?Eq, IH; reflexivity.
Qed.

(** X8.  After a confirmed, successful delete the task is gone from the
    view: no local task carries the id, the listing is the previous
    listing without the tasks of that id (the other cards keep their
    order), and whoever looks at the task list is offered no edit item,
    delete item or quick action for that id.  Deleting the same id again
    changes nothing more. *)
Theorem delete_removes_card (taskId : string) (st : TaskList.State) (u : unit) :
  let st' := fst (Eff.run (TaskList.handleDeleteTask taskId true (Eff.Resolved u)) st) in
  let listing := fun s => TaskList.filteredTasks (TaskList.tasks s) (TaskList.searchTerm s)
                            (TaskList.statusFilter s) (TaskList.priorityFilter s) in
  (forall t, In t (TaskList.tasks st') -> Task.id t <> taskId) /\
  (forall t, In t (TaskList.tasks st) -> Task.id t <> taskId -> In t (TaskList.tasks st')) /\
  listing st' = filter (fun t => negb (String.eqb (Task.id t) taskId)) (listing st) /\
  (forall user a, In a (TaskList.render user st') ->
      a <> EditTaskItem taskId /\ a <> DeleteTaskItem taskId /\
      forall label updates, a <> QuickAction label taskId updates) /\
  (forall user a, In a (TaskList.render user st') ->
      a = CreateTaskButton \/ exists t, In t (listing st) /\ In a (TaskList.card user t)) /\
  fst (Eff.run (TaskList.handleDeleteTask taskId true (Eff.Resolved u)) st') = st'.
Proof.
  intros st' listing.
  assert (Htasks : TaskList.tasks st'
                   = filter (fun t => negb (String.eqb (Task.id t) taskId)) (TaskList.tasks st))
    by reflexivity.
  assert (Hgone : forall t, In t (TaskList.tasks st') -> Task.id t <> taskId).
  { intros t Ht. rewrite Htasks in Ht. apply filter_In in Ht. destruct Ht as [_ Ht].
    apply negb_true_iff, String.eqb_neq in Ht. exact Ht. }
  assert (Hlist : listing st'
                  = filter (fun t => negb (String.eqb (Task.id t) taskId)) (listing st)).
  { unfold listing, TaskList.filteredTasks. rewrite Htasks. apply filter_filter_comm. }
  assert (Hfrom : forall user a, In a (TaskList.render user st') ->
             a = CreateTaskButton \/
             exists t, In t (listing st') /\ In a (TaskList.card user t)).
  { intros user a. unfold TaskList.render. destruct (TaskList.loading st'); [intros [] |].
    intros H. apply in_app_or in H. destruct H as [H | H].
    - destruct (TaskList.canCreate user); [| destruct H]. destruct H as [<- | []]. now left.
    - fold (listing st') in H. destruct (listing st') as [|t l] eqn:E.
      + destruct (TaskList.canCreate user); [| destruct H]. destruct H as [<- | []]. now left.
      + apply in_flat_map in H. destruct H as [x [Hx Ha]]. right. now exists x. }
  split; [exact Hgone |]. split.
  { intros t Ht Hne. rewrite Htasks. apply filter_In. split; [exact Ht |].
    now apply negb_true_iff, String.eqb_neq. }
  split; [exact Hlist |]. split.
  { intros user a Ha. destruct (Hfrom user a Ha) as [-> | [t [Ht Hcard]]].
    - repeat split; intros; discriminate.
    - assert (Hid : Task.id t <> taskId).
      { apply Hgone. unfold listing, TaskList.filteredTasks in Ht.
        apply filter_In in Ht. tauto. }
      destruct (card_affordance_ids user t a Hcard) as [-> | [-> | [l [upd ->]]]];
        repeat split; intros; congruence. }
  split.
  { intros user a Ha. destruct (Hfrom user a Ha) as [-> | [t [Ht Hcard]]]; [now left |].
    right. exists t. split; [| exact Hcard].
    rewrite Hlist in Ht. apply filter_In in Ht. tauto. }
  unfold st', TaskList.handleDeleteTask. run_handler. unfold TaskList.setTasks. simpl.
  f_equal. apply filter_idem.
Qed.

(** ** Mounting the task list *)

Lemma fetchTasks_split (response : Eff.Outcome (list Task.t)) (st : TaskList.State)
      (tr : list Eff.Event) :
  TaskList.fetchTasks response st tr
    = TaskList.onTasksReply response st
        (tr ++ [Eff.Http (Eff.mkRequest Eff.GET "/tasks" [])]).
Proof. destruct response; reflexivity. Qed.

Lemma fetchUsers_split (response : Eff.Outcome (list User.t)) (st : TaskList.State)
      (tr : list Eff.Event) :
  TaskList.fetchUsers response st tr
    = TaskList.onUsersReply response st
        (tr ++ [Eff.Http (Eff.mkRequest Eff.GET "/users" [])]).
Proof. destruct response; reflexivity. Qed.

(** X9.  What mounting the task list does.  For an employee only the
    tasks are requested; the users are never fetched, so starting from
    the initial state every assignee name reads "Unassigned".  For any
    other role both the tasks and the users are requested.  The two
    replies update separate parts of the state: whichever arrives first,
    the resulting state and the notifications are the same.  In every
    case the loading flag is off afterwards, fetched tasks replace the
    local ones, and a failed task fetch leaves them as they were, with
    one error notification. *)
Theorem mount_requests (user : User.t) (st : TaskList.State)
        (tasksResponse : Eff.Outcome (list Task.t))
        (usersResponse : Eff.Outcome (list User.t)) :
  (User.role user = "employee"%string ->
   forall order,
     let '(st', tr) := Eff.run (TaskList.mount user order tasksResponse usersResponse) st in
     Eff.requests tr = [Eff.mkRequest Eff.GET "/tasks" []] /\
     TaskList.users st' = TaskList.users st /\
     (TaskList.users st = [] ->
      forall task a, TaskList.assigneeLine st' task = Some a -> a = "Unassigned"%string)) /\
  (User.role user <> "employee"%string ->
   (forall order,
      Eff.requests (snd (Eff.run (TaskList.mount user order tasksResponse usersResponse) st))
        = [Eff.mkRequest Eff.GET "/tasks" []; Eff.mkRequest Eff.GET "/users" []]) /\
   fst (Eff.run (TaskList.mount user true tasksResponse usersResponse) st)
     = fst (Eff.run (TaskList.mount user false tasksResponse usersResponse) st) /\
   Eff.toasts (snd (Eff.run (TaskList.mount user true tasksResponse usersResponse) st))
     = Eff.toasts (snd (Eff.run (TaskList.mount user false tasksResponse usersResponse) st)) /\
   (forall order data, usersResponse = Eff.Resolved data ->
      TaskList.users (fst (Eff.run (TaskList.mount user order tasksResponse usersResponse) st))
        = data) /\
   (forall order err, usersResponse = Eff.Rejected err ->
      TaskList.users (fst (Eff.run (TaskList.mount user order tasksResponse usersResponse) st))
        = TaskList.users st)) /\
  (forall order,
     let '(st', tr) := Eff.run (TaskList.mount user order tasksResponse usersResponse) st in
     TaskList.loading st' = false /\
     (forall data, tasksResponse = Eff.Resolved data ->
                   TaskList.tasks st' = data /\ Eff.toasts tr = []) /\
     (forall err, tasksResponse = Eff.Rejected err ->
                  TaskList.tasks st' = TaskList.tasks st /\
                  Eff.toasts tr = [Eff.ToastError "Failed to load tasks"])).
Proof.
  split; [| split].
  - intros Hr order. unfold TaskList.mount. rewrite Hr. simpl negb. cbv iota.
    destruct tasksResponse as [data | err]; run_handler.
    + split; [reflexivity |]. split; [reflexivity |].
      intros Hu task a. unfold TaskList.assigneeLine. simpl. rewrite Hu.
      destruct (Task.assigned_to task) as [x|]; [| discriminate].
      destruct (String.eqb x ""); [discriminate |]. now intros [= <-].
    + split; [reflexivity |]. split; [reflexivity |].
      intros Hu task a. unfold TaskList.assigneeLine. simpl. rewrite Hu.
      destruct (Task.assigned_to task) as [x|]; [| discriminate].
      destruct (String.eqb x ""); [discriminate |]. now intros [= <-].
  - intros Hr. apply String.eqb_neq in Hr. unfold TaskList.mount. rewrite Hr. simpl negb.
    cbv iota.
    split; [intros [|]; destruct tasksResponse, usersResponse; reflexivity |].
    split; [destruct tasksResponse, usersResponse; reflexivity |].
    split; [destruct tasksResponse, usersResponse; reflexivity |].
    split.
    + intros [|] data ->; destruct tasksResponse; reflexivity.
    + intros [|] err ->; destruct tasksResponse; reflexivity.
  - intros order. unfold TaskList.mount.
    destruct (negb (String.eqb (User.role user) "employee"));
      destruct order, tasksResponse as [d | e], usersResponse as [d' | e'];
      run_handler; (split; [reflexivity |]);
      split; intros x Hx; try discriminate; injection Hx as <-; split; reflexivity.
Qed.

(** The sample employee mounts the task list: one request, no users, and
    the report's assignee line reads "Unassigned". *)
Lemma mount_requests_witness :
  let '(st', tr) := Eff.run (TaskList.mount Sample.employee true
                               (Eff.Resolved Sample.tasks) (Eff.Resolved Sample.users))
                            TaskList.initialState in
  Eff.requests tr = [Eff.mkRequest Eff.GET "/tasks" []] /\
  TaskList.assigneeLine st' Sample.report = Some "Unassigned"%string.
Proof.
  pose proof (proj1 (mount_requests Sample.employee TaskList.initialState
                       (Eff.Resolved Sample.tasks) (Eff.Resolved Sample.users))
                eq_refl true) as H.
  destruct (Eff.run _ _) as [st' tr]. destruct H as [Hreq [_ Hname]].
  split; [exact Hreq |].
  destruct (TaskList.assigneeLine st' Sample.report) as [a|] eqn:E.
  - now rewrite (Hname eq_refl Sample.report a E).
  - exfalso. revert E. unfold TaskList.assigneeLine. simpl. discriminate.
Defined.

(** ** Loading the dashboard *)

(** X10.  The dashboard fetch is all or nothing.  Both requests are
    always sent and the loading flag is always off afterwards.  Only
    when both replies are successes are the statistics and the recent
    tasks set, without any notification; when either fails, neither is
    set, even if the other succeeded, the previous statistics and recent
    tasks stay, and there is one error notification.  Afterwards the
    view shows its action buttons, never the spinner. *)
Theorem dashboard_fetch_all_or_nothing
        (Date_parse : string -> option Z) (st : Dashboard.State)
        (statsResponse : Eff.Outcome Stats.t)
        (tasksResponse : Eff.Outcome (list Task.t)) :
  let '(st', tr) :=
    Eff.run (Dashboard.fetchDashboardData Date_parse statsResponse tasksResponse) st in
  Dashboard.loading st' = false /\
  Eff.requests tr = [Eff.mkRequest Eff.GET "/dashboard/stats" [];
                     Eff.mkRequest Eff.GET "/tasks" []] /\
  (forall s d, statsResponse = Eff.Resolved s -> tasksResponse = Eff.Resolved d ->
     Dashboard.stats st' = Some s /\
     Dashboard.recentTasks st' = Dashboard.sortedTasks Date_parse d /\
     Eff.toasts tr = []) /\
  ((exists e, statsResponse = Eff.Rejected e) \/ (exists e, tasksResponse = Eff.Rejected e) ->
     Dashboard.stats st' = Dashboard.stats st /\
     Dashboard.recentTasks st' = Dashboard.recentTasks st /\
     Eff.toasts tr = [Eff.ToastError "Failed to load dashboard data"]) /\
  (forall user, In ViewAllTasksButton (Dashboard.render user st') /\
                In RefreshDataButton (Dashboard.render user st')).
Proof.
  unfold Dashboard.fetchDashboardData.
  destruct statsResponse as [s | e], tasksResponse as [d | e']; run_handler;
    (split; [reflexivity |]); (split; [reflexivity |]);
    (split; [| split;
               [| intros user; split;
                  [now left | right; apply in_or_app; right; now left]]]).
  - intros s0 d0 [= <-] [= <-]. now repeat split.
  - intros [[e H] | [e H]]; discriminate.
  - intros s0 d0 _ H. discriminate.
  - intros _. now repeat split.
  - intros s0 d0 H. discriminate.
  - intros _. now repeat split.
  - intros s0 d0 H. discriminate.
  - intros _. now repeat split.
Qed.

Lemma dashboard_fetch_all_or_nothing_witness :
  let st' := fst (Eff.run (Dashboard.fetchDashboardData Sample.Date_parse
                             (Eff.Resolved (Stats.mk 3 40 23 10 7 0))
                             (Eff.Rejected (Eff.mkError None)))
                          Dashboard.initialState) in
  Dashboard.stats st' = None /\ Dashboard.recentTasks st' = [] /\
  Dashboard.loading st' = false.
Proof.
  intros st'.
  pose proof (dashboard_fetch_all_or_nothing Sample.Date_parse Dashboard.initialState
                (Eff.Resolved (Stats.mk 3 40 23 10 7 0))
                (Eff.Rejected (Eff.mkError None))) as H.
  unfold st'. destruct (Eff.run _ _) as [s tr]. cbn [fst].
  destruct H as [Hl [_ [_ [Hfail _]]]].
  destruct (Hfail (or_intror (ex_intro _ (Eff.mkError None) eq_refl))) as [Hs [Hr _]].
  split; [exact Hs |]. split; [exact Hr | exact Hl].
Defined.

Lemma orZero_counter (field : Stats.t -> N) (s : Stats.t) :
  Dashboard.orZero field (Some s) = field s.
Proof.
  unfold Dashboard.orZero. destruct (N.eqb_spec (field s) 0); congruence.
Qed.

(** X11.  The counters of the dashboard.  With statistics present every
    tile and every progress row shows the counter itself: the [|| 0]
    fallback never changes a number.  Without statistics, as after a
    failed first load, every tile and row shows 0 and the completion
    rate is 0.  The "Total Employees" tile is the first tile for every
    role but employee, for which it is absent. *)
Theorem dashboard_counters (user : User.t) (st : Dashboard.State) :
  (forall s, Dashboard.stats st = Some s ->
     Dashboard.tiles user st
       = (if String.eqb (User.role user) "employee" then []
          else [("Total Employees"%string, Stats.total_employees s)])
         ++ [("Total Tasks"%string, Stats.total_tasks s);
             ("Completed"%string, Stats.completed_tasks s);
             ("Overdue"%string, Stats.overdue_tasks s)] /\
     Dashboard.progressRows st
       = [("Pending"%string, Stats.pending_tasks s);
          ("In Progress"%string, Stats.in_progress_tasks s);
          ("Completed"%string, Stats.completed_tasks s)]) /\
  (Dashboard.stats st = None ->
     (forall label v, In (label, v) (Dashboard.tiles user st) -> v = 0%N) /\
     (forall label v, In (label, v) (Dashboard.progressRows st) -> v = 0%N) /\
     Dashboard.completionRate (Dashboard.stats st) = 0) /\
  (User.role user = "employee"%string ->
     forall v, ~ In ("Total Employees"%string, v) (Dashboard.tiles user st)) /\
  (User.role user <> "employee"%string ->
     exists rest, Dashboard.tiles user st
                  = ("Total Employees"%string,
                     Dashboard.orZero Stats.total_employees (Dashboard.stats st)) :: rest) /\
  (forall parse err tasksResponse,
     Dashboard.stats
       (fst (Eff.run (Dashboard.fetchDashboardData parse (Eff.Rejected err) tasksResponse)
                     Dashboard.initialState)) = None).
Proof.
  split; [| split; [| split; [| split]]].
  - intros s Hs. unfold Dashboard.tiles, Dashboard.progressRows. rewrite Hs.
    rewrite !orZero_counter. split; [| reflexivity].
    now destruct (String.eqb (User.role user) "employee").
  - intros Hs. unfold Dashboard.tiles, Dashboard.progressRows. rewrite Hs. simpl.
    split; [| split; [| reflexivity]].
    + intros label v H. apply in_app_or in H. destruct H as [H | H].
      * destruct (negb _); [| destruct H]. destruct H as [H | []]. congruence.
      * destruct H as [H | [H | [H | []]]]; congruence.
    + intros label v [H | [H | [H | []]]]; congruence.
  - intros Hr v. unfold Dashboard.tiles. rewrite Hr. simpl.
    intros [H | [H | [H | []]]]; discriminate.
  - intros Hr. apply String.eqb_neq in Hr. unfold Dashboard.tiles. rewrite Hr. simpl.
    eexists. reflexivity.
  - intros parse err [d | e]; reflexivity.
Qed.

(** ** Range of the completion rate *)

(** X12.  When the completed tasks are among the total (and the total is
    below 2^44) the completion rate is a percentage: it lies between 0
    and 100, it is 100 when every task is completed and 0 when none is,
    it reaches 100 only from 99.5 percent on, and it is 0 only up to
    half a percent. *)
Theorem completionRate_percentage (s : Stats.t) :
  (Stats.completed_tasks s <= Stats.total_tasks s)%N ->
  (Stats.total_tasks s < 2 ^ 44)%N ->
  let t := Z.of_N (Stats.total_tasks s) in
  let c := Z.of_N (Stats.completed_tasks s) in
  let r := Dashboard.completionRate (Some s) in
  0 <= r <= 100 /\
  (0 < t -> c = t -> r = 100) /\
  (c = 0 -> r = 0) /\
  (r = 100 -> 199 * t <= 200 * c) /\
  (r = 0 -> 200 * c <= t).
Proof.
  intros Hle Hlt t c r.
  assert (Hc : 0 <= c <= t) by (unfold c, t; lia).
  assert (Ht44 : t < 2 ^ 44) by (unfold t; change (2 ^ 44) with (Z.of_N (2 ^ 44)); lia).
  destruct (Z.eq_dec t 0) as [Ht0 | Ht0].
  - assert (E : Stats.total_tasks s = 0%N) by (unfold t in Ht0; lia).
    assert (Hr : r = 0) by (unfold r, Dashboard.completionRate; now rewrite E).
    rewrite Hr. repeat split; try lia.
  - assert (Ht : 0 < t < 2 ^ 53).
    { split; [lia |]. apply Z.lt_trans with (2 ^ 44); [exact Ht44 | reflexivity]. }
    pose proof (completion_bounds c t Ht ltac:(lia)) as [Hup Hlo].
    assert (Er : r = Float64.Math_round
                       (Float64.mul (Float64.div (Float64.round (inject_Z c))
                                                 (Float64.round (inject_Z t))) 100)).
    { unfold r. apply completionRate_unfold.
      - unfold t in Ht. lia.
      - unfold t in Ht. change (2 ^ 53) with (Z.of_N (2 ^ 53)) in Ht. lia. }
    rewrite <- Er in Hup, Hlo. clearbody r. clear Er.
    repeat split; try nia.
Qed.

Lemma completionRate_percentage_witness :
  0 <= Dashboard.completionRate (Dashboard.stats Sample.dashboardState) <= 100.
Proof.
  apply (completionRate_percentage (Stats.mk 3 40 23 10 7 0)).
  - discriminate.
  - reflexivity.
Defined.

(** ** Searching and filtering users *)

Lemma filteredUsers_defaults (l : list User.t) :
  UserManagement.filteredUsers l "" "all" = l.
Proof.
  unfold UserManagement.filteredUsers.
  induction l as [|u l IH]; simpl; [reflexivity |].
  unfold UserManagement.matchesSearch at 1. simpl.
  rewrite includes_empty. simpl. now rewrite IH.
Qed.

Lemma userMatchesSearch_spec (term : string) (u : User.t) :
  Spec.asciiText term = true -> Spec.asciiUser u = true ->
  (UserManagement.matchesSearch term u = true <->
   (Spec.ciSubstring term (User.full_name u) \/
    Spec.ciSubstring term (User.email u) \/
    exists d, User.department u = Some d /\ Spec.ciSubstring term d)).
Proof.
  intros Ht Hu. unfold Spec.asciiUser in Hu. rewrite !andb_true_iff in Hu.
  destruct Hu as [[Hname Hemail] Hdept].
  unfold UserManagement.matchesSearch.
  rewrite !orb_true_iff, (includes_lower_spec _ _ Hname Ht),
          (includes_lower_spec _ _ Hemail Ht).
  destruct (User.department u) as [d|]; simpl in Hdept.
  - rewrite (includes_lower_spec _ _ Hdept Ht). split.
    + intros [[H | H] | H]; auto. right. right. now exists d.
    + intros [H | [H | [d' [Hd H]]]]; auto. injection Hd as ->. now right.
  - split.
    + intros [[H | H] | H]; auto. discriminate.
    + intros [H | [H | [d' [Hd H]]]]; auto. discriminate.
Qed.

(** X13.  The user list shown is the sub-list, in the fetched order, of
    the users for which the lower-cased search term occurs in the
    lower-cased full name, e-mail address or department (a user without
    department can only match on name or address), and whose role equals
    the role filter, the filter "all" accepting every role.  For a search
    term and users written below U+0080 the search is the
    case-insensitive substring match: some stretch of the field equals
    the term up to the case of the letters [A]..[Z].  With an empty
    search and the filter at "all" every user is shown. *)
Theorem filteredUsers_conjunction (users : list User.t) (term roleChoice : string) :
  (forall u,
      In u (UserManagement.filteredUsers users term roleChoice) <->
      In u users /\
      UserManagement.matchesSearch term u = true /\
      Spec.exactOrAll roleChoice (User.role u)) /\
  (Spec.asciiText term = true ->
   forall u, Spec.asciiUser u = true ->
     (In u (UserManagement.filteredUsers users term roleChoice) <->
      In u users /\
      (Spec.ciSubstring term (User.full_name u) \/
       Spec.ciSubstring term (User.email u) \/
       exists d, User.department u = Some d /\ Spec.ciSubstring term d) /\
      Spec.exactOrAll roleChoice (User.role u))) /\
  (exists keep, UserManagement.filteredUsers users term roleChoice = filter keep users) /\
  UserManagement.filteredUsers users term "all"
    = filter (UserManagement.matchesSearch term) users /\
  UserManagement.filteredUsers users "" roleChoice
    = filter (UserManagement.matchesRole roleChoice) users /\
  UserManagement.filteredUsers users "" "all" = users.
Proof.
  split; [| split; [| split; [| split; [| split]]]].
  - intros u. unfold UserManagement.filteredUsers.
    rewrite filter_In, andb_true_iff.
    unfold UserManagement.matchesRole. now rewrite eqb_all_or.
  - intros Ht u Hu. unfold UserManagement.filteredUsers.
    rewrite filter_In, andb_true_iff, (userMatchesSearch_spec term u Ht Hu).
    unfold UserManagement.matchesRole. now rewrite eqb_all_or.
  - eexists. reflexivity.
  - unfold UserManagement.filteredUsers. apply filter_ext. intros u.
    unfold UserManagement.matchesRole. simpl. apply andb_true_r.
  - unfold UserManagement.filteredUsers. apply filter_ext. intros u.
    unfold UserManagement.matchesSearch.
    change (JS.toLowerCase (JS.units "")) with (@nil Z).
    now rewrite includes_empty.
  - apply filteredUsers_defaults.
Qed.

(** On the sample users: the search ignores letter case and reads the
    department; an accented capital finds its small letter. *)
Lemma filteredUsers_sample :
  map User.id (UserManagement.filteredUsers Sample.users "ADMIN" "all") = ["u1"]%string /\
  map User.id (UserManagement.filteredUsers Sample.users "sales" "all") = ["u3"]%string /\
  map User.id (UserManagement.filteredUsers Sample.users "COMPANY" "manager")
    = ["u2"]%string /\
  map User.id
      (UserManagement.filteredUsers
         [User.mk "u5" "zoe@company.com" "Zoé Martin" "employee" None None None
                  "2024-03-01T09:00:00.000Z"] "ZOÉ" "all") = ["u5"]%string.
Proof. vm_compute. repeat split. Qed.

(** ** Creating and updating users *)

(** X14.  A successful user creation sends one POST /auth/register
    carrying the draft (password included), puts the created user in
    front of the local list, closes the dialog, shows one success
    notification and resets the draft, so that the password typed is no
    longer held.  The counters follow: the total grows by one, the
    counter of the created user's role grows by one when that role is
    admin, manager or employee, and the active counter grows by one
    unless the created user is explicitly inactive.  A failed creation
    leaves the state as it was, draft and open dialog included. *)
Theorem create_user_prepends (created : User.t) (st : UserManagement.State) :
  let '(st', tr) := Eff.run (UserManagement.handleCreateUser (Eff.Resolved created)) st in
  let before := UserManagement.userStats (UserManagement.users st) in
  let after := UserManagement.userStats (UserManagement.users st') in
  let bump := fun b : bool => if b then 1%nat else 0%nat in
  UserManagement.users st' = created :: UserManagement.users st /\
  UserManagement.showCreateDialog st' = false /\
  UserManagement.newUser st' = UserManagement.emptyNewUser /\
  UserManagement.new_password (UserManagement.newUser st') = ""%string /\
  Eff.requests tr
    = [Eff.mkRequest Eff.POST "/auth/register"
         (UserManagement.registration (UserManagement.newUser st))] /\
  map fst (UserManagement.registration (UserManagement.newUser st))
    = ["email"; "password"; "full_name"; "role"; "department"; "phone"]%string /\
  Eff.toasts tr = [Eff.ToastSuccess "User created successfully!"] /\
  UserManagement.total after = S (UserManagement.total before) /\
  UserManagement.admins after
    = (bump (String.eqb (User.role created) "admin") + UserManagement.admins before)%nat /\
  UserManagement.managers after
    = (bump (String.eqb (User.role created) "manager") + UserManagement.managers before)%nat /\
  UserManagement.employees after
    = (bump (String.eqb (User.role created) "employee") + UserManagement.employees before)%nat /\
  UserManagement.active after
    = (bump (UserManagement.notInactive created) + UserManagement.active before)%nat /\
  forall err,
    fst (Eff.run (UserManagement.handleCreateUser (Eff.Rejected err)) st) = st.
Proof.
  unfold UserManagement.handleCreateUser. run_handler.
  repeat (split; [reflexivity |]).
  split; [now destruct (String.eqb (User.role created) "admin") |].
  split; [now destruct (String.eqb (User.role created) "manager") |].
  split; [now destruct (String.eqb (User.role created) "employee") |].
  split; [now destruct (UserManagement.notInactive created) |].
  intros err. reflexivity.
Qed.

(** X15.  A successful user update sends one PUT /users/{id} and merges
    the reply into the local list by id: length and order are kept,
    every user with that id is replaced by the user of the reply, the
    others stay, so the total counter is unchanged; the edit dialog is
    closed and no user is being edited any more.  A failed update leaves
    the state as it was: the dialog stays open on the same user. *)
Theorem update_user_merges_by_id
        (userId : string) (updates : Eff.JsObject) (data : User.t)
        (st : UserManagement.State) :
  let '(st', tr) :=
    Eff.run (UserManagement.handleUpdateUser userId updates (Eff.Resolved data)) st in
  (forall n, nth_error (UserManagement.users st') n =
             option_map (fun u => if String.eqb (User.id u) userId then data else u)
                        (nth_error (UserManagement.users st) n)) /\
  (forall u, In u (UserManagement.users st) -> User.id u <> userId ->
             In u (UserManagement.users st')) /\
  (forall u, In u (UserManagement.users st') ->
             u = data \/ (In u (UserManagement.users st) /\ User.id u <> userId)) /\
  UserManagement.total (UserManagement.userStats (UserManagement.users st'))
    = UserManagement.total (UserManagement.userStats (UserManagement.users st)) /\
  UserManagement.showEditDialog st' = false /\
  UserManagement.editingUser st' = None /\
  Eff.requests tr = [Eff.mkRequest Eff.PUT ("/users/" ++ userId)%string updates] /\
  Eff.toasts tr = [Eff.ToastSuccess "User updated successfully!"] /\
  forall err,
    Eff.run (UserManagement.handleUpdateUser userId updates (Eff.Rejected err)) st
      = (st, [Eff.Http (Eff.mkRequest Eff.PUT ("/users/" ++ userId)%string updates);
              Eff.ConsoleError "Error updating user:";
              Eff.Notify (Eff.ToastError "Failed to update user")]).
Proof.
  unfold UserManagement.handleUpdateUser. run_handler.
  set (f := fun user : User.t => if String.eqb (User.id user) userId then data else user).
  split; [intros n; apply nth_error_map |].
  split.
  { intros u Hin Hne. apply in_map_iff. exists u. split; [| exact Hin].
    unfold f. apply String.eqb_neq in Hne. now rewrite Hne. }
  split.
  { intros u Hin. apply in_map_iff in Hin. destruct Hin as [x [Hx Hin]].
    unfold f in Hx. destruct (String.eqb_spec (User.id x) userId) as [E | E].
    - left. congruence.
    - right. subst x. now split. }
  split; [apply length_map |].
  repeat (split; [reflexivity |]).
  intros err. reflexivity.
Qed.

(** ** The edit dialog never targets the current user *)

Lemma card_edit_item (currentUser user : User.t) (userId : string) :
  In (EditUserItem userId) (UserManagement.card currentUser user) ->
  User.role currentUser = "admin"%string /\ User.id user <> User.id currentUser /\
  userId = User.id user.
Proof.
  unfold UserManagement.card, UserManagement.isAdmin.
  destruct (String.eqb_spec (User.role currentUser) "admin") as [Hr | Hr]; simpl;
    [| intros []].
  destruct (String.eqb_spec (User.id currentUser) (User.id user)) as [Hi | Hi]; simpl;
    [intros [] |].
  intros [H | []]. injection H as <-. repeat split; congruence.
Qed.

Lemma step_keeps_editingOther (currentUser : User.t) (st st' : UserManagement.State) :
  UserManagement.step currentUser st st' ->
  Spec.editingOther currentUser st -> Spec.editingOther currentUser st'.
Proof.
  intros Hstep Hinv. destruct Hstep; try exact Hinv.
  - destruct response; exact Hinv.
  - destruct response; exact Hinv.
  - intros u Hu. simpl in Hu. injection Hu as <-.
    match goal with
    | H : In (EditUserItem _) _ |- _ => apply card_edit_item in H; tauto
    end.
  - intros u Hu. discriminate.
  - unfold UserManagement.submitEdit, Eff.run.
    destruct (UserManagement.editingUser st) as [u|] eqn:E; [| exact Hinv].
    destruct response as [data | err]; [| exact Hinv].
    intros v Hv. discriminate.
Qed.

Lemma reachable_editingOther (currentUser : User.t) (st : UserManagement.State) :
  UserManagement.reachable currentUser st -> Spec.editingOther currentUser st.
Proof.
  induction 1 as [| st st' _ IH Hstep].
  - intros u Hu. discriminate.
  - exact (step_keeps_editingOther currentUser st st' Hstep IH).
Qed.

(** X16.  In every state the user-management view can reach, by
    fetching, filtering, opening dialogs, creating users, choosing "Edit
    User" on a listed card, cancelling and submitting, the user being
    edited is never the current user, and only an admin is ever editing
    anyone.  So the edit form, when submitted, sends at most one
    request, a PUT to /users/{id} with an id other than the current
    user's, whose body has exactly the fields full_name, email, role,
    department and phone (an empty department or phone sent as [null]);
    in a session that is not an admin's it sends nothing. *)
Theorem edit_never_targets_self (currentUser : User.t) (st : UserManagement.State) :
  UserManagement.reachable currentUser st ->
  (forall u, UserManagement.editingUser st = Some u ->
             User.role currentUser = "admin"%string /\ User.id u <> User.id currentUser) /\
  (forall f response r,
      In r (Eff.requests (snd (Eff.run (UserManagement.submitEdit f response) st))) ->
      Eff.requests (snd (Eff.run (UserManagement.submitEdit f response) st)) = [r] /\
      Eff.method r = Eff.PUT /\
      Eff.path r <> ("/users/" ++ User.id currentUser)%string /\
      (exists u, UserManagement.editingUser st = Some u /\
                 Eff.path r = ("/users/" ++ User.id u)%string) /\
      Eff.body r = UserManagement.editUpdates f) /\
  (User.role currentUser <> "admin"%string ->
   forall f response,
     Eff.run (UserManagement.submitEdit f response) st = (st, [])) /\
  (forall f,
     map fst (UserManagement.editUpdates f)
       = ["full_name"; "email"; "role"; "department"; "phone"]%string /\
     (UserManagement.form_department f = Some ""%string ->
      In ("department"%string, None) (UserManagement.editUpdates f)) /\
     (UserManagement.form_phone f = Some ""%string ->
      In ("phone"%string, None) (UserManagement.editUpdates f))).
Proof.
  intros Hreach. pose proof (reachable_editingOther currentUser st Hreach) as Hinv.
  split; [exact Hinv |]. split; [| split].
  - intros f response r. unfold UserManagement.submitEdit, Eff.run.
    destruct (UserManagement.editingUser st) as [u|] eqn:E; [| intros []].
    destruct (Hinv u E) as [_ Hne].
    assert (Hreq : Eff.requests
                     (snd (let '(_, s', tr) :=
                             UserManagement.handleUpdateUser (User.id u)
                               (UserManagement.editUpdates f) response st [] in (s', tr)))
                   = [Eff.mkRequest Eff.PUT ("/users/" ++ User.id u)%string
                        (UserManagement.editUpdates f)])
      by (destruct response; reflexivity).
    rewrite Hreq. intros [<- | []]. simpl.
    split; [reflexivity |]. split; [reflexivity |]. split.
    + intros H. injection H as H. contradiction.
    + split; [now exists u | reflexivity].
  - intros Hr f response. unfold UserManagement.submitEdit, Eff.run.
    destruct (UserManagement.editingUser st) as [u|] eqn:E; [| reflexivity].
    destruct (Hinv u E) as [Hadmin _]. contradiction.
  - intros f. split; [reflexivity |].
    unfold UserManagement.editUpdates.
    split; intros H; rewrite H; simpl; tauto.
Qed.

(** The sample admin fetches the users, chooses "Edit User" on the
    employee's card and submits: one PUT to /users/u3. *)
Lemma edit_never_targets_self_witness :
  let form := UserManagement.mkEditForm (Some "Eve Employee"%string)
                (Some "employee@company.com"%string) (Some "manager"%string)
                (Some ""%string) None in
  let st := UserManagement.setShowEditDialog true
              (UserManagement.setEditingUser (Some Sample.employee)
                 Sample.userManagementState) in
  UserManagement.reachable Sample.admin st /\
  (User.role Sample.admin = "admin"%string /\
   User.id Sample.employee <> User.id Sample.admin) /\
  map Eff.path (Eff.requests (snd (Eff.run
        (UserManagement.submitEdit form (Eff.Resolved Sample.employee)) st)))
    = ["/users/u3"%string].
Proof.
  intros form st.
  assert (Hreach : UserManagement.reachable Sample.admin st).
  { apply (UserManagement.reach_step Sample.admin Sample.userManagementState).
    - apply (UserManagement.reach_step Sample.admin UserManagement.initialState).
      + apply UserManagement.reach_initial.
      + exact (UserManagement.step_fetch Sample.admin UserManagement.initialState
                 (Eff.Resolved Sample.users)).
    - apply (UserManagement.step_clickEdit Sample.admin Sample.userManagementState
               Sample.employee).
      + reflexivity.
      + simpl. tauto.
      + simpl. now left. }
  split; [exact Hreach |]. split; [| reflexivity].
  exact (proj1 (edit_never_targets_self Sample.admin st Hreach) Sample.employee eq_refl).
Defined.

(** ** Gates for the other roles *)

Lemma delete_item_for_non_employee (user : User.t) (st : TaskList.State) (task : Task.t) :
  User.role user <> "employee"%string -> TaskList.loading st = false ->
  In task (TaskList.filteredTasks (TaskList.tasks st) (TaskList.searchTerm st)
             (TaskList.statusFilter st) (TaskList.priorityFilter st)) ->
  In (EditTaskItem (Task.id task)) (TaskList.render user st) /\
  In (DeleteTaskItem (Task.id task)) (TaskList.render user st).
Proof.
  intros Hr Hl Hin. apply String.eqb_neq in Hr. unfold TaskList.render. rewrite Hl.
  destruct (TaskList.filteredTasks _ _ _ _) as [|t l] eqn:E; [destruct Hin |].
  rewrite <- E in *.
  assert (Hcard : In (EditTaskItem (Task.id task)) (TaskList.card user task) /\
                  In (DeleteTaskItem (Task.id task)) (TaskList.card user task)).
  { unfold TaskList.card. rewrite Hr. simpl. split; [now left | right; now left]. }
  split; apply in_or_app; right; apply in_flat_map; exists task; tauto.
Qed.

(** Where an affordance of the task list comes from: the create button,
    granted by [canCreate], or the card of a listed task. *)
Lemma render_sources (user : User.t) (st : TaskList.State) (a : Affordance) :
  In a (TaskList.render user st) ->
  (a = CreateTaskButton \/
   exists t, In t (TaskList.filteredTasks (TaskList.tasks st) (TaskList.searchTerm st)
                     (TaskList.statusFilter st) (TaskList.priorityFilter st)) /\
             In a (TaskList.card user t)) /\
  (a = CreateTaskButton -> TaskList.canCreate user = true).
Proof.
  unfold TaskList.render. destruct (TaskList.loading st); [intros [] |].
  intros H. apply in_app_or in H. destruct H as [H | H].
  - destruct (TaskList.canCreate user); [| destruct H]. destruct H as [<- | []].
    split; [now left | reflexivity].
  - destruct (TaskList.filteredTasks _ _ _ _) as [|t l] eqn:E.
    + destruct (TaskList.canCreate user); [| destruct H]. destruct H as [<- | []].
      split; [now left | reflexivity].
    + rewrite <- E in *. apply in_flat_map in H. destruct H as [x [Hx Ha]].
      split; [right; now exists x |].
      intros ->. destruct (card_affordance_ids user x _ Ha) as [H | [H | [l' [u' H]]]];
        discriminate.
Qed.

(** X17.  The manager's gates.  Once the views have loaded, a manager is
    offered "Create Task", an edit and a delete item on every listed
    task, "Manage Users" on the dashboard and the link to user
    management in the navigation bar; in the user-management view the
    manager is offered neither "Add User" nor any edit item, and so can
    only look at the users. *)
Theorem manager_affordances (manager : User.t) :
  User.role manager = "manager"%string ->
  (forall st, TaskList.loading st = false ->
      In CreateTaskButton (TaskList.render manager st) /\
      forall task,
        In task (TaskList.filteredTasks (TaskList.tasks st) (TaskList.searchTerm st)
                   (TaskList.statusFilter st) (TaskList.priorityFilter st)) ->
        In (EditTaskItem (Task.id task)) (TaskList.render manager st) /\
        In (DeleteTaskItem (Task.id task)) (TaskList.render manager st)) /\
  (forall st, Dashboard.loading st = false ->
      In ManageUsersButton (Dashboard.render manager st)) /\
  In (NavLink "User Management" "/users") (Navigation.render manager) /\
  (forall st, UserManagement.render manager st = []).
Proof.
  intros Hr. split; [| split; [| split]].
  - intros st Hl. split.
    + unfold TaskList.render, TaskList.canCreate. rewrite Hl, Hr. now left.
    + intros task Hin. apply delete_item_for_non_employee; try assumption.
      rewrite Hr. discriminate.
  - intros st Hl. unfold Dashboard.render. rewrite Hl, Hr. simpl. right. now left.
  - unfold Navigation.render, Navigation.filteredNavItems. rewrite Hr. simpl. tauto.
  - intros st. unfold UserManagement.render, UserManagement.isAdmin. rewrite Hr. simpl.
    destruct (UserManagement.loading st); [reflexivity |].
    destruct (UserManagement.filteredUsers _ _ _) as [|u l] eqn:E; [reflexivity |].
    rewrite <- E. clear E.
    induction (UserManagement.filteredUsers _ _ _) as [|x xs IH]; [reflexivity |].
    simpl. unfold UserManagement.card at 1, UserManagement.isAdmin. now rewrite Hr.
Qed.

Lemma manager_affordances_witness :
  In (DeleteTaskItem "t1") (TaskList.render Sample.manager Sample.taskListState) /\
  UserManagement.render Sample.manager Sample.userManagementState = [].
Proof.
  destruct (manager_affordances Sample.manager eq_refl) as [Htl [_ [_ Hum]]].
  split; [| apply Hum].
  apply (proj2 (Htl Sample.taskListState eq_refl) Sample.report). simpl. now left.
Defined.

(** X18.  Two kinds of gate.  "Create Task", "Add User" and the
    navigation links are granted to listed roles; the delete item, the
    "Manage Users" button and the "Total Employees" tile are granted to
    every role that is not employee.  For the three roles of the data
    model the two kinds agree: the "Manage Users" button is shown exactly
    when the navigation links to user management.  For any other role
    string they part: the navigation bar is empty and there is no
    "Create Task" and no "Add User", while the delete items, "Manage
    Users" and the employee count are shown. *)
Theorem allow_and_deny_gates (user : User.t) :
  (In (User.role user) Spec.roles ->
   (forall st, Dashboard.loading st = false ->
      (In ManageUsersButton (Dashboard.render user st) <->
       In (NavLink "User Management" "/users") (Navigation.render user))) /\
   In (NavLink "Dashboard" "/dashboard") (Navigation.render user) /\
   In (NavLink "Tasks" "/tasks") (Navigation.render user)) /\
  (~ In (User.role user) Spec.roles ->
   Navigation.render user = [] /\
   (forall st, ~ In CreateTaskButton (TaskList.render user st)) /\
   (forall st, ~ In AddUserButton (UserManagement.render user st)) /\
   (forall st, Dashboard.loading st = false ->
      In ManageUsersButton (Dashboard.render user st) /\
      exists rest, Dashboard.tiles user st
                   = ("Total Employees"%string,
                      Dashboard.orZero Stats.total_employees (Dashboard.stats st)) :: rest) /\
   (forall st task, TaskList.loading st = false ->
      In task (TaskList.filteredTasks (TaskList.tasks st) (TaskList.searchTerm st)
                 (TaskList.statusFilter st) (TaskList.priorityFilter st)) ->
      In (DeleteTaskItem (Task.id task)) (TaskList.render user st))).
Proof.
  split.
  - intros Hin. simpl in Hin.
    unfold Navigation.render, Navigation.filteredNavItems, Dashboard.render.
    destruct Hin as [<- | [<- | [<- | []]]]; simpl;
      (split; [| split; [now left | right; now left]]);
      intros st ->; simpl; split; intros H;
      first [ now auto 6
            | exfalso; repeat (destruct H as [H | H]; try discriminate); exact H ].
  - intros Hout.
    assert (Ha : User.role user <> "admin"%string) by (intros E; apply Hout; rewrite E; simpl; auto).
    assert (Hm : User.role user <> "manager"%string) by (intros E; apply Hout; rewrite E; simpl; auto).
    assert (He : User.role user <> "employee"%string) by (intros E; apply Hout; rewrite E; simpl; auto).
    pose proof Ha as Ha'. pose proof Hm as Hm'. pose proof He as He'.
    apply String.eqb_neq in Ha', Hm', He'.
    split; [| split; [| split; [| split]]].
    + unfold Navigation.render, Navigation.filteredNavItems. simpl.
      now rewrite Ha', Hm', He'.
    + intros st Hin.
      destruct (render_sources user st CreateTaskButton Hin) as [_ Hc].
      unfold TaskList.canCreate in Hc. rewrite Ha', Hm' in Hc.
      specialize (Hc eq_refl). discriminate.
    + intros st. unfold UserManagement.render, UserManagement.isAdmin. rewrite Ha'. simpl.
      destruct (UserManagement.loading st); [intros [] |].
      destruct (UserManagement.filteredUsers _ _ _) as [|u l] eqn:E; [intros [] |].
      rewrite <- E. intros H. apply in_flat_map in H. destruct H as [x [_ H]].
      unfold UserManagement.card, UserManagement.isAdmin in H. rewrite Ha' in H.
      destruct H.
    + intros st Hl. split.
      * unfold Dashboard.render. rewrite Hl, He'. simpl. right. now left.
      * unfold Dashboard.tiles. rewrite He'. simpl. eexists. reflexivity.
    + intros st task Hl Hin. now apply delete_item_for_non_employee.
Qed.

Lemma allow_and_deny_gates_witness :
  let contractor := User.mk "u4" "c@company.com" "Cy Contractor" "contractor"
                            None None None "2024-03-01T09:00:00.000Z" in
  Navigation.render contractor = [] /\
  In (DeleteTaskItem "t1") (TaskList.render contractor Sample.taskListState) /\
  ~ In CreateTaskButton (TaskList.render contractor Sample.taskListState).
Proof.
  intros contractor.
  assert (Hout : ~ In (User.role contractor) Spec.roles)
    by (simpl; intros [H | [H | [H | []]]]; discriminate).
  destruct (proj2 (allow_and_deny_gates contractor) Hout) as [Hnav [Hcreate [_ [_ Hdel]]]].
  split; [exact Hnav |]. split; [| apply Hcreate].
  apply (Hdel Sample.taskListState Sample.report eq_refl). simpl. now left.
Defined.

(** X19.  An employee is offered actions on their own tasks only.  Every
    affordance the task list renders for an employee is an edit item or
    a quick action of a listed task assigned to that employee; and every
    listed task assigned to the employee carries the edit item. *)
Theorem employee_acts_on_own_tasks (user : User.t) (st : TaskList.State) :
  User.role user = "employee"%string ->
  (forall a, In a (TaskList.render user st) ->
     exists t, In t (TaskList.tasks st) /\
               Task.assigned_to t = Some (User.id user) /\
               (a = EditTaskItem (Task.id t) \/
                exists label updates, a = QuickAction label (Task.id t) updates)) /\
  (forall t, TaskList.loading st = false ->
     In t (TaskList.filteredTasks (TaskList.tasks st) (TaskList.searchTerm st)
             (TaskList.statusFilter st) (TaskList.priorityFilter st)) ->
     Task.assigned_to t = Some (User.id user) ->
     In (EditTaskItem (Task.id t)) (TaskList.render user st)) /\
  (forall t, In t (TaskList.tasks st) ->
     Task.assigned_to t <> Some (User.id user) -> TaskList.card user t = []).
Proof.
  intros Hr. split; [| split].
  - intros a Ha. destruct (render_sources user st a Ha) as [[-> | [t [Ht Hcard]]] Hc].
    + specialize (Hc eq_refl). rewrite (employee_cannot_create user Hr) in Hc. discriminate.
    + exists t. split.
      { unfold TaskList.filteredTasks in Ht. apply filter_In in Ht. tauto. }
      unfold TaskList.card in Hcard. rewrite Hr in Hcard. simpl in Hcard.
      apply in_app_or in Hcard. destruct Hcard as [H | H].
      * destruct (JS.strictEq (Task.assigned_to t) (User.id user)) eqn:E; [| destruct H].
        apply strictEq_true in E. destruct H as [<- | []]. split; [exact E | now left].
      * apply in_quickActions in H. destruct H as [Hassigned [[_ ->] | [_ ->]]];
          (split; [exact Hassigned | right; eauto]).
  - intros t Hl Hin Hassigned. unfold TaskList.render. rewrite Hl.
    destruct (TaskList.filteredTasks _ _ _ _) as [|x l] eqn:E; [destruct Hin |].
    rewrite <- E in *. apply in_or_app. right. apply in_flat_map. exists t.
    split; [exact Hin |]. unfold TaskList.card. rewrite Hr, Hassigned. simpl.
    rewrite String.eqb_refl. now left.
  - intros t _ Hne. unfold TaskList.card, TaskList.quickActions. rewrite Hr. simpl.
    destruct (JS.strictEq (Task.assigned_to t) (User.id user)) eqn:E; [| reflexivity].
    apply strictEq_true in E. contradiction.
Qed.

(** The sample employee sees the edit item of the report, assigned to
    them, and nothing on the unassigned login fix. *)
Lemma employee_acts_on_own_tasks_witness :
  In (EditTaskItem "t1") (TaskList.render Sample.employee Sample.taskListState) /\
  ~ In (EditTaskItem "t4") (TaskList.render Sample.employee Sample.taskListState).
Proof.
  destruct (employee_acts_on_own_tasks Sample.employee Sample.taskListState eq_refl)
    as [Hown [Hedit _]].
  split.
  - apply (Hedit Sample.report eq_refl); [simpl; now left | reflexivity].
  - intros H. destruct (Hown _ H) as [t [Hin [Hassigned [E | [l [u E]]]]]]; [| discriminate].
    injection E as E. simpl in Hin.
    destruct Hin as [<- | [<- | [<- | [<- | [<- | [<- | [<- | []]]]]]]]; discriminate.
Defined.

(** ** Signing in *)

(** X20.  Submitting the login form.  Whatever the auth context
    answers, the loading flag is off again afterwards, the typed
    credentials stay in the form, and the view itself sends no request.
    A success leaves no error, also when an earlier attempt had left
    one, and shows one success notification.  A failure stores the
    message, shows it as the one error notification, and the alert above
    the form shows it when it is not empty.  With a signed-in user the
    view renders the redirect to the dashboard and no form. *)
Theorem login_submit (result : Login.LoginResult) (st : Login.State) :
  let '(st', tr) := Eff.run (Login.handleSubmit result) st in
  Login.loading st' = false /\
  Login.formData st' = Login.formData st /\
  Login.showPassword st' = Login.showPassword st /\
  Eff.requests tr = [] /\
  (result = Login.LoginSucceeded ->
     Login.error st' = ""%string /\
     Eff.toasts tr = [Eff.ToastSuccess "Welcome back! Login successful."] /\
     exists email password, Login.render None st' = Login.Form None email password false) /\
  (forall e, result = Login.LoginFailed e ->
     Login.error st' = e /\
     Eff.toasts tr = [Eff.ToastError e] /\
     exists email password,
       Login.render None st'
         = Login.Form (if String.eqb e "" then None else Some e) email password false) /\
  (forall u, Login.render (Some u) st' = Login.RedirectToDashboard).
Proof.
  unfold Login.handleSubmit. destruct result as [| e]; run_handler;
    repeat (split; [reflexivity |]); (split; [| split; [| reflexivity]]).
  - intros _. unfold Login.render. simpl. repeat split. eauto.
  - intros e H. discriminate.
  - intros H. discriminate.
  - intros e' [= <-]. unfold Login.render. simpl. repeat split. eauto.
Qed.

Lemma get_put_same (key value : string) (form : Login.FormData) :
  Login.get key (Login.put key value form) = Some value.
Proof. unfold Login.get, Login.put. now rewrite String.eqb_refl. Qed.

Lemma get_put_other (key key' value : string) (form : Login.FormData) :
  key' <> key -> Login.get key' (Login.put key value form) = Login.get key' form.
Proof.
  intros Hne. unfold Login.get, Login.put.
  apply String.eqb_neq in Hne. now rewrite Hne.
Qed.

(** X21.  Typing into the login form.  A change event for a field sets
    that field to the typed value and leaves every other field as it
    was; nothing else of the state changes.  Of two changes to the same
    field the later one stands, and changes to different fields can come
    in either order.  The inputs show what was last typed: after a change
    of the e-mail the form shows the new e-mail and the password as it
    was, and the other way round. *)
Theorem login_change (name value : string) (st : Login.State) :
  let st' := Login.handleChange name value st in
  Login.get name (Login.formData st') = Some value /\
  (forall other, other <> name ->
     Login.get other (Login.formData st') = Login.get other (Login.formData st)) /\
  Login.loading st' = Login.loading st /\ Login.error st' = Login.error st /\
  Login.showPassword st' = Login.showPassword st /\
  (forall value' key,
     Login.get key (Login.formData (Login.handleChange name value' st'))
     = Login.get key (Login.formData (Login.handleChange name value' st))) /\
  (forall name' value' key, name' <> name ->
     Login.get key (Login.formData (Login.handleChange name' value' st'))
     = Login.get key (Login.formData
                        (Login.handleChange name value
                           (Login.handleChange name' value' st)))) /\
  (name = "email"%string ->
     exists alert disabled,
       Login.render None st'
         = Login.Form alert (Some value)
             (Login.get "password" (Login.formData st)) disabled) /\
  (name = "password"%string ->
     exists alert disabled,
       Login.render None st'
         = Login.Form alert (Login.get "email" (Login.formData st))
             (Some value) disabled).
Proof.
  intros st'. unfold st', Login.handleChange. simpl.
  split; [apply get_put_same |].
  split; [intros other H; now apply get_put_other |].
  split; [reflexivity |]. split; [reflexivity |]. split; [reflexivity |].
  split.
  { intros value' key. unfold Login.get, Login.put.
    destruct (String.eqb key name); reflexivity. }
  split.
  { intros name' value' key Hne. unfold Login.get, Login.put.
    destruct (String.eqb_spec key name') as [-> | _]; [| reflexivity].
    apply String.eqb_neq in Hne. now rewrite Hne. }
  split; intros ->; unfold Login.render; simpl;
    rewrite get_put_same, get_put_other by discriminate; eauto.
Qed.

(** From the empty form, typing the e-mail address and then the
    password shows both, with no alert and the button enabled. *)
Lemma login_change_sample :
  Login.render None
    (Login.handleChange "password" "admin123"
       (Login.handleChange "email" "admin@company.com" Login.initialState))
  = Login.Form None (Some "admin@company.com"%string) (Some "admin123"%string) false.
Proof. reflexivity. Qed.

(** ** The navigation bar *)

Lemma filter_single_key {A : Type} (key : A -> string) (k : string) (l : list A) :
  NoDup (map key l) ->
  (List.length (filter (fun x => String.eqb k (key x)) l) <= 1)%nat.
Proof.
  induction l as [|x l IH]; simpl; [lia |].
  intros H. inversion H as [| ? ? Hx Hl]; subst.
  destruct (String.eqb_spec k (key x)) as [-> | Hne]; [| now apply IH].
  simpl. replace (filter (fun y => String.eqb (key x) (key y)) l) with (@nil A); [simpl; lia |].
  symmetry. clear IH H Hl. induction l as [|y l IHl]; simpl; [reflexivity |].
  destruct (String.eqb_spec (key x) (key y)) as [E | _].
  - exfalso. apply Hx. simpl. now left.
  - apply IHl. intros Hin. apply Hx. simpl. now right.
Qed.

Lemma nav_targets_distinct (user : User.t) :
  NoDup (map Navigation.to (Navigation.filteredNavItems user)).
Proof.
  unfold Navigation.filteredNavItems, Navigation.navItems. cbn [filter Navigation.allowed].
  repeat match goal with
         | |- context [if ?b then _ else _] => destruct b
         end;
    cbn [map Navigation.to]; repeat constructor; simpl; intuition discriminate.
Qed.

Lemma filter_map_length {A B : Type} (g : A -> B) (p : B -> bool) (l : list A) :
  List.length (filter p (map g l)) = List.length (filter (fun x => p (g x)) l).
Proof.
  induction l as [|x l IH]; simpl; [reflexivity |].
  destruct (p (g x)); simpl; now rewrite IH.
Qed.

(** X22.  The highlighted navigation link.  Whatever the path and the
    role, at most one link carries the active class; a link is active
    exactly when its target is the current path; and some link is active
    exactly when the current path is one of the routes offered to this
    user, so a path outside the user's links highlights nothing. *)
Theorem nav_active_link (user : User.t) (pathname : string) :
  let shown := Navigation.links user pathname in
  (List.length (filter snd shown) <= 1)%nat /\
  (forall target active, In (target, active) shown ->
     (active = true <-> target = pathname)) /\
  (In (pathname, true) shown <->
   exists item, In item (Navigation.filteredNavItems user) /\
                Navigation.to item = pathname) /\
  ((forall item, In item (Navigation.filteredNavItems user) ->
      Navigation.to item <> pathname) ->
   filter snd shown = []).
Proof.
  intros shown. unfold shown, Navigation.links. split; [| split; [| split]].
  - rewrite filter_map_length. simpl.
    apply (filter_single_key Navigation.to pathname), nav_targets_distinct.
  - intros target active H. apply in_map_iff in H. destruct H as [item [[= <- <-] _]].
    rewrite String.eqb_eq. split; congruence.
  - split.
    + intros H. apply in_map_iff in H. destruct H as [item [[= E _] Hin]]. eauto.
    + intros [item [Hin E]]. apply in_map_iff. exists item. split; [| exact Hin].
      rewrite E, String.eqb_refl. reflexivity.
  - intros Hnone. induction (Navigation.filteredNavItems user) as [|x l IH]; [reflexivity |].
    simpl. destruct (String.eqb_spec pathname (Navigation.to x)) as [E | _].
    + exfalso. apply (Hnone x); [now left | congruence].
    + apply IH. intros item Hin. apply Hnone. now right.
Qed.

(** ** Order of the recent tasks *)

Section Stability.
Variable Date_parse : string -> option Z.

Let cmp := Dashboard.byCreatedDesc Date_parse.

Lemma insert_keeps_ties (k : Z) (x : Task.t) (l : list Task.t) :
  Spec.validDates Date_parse (x :: l) ->
  filter (Spec.createdAt Date_parse k) (JS.insert cmp x l)
  = filter (Spec.createdAt Date_parse k) (x :: l).
Proof.
  induction l as [|y l IH]; intros Hv; [reflexivity |].
  inversion Hv as [|? ? Hx Hyl]; subst. inversion Hyl as [|? ? Hy Hl]; subst.
  cbn [JS.insert]. unfold cmp at 1. rewrite (sortCompare_valid Date_parse x y Hx Hy).
  destruct (Z.leb_spec (Spec.timeOf Date_parse y - Spec.timeOf Date_parse x) 0) as [_ | Hlt];
    [reflexivity |].
  cbn [filter]. rewrite IH by (constructor; assumption). cbn [filter].
  unfold Spec.createdAt.
  destruct (Z.eqb_spec (Spec.timeOf Date_parse x) k), (Z.eqb_spec (Spec.timeOf Date_parse y) k);
    try reflexivity; lia.
Qed.

Lemma sort_keeps_ties (k : Z) (l : list Task.t) :
  Spec.validDates Date_parse l ->
  filter (Spec.createdAt Date_parse k) (JS.sort cmp l)
  = filter (Spec.createdAt Date_parse k) l.
Proof.
  induction l as [|x l IH]; intros Hv; [reflexivity |].
  inversion Hv as [|? ? Hx Hl]; subst. cbn [JS.sort].
  rewrite insert_keeps_ties by (constructor; [exact Hx | now apply sort_valid]).
  cbn [filter]. now rewrite (IH Hl).
Qed.

Lemma filter_all {A : Type} (p : A -> bool) (l : list A) :
  (forall x, In x l -> p x = true) -> filter p l = l.
Proof.
  induction l as [|x l IH]; simpl; intros H; [reflexivity |].
  rewrite (H x) by now left. f_equal. apply IH. intros y Hy. apply H. now right.
Qed.

End Stability.

(** X23.  The sort of the recent tasks is stable.  When every creation
    date of the response parses, tasks created at the same instant keep
    the order the server sent them in: the sorted array restricted to any
    one creation time is the response restricted to it.  So a response
    whose tasks all share one creation time, like one that is already
    newest first, comes out as its own first five. *)
Theorem recent_tasks_stable (Date_parse : string -> option Z) (data : list Task.t) :
  Spec.validDates Date_parse data ->
  (forall k, filter (Spec.createdAt Date_parse k) (Dashboard.sortedInPlace Date_parse data)
             = filter (Spec.createdAt Date_parse k) data) /\
  (forall k, (forall t, In t data -> Spec.timeOf Date_parse t = k) ->
             Dashboard.sortedTasks Date_parse data = firstn 5 data) /\
  (Spec.descending Date_parse data ->
   Dashboard.sortedTasks Date_parse data = firstn 5 data).
Proof.
  intros Hv. unfold Dashboard.sortedTasks, Dashboard.sortedInPlace.
  split; [intros k; now apply sort_keeps_ties |]. split.
  - intros k Hall. f_equal.
    rewrite <- (filter_all (Spec.createdAt Date_parse k)
                  (JS.sort (Dashboard.byCreatedDesc Date_parse) data)).
    + rewrite sort_keeps_ties by exact Hv. apply filter_all.
      intros t Ht. unfold Spec.createdAt. apply Z.eqb_eq. now apply Hall.
    + intros t Ht. unfold Spec.createdAt. apply Z.eqb_eq. apply Hall.
      apply (Permutation_in t (sort_perm Date_parse data) Ht).
  - intros Hd. now rewrite sort_fixed.
Qed.

(** Two tasks created on 3 March after an older one: the sort moves both
    ahead of the older task and keeps them in the order received. *)
Lemma recent_tasks_stable_witness :
  let first := Sample.task "a" "First" "pending" "2024-03-03T09:00:00.000Z" None None in
  let second := Sample.task "b" "Second" "pending" "2024-03-03T09:00:00.000Z" None None in
  Dashboard.sortedTasks Sample.Date_parse [Sample.audit; first; second]
    = [first; second; Sample.audit] /\
  filter (Spec.createdAt Sample.Date_parse 1709456400000)
         (Dashboard.sortedInPlace Sample.Date_parse [Sample.audit; first; second])
    = [first; second].
Proof.
  intros first second. split; [reflexivity |].
  assert (Hv : Spec.validDates Sample.Date_parse [Sample.audit; first; second])
    by (repeat constructor; discriminate).
  exact (eq_trans
           (proj1 (recent_tasks_stable Sample.Date_parse _ Hv) 1709456400000) eq_refl).
Defined.

(** ** The due-date line *)

(** X24.  The due-date line of a task card.  The line fails to render
    exactly when the due date is a non-empty text that is not a date,
    the date library refusing to format it.  Otherwise the fixed text for
    a missing date is shown exactly when the task has no due date or an
    empty one, and is then neither red nor followed by the overdue
    suffix; a formatted date is red when it lies before the first
    reading of the clock and carries the suffix when it lies before the
    second.  So a red line always carries the suffix when the clock does
    not run backwards, the two agree when both readings are the same, and
    they differ only for a due date that falls between the readings. *)
Theorem due_line_consistent
        (Date_parse : string -> option Z) (nowClass nowSuffix : Z) (task : Task.t) :
  (TaskList.dueLine Date_parse nowClass nowSuffix task = None <->
   exists s, Task.due_date task = Some s /\ s <> ""%string /\ Date_parse s = None) /\
  forall text red suffix,
    TaskList.dueLine Date_parse nowClass nowSuffix task = Some (text, red, suffix) ->
    (text = TaskList.NoDueDate <->
     Task.due_date task = None \/ Task.due_date task = Some ""%string) /\
    (text = TaskList.NoDueDate -> red = false /\ suffix = false) /\
    (forall d, text = TaskList.Formatted d ->
       (exists s, Task.due_date task = Some s /\ s <> ""%string /\
                  Date_parse s = Some d) /\
       (red = true <-> d < nowClass) /\
       (suffix = true <-> d < nowSuffix)) /\
    (nowClass <= nowSuffix -> red = true -> suffix = true) /\
    (nowClass = nowSuffix -> red = suffix) /\
    (red <> suffix ->
     exists d, text = TaskList.Formatted d /\
               (nowClass <= d < nowSuffix \/ nowSuffix <= d < nowClass)).
Proof.
  unfold TaskList.dueLine, TaskList.formatDate, TaskList.isOverdue.
  destruct (Task.due_date task) as [s |]; simpl.
  - destruct (String.eqb_spec s "") as [-> | Hne]; simpl.
    + split.
      { split; [discriminate |]. intros [s [[= <-] [H _]]]. now contradiction H. }
      intros text red suffix [= <- <- <-].
      split; [tauto |]. split; [tauto |]. split; [discriminate |].
      split; [tauto |]. split; [reflexivity |]. intros H. now contradiction H.
    + destruct (Date_parse s) as [d |] eqn:E.
      * split.
        { split; [discriminate |]. intros [s' [[= <-] [_ H]]]. congruence. }
        intros text red suffix [= <- <- <-].
        split; [split; [discriminate | intros [H | [= H]]; [discriminate | contradiction]] |].
        split; [discriminate |].
        split.
        { intros d' [= <-]. split; [now exists s |]. now rewrite !Z.ltb_lt. }
        split; [rewrite !Z.ltb_lt; lia |].
        split; [now intros -> |].
        intros H. exists d. split; [reflexivity |].
        destruct (Z.ltb_spec d nowClass), (Z.ltb_spec d nowSuffix);
          try (now contradiction H); lia.
      * split; [| discriminate].
        split; [| reflexivity]. intros _. now exists s.
  - split.
    { split; [discriminate |]. intros [s [H _]]. discriminate. }
    intros text red suffix [= <- <- <-].
    split; [tauto |]. split; [tauto |]. split; [discriminate |].
    split; [tauto |]. split; [reflexivity |]. intros H. now contradiction H.
Qed.

(** The sample report is due at 1709542800000.  With the clock read at
    that instant for the class and one millisecond later for the suffix,
    the line is not red and yet says "(Overdue)"; and a due date that is
    not a date does not render. *)
Lemma due_line_samples :
  TaskList.dueLine Sample.Date_parse 1709542800000 1709542800001 Sample.report
    = Some (TaskList.Formatted 1709542800000, false, true) /\
  TaskList.dueLine Sample.Date_parse 1709542800001 1709542800001 Sample.report
    = Some (TaskList.Formatted 1709542800000, true, true) /\
  TaskList.dueLine Sample.Date_parse 0 0 Sample.audit
    = Some (TaskList.NoDueDate, false, false) /\
  TaskList.dueLine Sample.Date_parse 0 0
      (Sample.task "t11" "Call back" "pending" "2024-03-01T09:00:00.000Z"
                   None (Some "soon"%string)) = None.
Proof. repeat split. Qed.

(** ** The greeting *)

Lemma split_word (w : string) :
  Spec.lacks " " w = true -> JS.split " " w = [w].
Proof.
  induction w as [|c w IH]; simpl; [reflexivity |].
  destruct (Ascii.eqb c " "); simpl; [discriminate |].
  intros H. now rewrite (IH H).
Qed.

Lemma split_first_word (w rest : string) :
  Spec.lacks " " w = true ->
  JS.split " " (w ++ String " " rest) = w :: JS.split " " rest.
Proof.
  induction w as [|c w IH]; simpl; [reflexivity |].
  destruct (Ascii.eqb c " "); simpl; [discriminate |].
  intros H. now rewrite (IH H).
Qed.

Lemma first_word_exists (s : string) :
  exists w, Spec.lacks " " w = true /\
            (s = w \/ exists rest, s = (w ++ String " " rest)%string).
Proof.
  induction s as [|c s [w [Hw Hs]]].
  - exists EmptyString. split; [reflexivity | now left].
  - destruct (Ascii.eqb_spec c " ") as [-> | Hne].
    + exists EmptyString. split; [reflexivity |]. right. now exists s.
    + exists (String c w). split.
      * simpl. apply Ascii.eqb_neq in Hne. now rewrite Hne.
      * destruct Hs as [-> | [rest ->]]; [now left | right; now exists rest].
Qed.

Lemma lacks_separator (w rest : string) :
  Spec.lacks " " (w ++ String " " rest) = false.
Proof.
  induction w as [|c w IH]; simpl; [reflexivity |].
  rewrite IH. apply andb_false_r.
Qed.

Lemma first_word_unique (w w' rest rest' : string) :
  Spec.lacks " " w = true -> Spec.lacks " " w' = true ->
  (w ++ String " " rest)%string = (w' ++ String " " rest')%string -> w = w'.
Proof.
  intros Hw Hw' E.
  assert (H : JS.split " " (w ++ String " " rest) = JS.split " " (w' ++ String " " rest'))
    by now rewrite E.
  rewrite !split_first_word in H by assumption. now injection H.
Qed.

(** X25.  The name in the dashboard greeting is the user's full name up
    to its first space: it contains no space, and the full name is that
    name alone or that name, a space, and a rest.  A full name without a
    space is greeted in full; one that begins with a space gives an
    empty greeting name. *)
Theorem welcomeName_first_word (user : User.t) :
  let name := Dashboard.welcomeName user in
  Spec.lacks " " name = true /\
  (User.full_name user = name \/
   exists rest, User.full_name user = (name ++ String " " rest)%string) /\
  (forall w rest, Spec.lacks " " w = true ->
     User.full_name user = (w ++ String " " rest)%string -> name = w) /\
  (Spec.lacks " " (User.full_name user) = true -> name = User.full_name user).
Proof.
  intros name. unfold name, Dashboard.welcomeName.
  destruct (first_word_exists (User.full_name user)) as [w [Hw [E | [rest E]]]];
    rewrite E.
  - rewrite (split_word w Hw).
    split; [exact Hw |]. split; [now left |]. split; [| reflexivity].
    intros w' rest' _ E'. rewrite E', lacks_separator in Hw. discriminate.
  - rewrite (split_first_word w rest Hw).
    split; [exact Hw |]. split; [right; now exists rest |]. split.
    + intros w' rest' Hw' E'. now apply (first_word_unique w w' rest rest').
    + rewrite lacks_separator. discriminate.
Qed.
